(** * SUMP logic analyzer: ring buffer, capture engine and command dispatch

    A shallow embedding of [src/logic_analyzer.h] (namespace
    [logic_analyzer]): the template class [RingBuffer<T>] and the parts of
    [LogicAnalyzer<T>] that sample, window, dump and dispatch commands.

    Conventions.
    - [size_t], [unsigned long] and [uint32_t] are 32-bit unsigned integers
      (the RP2040 and ESP32 targets of the library), [int] and [long] are
      32-bit signed, [uint64_t] is 64-bit unsigned.  They are values of [Z];
      where the C++ arithmetic can wrap, the wrap is written out.
    - The array [data] of a ring buffer is the list of the cells that
      [new T[size]] returned.  Reading or writing [data[i]] with [i] outside
      that list is undefined behaviour in C++; the model stops there with
      [Fault (OutOfBounds i)].
    - Loops that the source does not bound ([while] in [capture] and its
      helpers) take fuel and stop with [Fault OutOfFuel] when it is used up. *)

From Stdlib Require Import ZArith List Lia QArith Qround.
From stdpp Require Import base list.
Import ListNotations.
Open Scope Z_scope.

(** ** Outcomes of a computation *)

Inductive fault : Type :=
| OutOfBounds (index : Z)   (* data[index] outside of the allocated cells *)
| NullPointer               (* dereference of a pointer that is nullptr *)
| DivisionByZero            (* integer division by zero *)
| NotRepresentable          (* signed overflow; float to integer out of range *)
| OutOfFuel.                (* an unbounded loop did not finish within the fuel *)

Inductive outcome (A : Type) : Type :=
| Ok (a : A)
| Fault (f : fault).

Arguments Ok {A} a.
Arguments Fault {A} f.

#[global] Instance outcome_ret : MRet outcome := fun A a => Ok a.

#[global] Instance outcome_bind : MBind outcome := fun A B k m =>
  match m with
  | Ok a => k a
  | Fault f => Fault f
  end.

(** ** Machine integers *)

Definition wrap_bits (bits : Z) (z : Z) : Z := z mod 2 ^ bits.

(** [size_t], [unsigned long], [uint32_t]. *)
Definition wrap_size_t (z : Z) : Z := wrap_bits 32 z.

(** [int] and [long]: the range in which signed arithmetic is defined. *)
Definition int_min : Z := - 2 ^ 31.
Definition int_max : Z := 2 ^ 31 - 1.

Definition in_int_range (z : Z) : bool := (int_min <=? z) && (z <=? int_max).

(** ** Array cells *)

Definition load (cells : list Z) (i : Z) : outcome Z :=
  if (0 <=? i) && (i <? Z.of_nat (length cells)) then
    match cells !! Z.to_nat i with
    | Some v => Ok v
    | None => Fault (OutOfBounds i)
    end
  else Fault (OutOfBounds i).

Definition store (cells : list Z) (i v : Z) : outcome (list Z) :=
  if (0 <=? i) && (i <? Z.of_nat (length cells)) then
    Ok (<[Z.to_nat i := v]> cells)
  else Fault (OutOfBounds i).

(** ** RingBuffer<T> *)

Module RingBuffer.

Record t : Type := mk {
  available_count : Z;
  size_count : Z;
  write_pos : Z;
  read_pos : Z;
  ignore_count : Z;
  data : list Z
}.

(** [RingBuffer(size_t size)].  [alloc] is what [new T[size]] returned:
    [Some content] for an array of [size] cells, cell [i] holding whatever
    [content i] is, or [None] for the nullptr of a failed allocation, in
    which case [size_count] becomes 0. *)
Definition new (size : Z) (alloc : option (nat -> Z)) : t :=
  match alloc with
  | Some content =>
      {| available_count := 0; size_count := size; write_pos := 0;
         read_pos := 0; ignore_count := 0;
         data := map content (seq 0 (Z.to_nat size)) |}
  | None =>
      {| available_count := 0; size_count := 0; write_pos := 0;
         read_pos := 0; ignore_count := 0; data := [] |}
  end.

(** [void write(T value)] *)
Definition write (value : Z) (b : t) : outcome t :=
  if 0 <? ignore_count b then
    Ok {| available_count := available_count b; size_count := size_count b;
          write_pos := write_pos b; read_pos := read_pos b;
          ignore_count := ignore_count b - 1; data := data b |}
  else
    cells ← store (data b) (write_pos b) value;
    let wp := wrap_size_t (write_pos b + 1) in
    let wp := if size_count b <? wp then 0 else wp in
    if available_count b <? size_count b then
      Ok {| available_count := wrap_size_t (available_count b + 1);
            size_count := size_count b; write_pos := wp;
            read_pos := read_pos b; ignore_count := ignore_count b;
            data := cells |}
    else
      Ok {| available_count := available_count b;
            size_count := size_count b; write_pos := wp;
            read_pos := wrap_size_t (wp + 1);
            ignore_count := ignore_count b; data := cells |}.

(** [T read()] *)
Definition read (b : t) : outcome (Z * t) :=
  if 0 <? available_count b then
    let rp := if size_count b <? read_pos b then 0 else read_pos b in
    result ← load (data b) rp;
    Ok (result,
        {| available_count := available_count b - 1;
           size_count := size_count b; write_pos := write_pos b;
           read_pos := wrap_size_t (rp + 1);
           ignore_count := ignore_count b; data := data b |})
  else Ok (0, b).

(** [void clear()] *)
Definition clear (b : t) : t :=
  {| available_count := 0; size_count := size_count b; write_pos := 0;
     read_pos := 0; ignore_count := 0; data := data b |}.

(** [size_t available()] *)
Definition available (b : t) : Z := available_count b.

(** [size_t size()] *)
Definition size (b : t) : Z := size_count b.

(** The loop of [clear(size_t count)]:
    [for (int j=0; j<count && available()>0; j++) read();]
    with [n] the iterations that [j<count] still allows.  The counter [j]
    is an [int]: [j++] at [int_max] is a signed overflow. *)
Fixpoint clear_loop (n : nat) (j : Z) (b : t) : outcome t :=
  match n with
  | O => Ok b
  | S n' =>
      if 0 <? available b then
        '(_, b') ← read b;
        if j =? int_max then Fault NotRepresentable
        else clear_loop n' (j + 1) b'
      else Ok b
  end.

(** [void clear(size_t count)] *)
Definition clear_count (count : Z) (b : t) : outcome t :=
  let ignore :=
    if available_count b <? count then count - available_count b else 0 in
  clear_loop (Z.to_nat count) 0
    {| available_count := available_count b; size_count := size_count b;
       write_pos := write_pos b; read_pos := read_pos b;
       ignore_count := ignore; data := data b |}.

(** A sequence of [write] calls, first value first. *)
Fixpoint write_all (values : list Z) (b : t) : outcome t :=
  match values with
  | [] => Ok b
  | v :: rest => b' ← write v b; write_all rest b'
  end.

(** A full drain: [read] is called until [available()] is 0; the values
    come in the order in which they were read. *)
Fixpoint drain_loop (n : nat) (b : t) : outcome (list Z * t) :=
  match n with
  | O => Ok ([], b)
  | S n' =>
      if 0 <? available b then
        '(v, b') ← read b;
        '(vs, b'') ← drain_loop n' b';
        Ok (v :: vs, b'')
      else Ok ([], b)
  end.

Definition drain (b : t) : outcome (list Z * t) :=
  drain_loop (Z.to_nat (available b)) b.

Definition with_ignore_count (n : Z) (b : t) : t :=
  {| available_count := available_count b; size_count := size_count b;
     write_pos := write_pos b; read_pos := read_pos b;
     ignore_count := n; data := data b |}.

(** The cursor arithmetic of [write] and [read] is that of a ring over the
    cells [0 .. C] for a capacity [C]: a cursor [r] is taken back to 0 once
    it is past [C], and [ring_pos C r i] is the cell that lies [i] steps
    after [r]. *)
Definition ring_norm (C r : Z) : Z := if C <? r then 0 else r.

Definition ring_pos (C r i : Z) : Z :=
  if C <? r + i then r + i - (C + 1) else r + i.

(** [ring C b q]: the buffer [b] of capacity [C] holds the entries [q],
    oldest first, each of them in a cell of [data].  These are the states
    that [new], [write], [read], [clear] and [clear(count)] reach as long
    as no access has left the cells. *)
Definition ring (C : Z) (b : t) (q : list Z) : Prop :=
  size_count b = C
  /\ 0 <= read_pos b <= C + 1
  /\ available_count b = Z.of_nat (length q)
  /\ Z.of_nat (length q) <= C
  /\ write_pos b = ring_pos C (ring_norm C (read_pos b)) (Z.of_nat (length q))
  /\ forall (i : nat) (v : Z),
       q !! i = Some v ->
       data b !! Z.to_nat (ring_pos C (ring_norm C (read_pos b)) (Z.of_nat i))
       = Some v.

(** The [C] most recent values of [l], or all of [l] if it has fewer. *)
Definition newest (C : Z) (l : list Z) : list Z :=
  drop (length l - Z.to_nat C) l.

(** A call of one of the public member functions that change the buffer,
    and a program of such calls run from first to last. *)
Inductive call : Type :=
| CallWrite (value : Z)
| CallRead
| CallClear
| CallClearCount (count : Z).

Definition run_call (c : call) (b : t) : outcome t :=
  match c with
  | CallWrite value => write value b
  | CallRead => '(_, b') ← read b; Ok b'
  | CallClear => Ok (clear b)
  | CallClearCount count => clear_count count b
  end.

Fixpoint run_calls (cs : list call) (b : t) : outcome t :=
  match cs with
  | [] => Ok b
  | c :: rest => b' ← run_call c b; run_calls rest b'
  end.

(** The arguments of a call are values of [T] and of [size_t]; only the
    range of a [count] matters below. *)
Definition call_in_range (c : call) : Prop :=
  match c with
  | CallClearCount count => 0 <= count < 2 ^ 32
  | _ => True
  end.

(** The reference for a program of calls: a queue of at most [C] entries,
    oldest first, paired with the number of writes that are still to be
    skipped. *)
Definition queue_call (C : Z) (c : call) (s : list Z * Z) : list Z * Z :=
  let '(q, skip) := s in
  match c with
  | CallWrite value =>
      if 0 <? skip then (q, skip - 1)
      else if Z.of_nat (length q) <? C then (q ++ [value], 0)
      else (drop 1 q ++ [value], 0)
  | CallRead => (drop 1 q, skip)
  | CallClear => ([], 0)
  | CallClearCount count =>
      (drop (Z.to_nat count) q, Z.max 0 (count - Z.of_nat (length q)))
  end.

Definition queue_calls (C : Z) (cs : list call) (s : list Z * Z) : list Z * Z :=
  fold_left (fun s c => queue_call C c s) cs s.

End RingBuffer.

(** ** Byte order and the wire *)

Inductive ByteOrder : Type := LittleEndian | BigEndian.

Fixpoint le_bytes (n : nat) (v : Z) : list Z :=
  match n with
  | O => []
  | S n' => v mod 256 :: le_bytes n' (v / 256)
  end.

Definition be_bytes (n : nat) (v : Z) : list Z := rev (le_bytes n v).

Definition be_value (bytes : list Z) : Z :=
  fold_left (fun acc byte => acc * 256 + byte) bytes 0.

Definition le_value (bytes : list Z) : Z := be_value (rev bytes).

(** The bytes of an [n]-byte unsigned integer as they lie in memory, and
    the integer that [n] bytes of memory hold. *)
Definition mem_bytes (host : ByteOrder) (n : nat) (v : Z) : list Z :=
  match host with
  | LittleEndian => le_bytes n v
  | BigEndian => be_bytes n v
  end.

Definition mem_value (host : ByteOrder) (bytes : list Z) : Z :=
  match host with
  | LittleEndian => le_value bytes
  | BigEndian => be_value bytes
  end.

(** Modelled from the spec: [network.h] with [htonl], [ntohl] and [ntohs] is
    not among the sources.  They convert between the host's order and the
    big-endian order of the wire: [htonl x] is the integer whose bytes in
    memory are the big-endian bytes of [x]. *)
Definition htonl (host : ByteOrder) (x : Z) : Z := mem_value host (be_bytes 4 x).
Definition ntohl (host : ByteOrder) (x : Z) : Z := be_value (mem_bytes host 4 x).
Definition ntohs (host : ByteOrder) (x : Z) : Z := be_value (mem_bytes host 2 x).

(** ** Enumerations and opcodes *)

Inductive Status : Type := ARMED | TRIGGERED | STOPPED.

Inductive Event : Type :=
| RESET | STATUS | CAPUTRE_SIZE | CAPTURE_FREQUNCY
| TRIGGER_VALUES | TRIGGER_MASK | READ_DLEAY_COUNT | FLAGS.

Definition SUMP_RESET : Z := 0x00.
Definition SUMP_ARM : Z := 0x01.
Definition SUMP_ID : Z := 0x02.
Definition SUMP_XON : Z := 0x11.
Definition SUMP_XOFF : Z := 0x13.
Definition SUMP_TRIGGER_MASK : Z := 0xC0.
Definition SUMP_TRIGGER_VALUES : Z := 0xC1.
Definition SUMP_TRIGGER_CONFIG : Z := 0xC2.
Definition SUMP_SET_DIVIDER : Z := 0x80.
Definition SUMP_SET_READ_DELAY_COUNT : Z := 0x81.
Definition SUMP_SET_FLAGS : Z := 0x82.
Definition SUMP_GET_METADATA : Z := 0x04.

(** ** The collaborators: pin reader, stream, clock, event handler *)

(** [PinReader::readAll()]: [level n] is the pin vector that the [n]-th call
    sees. *)
Record PinReader : Type := { level : nat -> Z }.

(** An installed [EventHandler] callback. *)
Inductive EventHandler : Type := Handler.

(** The [Stream] that [begin] is given; [rx] and [tx] of the world below
    are its two sides. *)
Inductive Stream : Type := ProcessingStream.

(** The calls that reach the output side of the [Stream]. *)
Inductive StreamCall : Type :=
| SWrite (byte : Z)               (* write(uint8_t) *)
| SWriteValue (value : Z)         (* write(n), n a 32-bit integer *)
| SWriteBuffer (bytes : list Z)   (* write(buffer, size) *)
| SPrint (text : list Z)          (* print(str) *)
| SFlush.                         (* flush() *)

(** What surrounds the analyzer: the bytes the host has sent and that are
    not read yet, the calls made on the stream, the events delivered to the
    handler, the number of [readAll] calls so far, the value of [millis()]
    and the microseconds spent in [delay] and [delayMicroseconds]. *)
Record World : Type := {
  rx : list Z;
  tx : list StreamCall;
  events : list Event;
  pin_reads : nat;
  millis : Z;
  waited_us : Z
}.

Definition with_rx (v : list Z) (w : World) : World :=
  {| rx := v; tx := tx w; events := events w; pin_reads := pin_reads w;
     millis := millis w; waited_us := waited_us w |}.

Definition with_tx (v : list StreamCall) (w : World) : World :=
  {| rx := rx w; tx := v; events := events w; pin_reads := pin_reads w;
     millis := millis w; waited_us := waited_us w |}.

Definition with_events (v : list Event) (w : World) : World :=
  {| rx := rx w; tx := tx w; events := v; pin_reads := pin_reads w;
     millis := millis w; waited_us := waited_us w |}.

Definition with_pin_reads (v : nat) (w : World) : World :=
  {| rx := rx w; tx := tx w; events := events w; pin_reads := v;
     millis := millis w; waited_us := waited_us w |}.

Definition with_waited_us (v : Z) (w : World) : World :=
  {| rx := rx w; tx := tx w; events := events w; pin_reads := pin_reads w;
     millis := millis w; waited_us := v |}.

(** [(1000000.0 / value) - 1] stored into a [uint64_t]: the quotient is
    taken in the rationals and the conversion drops the fractional part
    (truncation toward zero).  For an integer [value >= 1] the rounding of
    [double] moves no quotient across an integer, so the result is the one
    of the floating-point evaluation.  With [value = 0] the quotient is
    infinite and the conversion undefined. *)
Definition Qtruncate (q : Q) : Z := Z.quot (Qnum q) (Zpos (Qden q)).

Definition delay_of_frequency (value : Z) : outcome Z :=
  if value =? 0 then Fault NotRepresentable
  else
    let us := Qtruncate (Qminus (Qdiv (inject_Z 1000000) (inject_Z value)) (inject_Z 1)) in
    if (0 <=? us) && (us <? 2 ^ 64) then Ok us else Fault NotRepresentable.

(** Conversion of an unsigned 32-bit value to [int]. *)
Definition to_int (z : Z) : Z :=
  let u := wrap_size_t z in if u <? 2 ^ 31 then u else u - 2 ^ 32.

(** ** LogicAnalyzer<T> *)

Module LogicAnalyzer.

Record t : Type := mk {
  is_continuous_capture : bool;
  max_capture_size : Z;
  trigger_pos : Z;
  read_count : Z;
  delay_count : Z;
  pin_start : Z;
  pin_numbers : Z;
  frequecy_value : Z;
  max_frequecy_value : Z;
  max_frequecy_threshold : Z;
  delay_time_us : Z;
  sump_reset_igorne_timeout : Z;
  stream_ptr : option Stream;
  status_value : Status;
  trigger_mask : Z;
  trigger_values : Z;
  impl_ptr : option PinReader;
  buffer_ptr : option RingBuffer.t;
  cmd4 : list Z;
  eventHandler : option EventHandler
}.

Definition with_is_continuous_capture (v : bool) (la : t) : t :=
  {| is_continuous_capture := v; max_capture_size := max_capture_size la;
     trigger_pos := trigger_pos la; read_count := read_count la;
     delay_count := delay_count la; pin_start := pin_start la;
     pin_numbers := pin_numbers la; frequecy_value := frequecy_value la;
     max_frequecy_value := max_frequecy_value la;
     max_frequecy_threshold := max_frequecy_threshold la;
     delay_time_us := delay_time_us la;
     sump_reset_igorne_timeout := sump_reset_igorne_timeout la;
     stream_ptr := stream_ptr la;
     status_value := status_value la; trigger_mask := trigger_mask la;
     trigger_values := trigger_values la; impl_ptr := impl_ptr la;
     buffer_ptr := buffer_ptr la; cmd4 := cmd4 la;
     eventHandler := eventHandler la |}.

Definition with_read_count (v : Z) (la : t) : t :=
  {| is_continuous_capture := is_continuous_capture la;
     max_capture_size := max_capture_size la; trigger_pos := trigger_pos la;
     read_count := v; delay_count := delay_count la;
     pin_start := pin_start la; pin_numbers := pin_numbers la;
     frequecy_value := frequecy_value la;
     max_frequecy_value := max_frequecy_value la;
     max_frequecy_threshold := max_frequecy_threshold la;
     delay_time_us := delay_time_us la;
     sump_reset_igorne_timeout := sump_reset_igorne_timeout la;
     stream_ptr := stream_ptr la;
     status_value := status_value la; trigger_mask := trigger_mask la;
     trigger_values := trigger_values la; impl_ptr := impl_ptr la;
     buffer_ptr := buffer_ptr la; cmd4 := cmd4 la;
     eventHandler := eventHandler la |}.

Definition with_delay_count (v : Z) (la : t) : t :=
  {| is_continuous_capture := is_continuous_capture la;
     max_capture_size := max_capture_size la; trigger_pos := trigger_pos la;
     read_count := read_count la; delay_count := v;
     pin_start := pin_start la; pin_numbers := pin_numbers la;
     frequecy_value := frequecy_value la;
     max_frequecy_value := max_frequecy_value la;
     max_frequecy_threshold := max_frequecy_threshold la;
     delay_time_us := delay_time_us la;
     sump_reset_igorne_timeout := sump_reset_igorne_timeout la;
     stream_ptr := stream_ptr la;
     status_value := status_value la; trigger_mask := trigger_mask la;
     trigger_values := trigger_values la; impl_ptr := impl_ptr la;
     buffer_ptr := buffer_ptr la; cmd4 := cmd4 la;
     eventHandler := eventHandler la |}.

Definition with_frequecy_value (v : Z) (la : t) : t :=
  {| is_continuous_capture := is_continuous_capture la;
     max_capture_size := max_capture_size la; trigger_pos := trigger_pos la;
     read_count := read_count la; delay_count := delay_count la;
     pin_start := pin_start la; pin_numbers := pin_numbers la;
     frequecy_value := v; max_frequecy_value := max_frequecy_value la;
     max_frequecy_threshold := max_frequecy_threshold la;
     delay_time_us := delay_time_us la;
     sump_reset_igorne_timeout := sump_reset_igorne_timeout la;
     stream_ptr := stream_ptr la;
     status_value := status_value la; trigger_mask := trigger_mask la;
     trigger_values := trigger_values la; impl_ptr := impl_ptr la;
     buffer_ptr := buffer_ptr la; cmd4 := cmd4 la;
     eventHandler := eventHandler la |}.

Definition with_delay_time_us (v : Z) (la : t) : t :=
  {| is_continuous_capture := is_continuous_capture la;
     max_capture_size := max_capture_size la; trigger_pos := trigger_pos la;
     read_count := read_count la; delay_count := delay_count la;
     pin_start := pin_start la; pin_numbers := pin_numbers la;
     frequecy_value := frequecy_value la;
     max_frequecy_value := max_frequecy_value la;
     max_frequecy_threshold := max_frequecy_threshold la;
     delay_time_us := v;
     sump_reset_igorne_timeout := sump_reset_igorne_timeout la;
     stream_ptr := stream_ptr la;
     status_value := status_value la; trigger_mask := trigger_mask la;
     trigger_values := trigger_values la; impl_ptr := impl_ptr la;
     buffer_ptr := buffer_ptr la; cmd4 := cmd4 la;
     eventHandler := eventHandler la |}.

Definition with_sump_reset_igorne_timeout (v : Z) (la : t) : t :=
  {| is_continuous_capture := is_continuous_capture la;
     max_capture_size := max_capture_size la; trigger_pos := trigger_pos la;
     read_count := read_count la; delay_count := delay_count la;
     pin_start := pin_start la; pin_numbers := pin_numbers la;
     frequecy_value := frequecy_value la;
     max_frequecy_value := max_frequecy_value la;
     max_frequecy_threshold := max_frequecy_threshold la;
     delay_time_us := delay_time_us la; sump_reset_igorne_timeout := v;
     stream_ptr := stream_ptr la;
     status_value := status_value la; trigger_mask := trigger_mask la;
     trigger_values := trigger_values la; impl_ptr := impl_ptr la;
     buffer_ptr := buffer_ptr la; cmd4 := cmd4 la;
     eventHandler := eventHandler la |}.

Definition with_status_value (v : Status) (la : t) : t :=
  {| is_continuous_capture := is_continuous_capture la;
     max_capture_size := max_capture_size la; trigger_pos := trigger_pos la;
     read_count := read_count la; delay_count := delay_count la;
     pin_start := pin_start la; pin_numbers := pin_numbers la;
     frequecy_value := frequecy_value la;
     max_frequecy_value := max_frequecy_value la;
     max_frequecy_threshold := max_frequecy_threshold la;
     delay_time_us := delay_time_us la;
     sump_reset_igorne_timeout := sump_reset_igorne_timeout la;
     stream_ptr := stream_ptr la;
     status_value := v; trigger_mask := trigger_mask la;
     trigger_values := trigger_values la; impl_ptr := impl_ptr la;
     buffer_ptr := buffer_ptr la; cmd4 := cmd4 la;
     eventHandler := eventHandler la |}.

Definition with_trigger_mask (v : Z) (la : t) : t :=
  {| is_continuous_capture := is_continuous_capture la;
     max_capture_size := max_capture_size la; trigger_pos := trigger_pos la;
     read_count := read_count la; delay_count := delay_count la;
     pin_start := pin_start la; pin_numbers := pin_numbers la;
     frequecy_value := frequecy_value la;
     max_frequecy_value := max_frequecy_value la;
     max_frequecy_threshold := max_frequecy_threshold la;
     delay_time_us := delay_time_us la;
     sump_reset_igorne_timeout := sump_reset_igorne_timeout la;
     stream_ptr := stream_ptr la;
     status_value := status_value la; trigger_mask := v;
     trigger_values := trigger_values la; impl_ptr := impl_ptr la;
     buffer_ptr := buffer_ptr la; cmd4 := cmd4 la;
     eventHandler := eventHandler la |}.

Definition with_trigger_values (v : Z) (la : t) : t :=
  {| is_continuous_capture := is_continuous_capture la;
     max_capture_size := max_capture_size la; trigger_pos := trigger_pos la;
     read_count := read_count la; delay_count := delay_count la;
     pin_start := pin_start la; pin_numbers := pin_numbers la;
     frequecy_value := frequecy_value la;
     max_frequecy_value := max_frequecy_value la;
     max_frequecy_threshold := max_frequecy_threshold la;
     delay_time_us := delay_time_us la;
     sump_reset_igorne_timeout := sump_reset_igorne_timeout la;
     stream_ptr := stream_ptr la;
     status_value := status_value la; trigger_mask := trigger_mask la;
     trigger_values := v; impl_ptr := impl_ptr la;
     buffer_ptr := buffer_ptr la; cmd4 := cmd4 la;
     eventHandler := eventHandler la |}.

Definition with_buffer_ptr (v : option RingBuffer.t) (la : t) : t :=
  {| is_continuous_capture := is_continuous_capture la;
     max_capture_size := max_capture_size la; trigger_pos := trigger_pos la;
     read_count := read_count la; delay_count := delay_count la;
     pin_start := pin_start la; pin_numbers := pin_numbers la;
     frequecy_value := frequecy_value la;
     max_frequecy_value := max_frequecy_value la;
     max_frequecy_threshold := max_frequecy_threshold la;
     delay_time_us := delay_time_us la;
     sump_reset_igorne_timeout := sump_reset_igorne_timeout la;
     stream_ptr := stream_ptr la;
     status_value := status_value la; trigger_mask := trigger_mask la;
     trigger_values := trigger_values la; impl_ptr := impl_ptr la;
     buffer_ptr := v; cmd4 := cmd4 la; eventHandler := eventHandler la |}.

Definition with_cmd4 (v : list Z) (la : t) : t :=
  {| is_continuous_capture := is_continuous_capture la;
     max_capture_size := max_capture_size la; trigger_pos := trigger_pos la;
     read_count := read_count la; delay_count := delay_count la;
     pin_start := pin_start la; pin_numbers := pin_numbers la;
     frequecy_value := frequecy_value la;
     max_frequecy_value := max_frequecy_value la;
     max_frequecy_threshold := max_frequecy_threshold la;
     delay_time_us := delay_time_us la;
     sump_reset_igorne_timeout := sump_reset_igorne_timeout la;
     stream_ptr := stream_ptr la;
     status_value := status_value la; trigger_mask := trigger_mask la;
     trigger_values := trigger_values la; impl_ptr := impl_ptr la;
     buffer_ptr := buffer_ptr la; cmd4 := v;
     eventHandler := eventHandler la |}.

Definition with_eventHandler (v : option EventHandler) (la : t) : t :=
  {| is_continuous_capture := is_continuous_capture la;
     max_capture_size := max_capture_size la; trigger_pos := trigger_pos la;
     read_count := read_count la; delay_count := delay_count la;
     pin_start := pin_start la; pin_numbers := pin_numbers la;
     frequecy_value := frequecy_value la;
     max_frequecy_value := max_frequecy_value la;
     max_frequecy_threshold := max_frequecy_threshold la;
     delay_time_us := delay_time_us la;
     sump_reset_igorne_timeout := sump_reset_igorne_timeout la;
     stream_ptr := stream_ptr la;
     status_value := status_value la; trigger_mask := trigger_mask la;
     trigger_values := trigger_values la; impl_ptr := impl_ptr la;
     buffer_ptr := buffer_ptr la; cmd4 := cmd4 la; eventHandler := v |}.

Definition description : list Z := [65; 82; 68; 85; 73; 78; 79].
Definition device_id : list Z := [49; 65; 76; 83].
Definition protocol_version : list Z := [0x041; 0x002].

(** [LogicAnalyzer()]: the members with a default initializer get it, the
    others keep what [indeterminate] holds.  [stream_ptr] has no
    initializer either: until [begin] sets it, it points to no stream. *)
Definition new (indeterminate : t) : t :=
  {| is_continuous_capture := false;
     max_capture_size := max_capture_size indeterminate;
     trigger_pos := -1; read_count := 0; delay_count := 0;
     pin_start := 0; pin_numbers := 0;
     frequecy_value := frequecy_value indeterminate;
     max_frequecy_value := max_frequecy_value indeterminate;
     max_frequecy_threshold := max_frequecy_threshold indeterminate;
     delay_time_us := delay_time_us indeterminate;
     sump_reset_igorne_timeout := 0;
     stream_ptr := None;
     status_value := status_value indeterminate;
     trigger_mask := 0; trigger_values := 0;
     impl_ptr := None; buffer_ptr := None;
     cmd4 := cmd4 indeterminate; eventHandler := None |}.

(** *** State and faults *)

Definition State : Type := t * World.

Definition M (A : Type) : Type := State -> outcome (A * State).

#[global] Instance M_ret : MRet M := fun A a s => Ok (a, s).

#[global] Instance M_bind : MBind M := fun A B k m s =>
  match m s with
  | Ok (a, s') => k a s'
  | Fault f => Fault f
  end.

Definition fail {A : Type} (f : fault) : M A := fun _ => Fault f.

Definition lift {A : Type} (o : outcome A) : M A := fun s =>
  match o with
  | Ok a => Ok (a, s)
  | Fault f => Fault f
  end.

Definition get_la : M t := fun s => Ok (fst s, s).
Definition get_world : M World := fun s => Ok (snd s, s).
Definition update_la (f : t -> t) : M unit := fun s => Ok (tt, (f (fst s), snd s)).
Definition update_world (f : World -> World) : M unit :=
  fun s => Ok (tt, (fst s, f (snd s))).

(** [while (cond) body;] *)
Fixpoint while (fuel : nat) (cond : M bool) (body : M unit) : M unit :=
  match fuel with
  | O => fail OutOfFuel
  | S n => c ← cond; if c : bool then body;; while n cond body else mret tt
  end.

(** *** The stream, the clock and the buffer behind [buffer_ptr] *)

(** A call on the output side of the stream.  Each of these calls, and the
    [readBytes] of [commandExt], is made behind the test of [buffer_ptr]
    and [impl_ptr] in [processCommand(int)] or after [impl_ptr] or
    [buffer_ptr] was dereferenced, and only [begin] sets those two, after
    it has set [stream_ptr].  What reaches the stream first, [hasCommand]
    and [command], goes through [stream_ptr]: see [stream] below. *)
Definition stream_call (c : StreamCall) : M unit :=
  update_world (fun w => with_tx (tx w ++ [c]) w).

Definition delayMicroseconds (us : Z) : M unit :=
  update_world (fun w => with_waited_us (waited_us w + us) w).

Definition delay (ms : Z) : M unit := delayMicroseconds (1000 * ms).

Definition buffer : M RingBuffer.t :=
  la ← get_la;
  match buffer_ptr la with
  | Some b => mret b
  | None => fail NullPointer
  end.

Definition buffer_available : M Z :=
  b ← buffer; mret (RingBuffer.available b).

Definition buffer_write (value : Z) : M unit :=
  b ← buffer;
  b' ← lift (RingBuffer.write value b);
  update_la (with_buffer_ptr (Some b')).

Definition buffer_read : M Z :=
  b ← buffer;
  r ← lift (RingBuffer.read b);
  update_la (with_buffer_ptr (Some (snd r)));;
  mret (fst r).

Definition buffer_clear : M unit :=
  b ← buffer; update_la (with_buffer_ptr (Some (RingBuffer.clear b))).

Definition buffer_clear_count (count : Z) : M unit :=
  b ← buffer;
  b' ← lift (RingBuffer.clear_count count b);
  update_la (with_buffer_ptr (Some b')).

(** The world after [if (eventHandler!=nullptr) eventHandler(event);]. *)
Definition notified (event : Event) (la : t) (w : World) : World :=
  match eventHandler la with
  | Some _ => with_events (events w ++ [event]) w
  | None => w
  end.

(** *** The input side of the stream *)

(** [Stream &stream()]: [*stream_ptr]. *)
Definition stream : M Stream :=
  la ← get_la;
  match stream_ptr la with
  | Some s => mret s
  | None => fail NullPointer
  end.

(** [bool hasCommand()]: [stream_ptr->available() > 0]. *)
Definition hasCommand : M bool :=
  _ ← stream;
  w ← get_world;
  mret (match rx w with [] => false | _ :: _ => true end).

(** [uint8_t command()]: [stream_ptr->read()] gives the next byte, or -1
    when there is none; the result is converted to [uint8_t]. *)
Definition command : M Z :=
  _ ← stream;
  w ← get_world;
  match rx w with
  | [] => mret (wrap_bits 8 (-1))
  | byte :: rest => update_world (with_rx rest);; mret (wrap_bits 8 byte)
  end.

(** *** The getters *)

(** [Status status()] *)
Definition status (la : t) : Status := status_value la.

(** [T triggerValues()] and [T triggerMask()] *)
Definition triggerValues (la : t) : Z := trigger_values la.
Definition triggerMask (la : t) : Z := trigger_mask la.

(** [int readCount()] and [int delayCount()] *)
Definition readCount (la : t) : Z := read_count la.
Definition delayCount (la : t) : Z := delay_count la.

(** [uint64_t captureFrequency()] and [uint64_t delayTimeUs()] *)
Definition captureFrequency (la : t) : Z := frequecy_value la.
Definition delayTimeUs (la : t) : Z := delay_time_us la.

(** [bool isContinuousCapture()] *)
Definition isContinuousCapture (la : t) : bool := is_continuous_capture la.

(** [size_t size()] and [size_t available()]: both go through
    [buffer_ptr]. *)
Definition size : M Z := b ← buffer; mret (RingBuffer.size b).
Definition available : M Z := buffer_available.

Section Engine.

(** [sizeof(T)] of the sample type [T] (1, 2 or 4) and the byte order of
    the host. *)
Context (sizeof_T : Z) (host : ByteOrder).

Definition wrap_T (z : Z) : Z := wrap_bits (8 * sizeof_T) z.

(** [impl_ptr->readAll()] *)
Definition readAll : M Z :=
  la ← get_la;
  w ← get_world;
  match impl_ptr la with
  | Some pins =>
      update_world (with_pin_reads (S (pin_reads w)));;
      mret (wrap_T (level pins (pin_reads w)))
  | None => fail NullPointer
  end.

(** [void raiseEvent(Event event)] *)
Definition raiseEvent (event : Event) : M unit :=
  la ← get_la; update_world (notified event la).

(** [void setStatus(Status status)] *)
Definition setStatus (status : Status) : M unit :=
  update_la (with_status_value status);;
  raiseEvent STATUS.

(** [void write(T bits)] *)
Definition write (bits : Z) : M unit :=
  stream_call (SWriteValue (htonl host bits)).

(** [void write(uint8_t cmd, uint32_t number)] *)
Definition write_number (cmd number : Z) : M unit :=
  stream_call (SWrite cmd);;
  stream_call (SWriteBuffer (mem_bytes host 4 (htonl host (wrap_size_t number))));;
  stream_call SFlush.

(** [void write(uint8_t cmd, const char* str)] *)
Definition write_str (cmd : Z) (str : list Z) : M unit :=
  stream_call (SWrite cmd);;
  stream_call (SPrint str);;
  stream_call (SWriteBuffer [0]);;
  stream_call SFlush.

(** [T captureSample()] *)
Definition captureSample : M Z :=
  actual ← readAll;
  la ← get_la;
  (if is_continuous_capture la then write actual
   else
     match status_value la with
     | TRIGGERED => buffer_write actual
     | _ => mret tt
     end);;
  mret actual.

(** [void captureSampleFast()] *)
Definition captureSampleFast : M unit :=
  actual ← readAll; buffer_write actual.

(** [void captureSampleFastContinuous()] *)
Definition captureSampleFastContinuous : M unit :=
  actual ← readAll; write actual.

Definition is_triggered : M bool :=
  la ← get_la;
  mret (match status_value la with TRIGGERED => true | _ => false end).

(** [status_value == TRIGGERED && buffer_ptr->available() < read_count],
    the comparison being the unsigned one of [size_t]. *)
Definition capturing : M bool :=
  la ← get_la;
  match status_value la with
  | TRIGGERED =>
      n ← buffer_available; mret (n <? wrap_size_t (read_count la))
  | _ => mret false
  end.

(** [void captureAll()] *)
Definition captureAll (fuel : nat) : M unit :=
  while fuel capturing
    (captureSampleFast;;
     la ← get_la; delayMicroseconds (delay_time_us la)).

(** [void captureAllMaxSpeed()] *)
Definition captureAllMaxSpeed (fuel : nat) : M unit :=
  while fuel capturing captureSampleFast.

(** [void captureAllContinous()] *)
Definition captureAllContinous (fuel : nat) : M unit :=
  while fuel is_triggered
    (captureSampleFastContinuous;;
     la ← get_la; delayMicroseconds (delay_time_us la)).

(** [void captureAllContinousMaxSpeed()] *)
Definition captureAllContinousMaxSpeed (fuel : nat) : M unit :=
  while fuel is_triggered captureSampleFastContinuous.

(** [void dumpData()]: the argument of the first [printLog] reads
    [buffer_ptr->available()] before the test for nullptr. *)
Definition dumpData (fuel : nat) : M unit :=
  _ ← buffer_available;
  la ← get_la;
  match buffer_ptr la, impl_ptr la with
  | Some _, Some _ =>
      while fuel (n ← buffer_available; mret (0 <? n))
        (value ← buffer_read;
         stream_call (SWriteBuffer (mem_bytes host 4 (wrap_size_t value))));;
      stream_call SFlush
  | _, _ => mret tt
  end.

(** The first block of [capture]: waiting for the trigger. *)
Definition trigger_mismatch : M bool :=
  sample ← captureSample;
  la ← get_la;
  mret (negb (Z.land (Z.lxor (trigger_values la) sample) (trigger_mask la) =? 0)).

Definition capture_trigger (fuel : nat) : M unit :=
  la ← get_la;
  if negb (trigger_mask la =? 0) then
    while fuel trigger_mismatch (mret tt);;
    setStatus TRIGGERED
  else
    setStatus TRIGGERED.

(** The second block of [capture]: removing entries from the buffer based
    on [delay_count] and [read_count].  [keep] is computed in [int];
    [available()] is compared and combined with it as [size_t]. *)
Definition capture_buffer : M unit :=
  la ← get_la;
  let keep := read_count la - delay_count la in
  if negb (in_int_range keep) then fail NotRepresentable
  else
    keep_some ←
      (if 0 <? keep then
         n ← buffer_available; mret (wrap_size_t keep <? n)
       else mret false);
    if keep_some : bool then
      n ← buffer_available;
      buffer_clear_count (wrap_size_t (n - keep))
    else if keep <? 0 then
      if keep =? int_min then fail NotRepresentable
      else
        n ← buffer_available;
        buffer_clear_count (wrap_size_t (n + Z.abs keep))
    else if keep =? 0 then buffer_clear
    else mret tt.

(** The third block of [capture]: the sampling loop and the dump. *)
Definition capture_start (fuel : nat) (is_max_speed is_dump : bool) : M unit :=
  la ← get_la;
  if is_max_speed then
    if is_continuous_capture la then captureAllContinousMaxSpeed fuel
    else
      captureAllMaxSpeed fuel;;
      setStatus STOPPED;;
      _ ← buffer_available;
      if is_dump then dumpData fuel else mret tt
  else
    if is_continuous_capture la then captureAllContinous fuel
    else
      captureAll fuel;;
      setStatus STOPPED;;
      _ ← buffer_available;
      if is_dump then dumpData fuel else mret tt.

(** [virtual void capture(bool is_max_speed=false, bool is_dump=true)] *)
Definition capture (fuel : nat) (is_max_speed is_dump : bool) : M unit :=
  capture_trigger fuel;;
  capture_buffer;;
  capture_start fuel is_max_speed is_dump.

(** [void setCaptureFrequency(uint64_t value)] *)
Definition setCaptureFrequency (value : Z) : M unit :=
  update_la (with_frequecy_value value);;
  us ← lift (delay_of_frequency value);
  update_la (with_delay_time_us us);;
  raiseEvent CAPTURE_FREQUNCY.

(** [void setupDelay(unsigned long divider)] *)
Definition setupDelay (divider : Z) : M unit :=
  la ← get_la;
  match impl_ptr la with
  | None => mret tt
  | Some _ =>
      let d := wrap_size_t (divider + 1) in
      if d =? 0 then fail DivisionByZero
      else setCaptureFrequency (100000000 / d)
  end.

(** [void setTriggerValues(T values)] and [void setTriggerMask(T values)] *)
Definition setTriggerValues (values : Z) : M unit :=
  update_la (with_trigger_values values);; raiseEvent TRIGGER_VALUES.

Definition setTriggerMask (values : Z) : M unit :=
  update_la (with_trigger_mask values);; raiseEvent TRIGGER_MASK.

(** [void setReadCount(int count)], [void setDelayCount(int count)],
    [void setContinuousCapture(bool cont)] and
    [void setEventHandler(EventHandler eh)] *)
Definition setReadCount (count : Z) : M unit := update_la (with_read_count count).

Definition setDelayCount (count : Z) : M unit := update_la (with_delay_count count).

Definition setContinuousCapture (cont : bool) : M unit :=
  update_la (with_is_continuous_capture cont).

Definition setEventHandler (eh : option EventHandler) : M unit :=
  update_la (with_eventHandler eh).

(** [void reset()]: [memset] writes [max_capture_size * sizeof(T)] zero
    bytes at [data_ptr()]. *)
Definition reset : M unit :=
  setStatus STOPPED;;
  la ← get_la;
  b ← buffer;
  (if Z.of_nat (length (RingBuffer.data b)) <? max_capture_size la
   then fail (OutOfBounds (Z.of_nat (length (RingBuffer.data b))))
   else
     let n := Z.to_nat (max_capture_size la) in
     update_la (with_buffer_ptr (Some
       {| RingBuffer.available_count := RingBuffer.available_count b;
          RingBuffer.size_count := RingBuffer.size_count b;
          RingBuffer.write_pos := RingBuffer.write_pos b;
          RingBuffer.read_pos := RingBuffer.read_pos b;
          RingBuffer.ignore_count := RingBuffer.ignore_count b;
          RingBuffer.data := replicate n 0 ++ drop n (RingBuffer.data b) |})));;
  buffer_clear;;
  raiseEvent RESET.

(** [Sump4ByteComandArg &commandExt()]: [readBytes] fills as many of the
    four bytes as the stream delivers. *)
Definition commandExt : M (list Z) :=
  delay 10;;
  la ← get_la;
  w ← get_world;
  let got := take 4 (rx w) in
  let bytes := got ++ drop (length got) (cmd4 la) in
  update_world (with_rx (drop 4 (rx w)));;
  update_la (with_cmd4 bytes);;
  mret bytes.

Definition getSump4ByteComandArg : M (list Z) := commandExt.

(** [Sump4ByteComandArg::get16] and [get32] *)
Definition get16 (cmd : list Z) (idx : nat) : Z :=
  ntohs host (mem_value host (take 2 (drop (2 * idx) cmd))).

Definition get32 (cmd : list Z) : Z := ntohl host (mem_value host cmd).

(** [T commandExtPinBitArray()] *)
Definition commandExtPinBitArray : M Z :=
  cmd ← getSump4ByteComandArg;
  mret (if sizeof_T =? 1 then wrap_T (nth 0 cmd 0)
        else if sizeof_T =? 2 then wrap_T (get16 cmd 0)
        else wrap_T (get32 cmd)).

(** [void sendMetadata()] *)
Definition sendMetadata : M unit :=
  la ← get_la;
  match impl_ptr la with
  | None => mret tt
  | Some _ =>
      write_str 0x01 description;;
      write_number 0x20 (pin_numbers la);;
      write_number 0x21 (max_capture_size la);;
      write_number 0x23 (frequecy_value la);;
      stream_call (SWriteBuffer (protocol_version ++ [0]));;
      stream_call SFlush
  end.

(** [void processCommand(int cmd)] *)
Definition processCommand (fuel : nat) (cmd : Z) : M unit :=
  la ← get_la;
  match buffer_ptr la, impl_ptr la with
  | Some _, Some _ =>
      if cmd =? SUMP_RESET then
        w ← get_world;
        if sump_reset_igorne_timeout la <? millis w then
          update_la (with_sump_reset_igorne_timeout (wrap_size_t (millis w + 500)))
        else mret tt
      else if cmd =? SUMP_ID then
        stream_call (SWriteBuffer (take 4 device_id));;
        stream_call SFlush
      else if cmd =? SUMP_GET_METADATA then sendMetadata
      else if cmd =? SUMP_ARM then
        setStatus ARMED;;
        capture fuel (max_frequecy_threshold la <=? frequecy_value la) true
      else if cmd =? SUMP_TRIGGER_MASK then
        values ← commandExtPinBitArray; setTriggerMask values
      else if cmd =? SUMP_TRIGGER_VALUES then
        values ← commandExtPinBitArray; setTriggerValues values
      else if cmd =? SUMP_TRIGGER_CONFIG then
        _ ← getSump4ByteComandArg; mret tt
      else if cmd =? SUMP_SET_DIVIDER then
        cmd ← getSump4ByteComandArg;
        setupDelay (get32 cmd)
      else if cmd =? SUMP_SET_READ_DELAY_COUNT then
        cmd ← getSump4ByteComandArg;
        update_la (fun la =>
          with_delay_count (to_int (Z.min (get16 cmd 1) (max_capture_size la)))
            (with_read_count (to_int (Z.min (get16 cmd 0) (max_capture_size la))) la));;
        raiseEvent READ_DLEAY_COUNT
      else if cmd =? SUMP_SET_FLAGS then
        cmd ← getSump4ByteComandArg;
        update_la (with_is_continuous_capture
                     (negb (Z.land (nth 1 cmd 0) 64 =? 0)));;
        raiseEvent FLAGS
      else mret tt
  | _, _ => mret tt
  end.

(** [void processCommand()]: the next command, if the stream has one. *)
Definition processCommand_next (fuel : nat) : M unit :=
  has ← hasCommand;
  if has : bool then
    cmd ← command;
    processCommand fuel cmd
  else mret tt.

(** [void begin(...)]; [alloc] is the result of the [new T[...]] inside
    [new RingBuffer<T>(maxCaptureSize)].  [setStream(procesingStream)] makes
    [stream_ptr] point to the stream of the world. *)
Definition begin (impl : PinReader)
    (maxCaptureFreq maxCaptureFreqThreshold maxCaptureSize : Z)
    (pinStart numberOfPins : Z) (alloc : option (nat -> Z)) : M unit :=
  update_la (fun la =>
    {| is_continuous_capture := is_continuous_capture la;
       max_capture_size := maxCaptureSize;
       trigger_pos := trigger_pos la;
       read_count := to_int maxCaptureSize;
       delay_count := to_int maxCaptureSize;
       pin_start := pinStart; pin_numbers := numberOfPins;
       frequecy_value := frequecy_value la;
       max_frequecy_value := maxCaptureFreq;
       max_frequecy_threshold := maxCaptureFreqThreshold;
       delay_time_us := delay_time_us la;
       sump_reset_igorne_timeout := sump_reset_igorne_timeout la;
       stream_ptr := Some ProcessingStream;
       status_value := status_value la;
       trigger_mask := trigger_mask la;
       trigger_values := trigger_values la;
       impl_ptr := Some impl;
       buffer_ptr := Some (RingBuffer.new maxCaptureSize alloc);
       cmd4 := cmd4 la; eventHandler := eventHandler la |});;
  setStatus STOPPED.

(** The sample that the [n]-th [readAll] delivers, and the test of the
    trigger on a sample [s]: [(trigger_values XOR s) & trigger_mask == 0]. *)
Definition sample_at (pins : PinReader) (n : nat) : Z :=
  wrap_T (level pins n).

Definition trigger_hit (la : t) (s : Z) : Prop :=
  Z.land (Z.lxor (trigger_values la) s) (trigger_mask la) = 0.

(** The samples that [n] calls of [readAll] deliver, the first of them being
    call number [start]. *)
Definition samples_from (pins : PinReader) (start n : nat) : list Z :=
  map (sample_at pins) (seq start n).

(** The stream call of [dumpData] for one value. *)
Definition dump_word (v : Z) : StreamCall :=
  SWriteBuffer (mem_bytes host 4 (wrap_size_t v)).

End Engine.

End LogicAnalyzer.

(** ** States and observers for the examples *)

(** Pins on which the [n]-th read sees the value [n + 1]. *)
Definition counting_pins : PinReader := {| level := fun n => Z.of_nat n + 1 |}.

(** The memory of an analyzer before its constructor has run. *)
Definition blank : LogicAnalyzer.t :=
  {| LogicAnalyzer.is_continuous_capture := false;
     LogicAnalyzer.max_capture_size := 0; LogicAnalyzer.trigger_pos := 0;
     LogicAnalyzer.read_count := 0; LogicAnalyzer.delay_count := 0;
     LogicAnalyzer.pin_start := 0; LogicAnalyzer.pin_numbers := 0;
     LogicAnalyzer.frequecy_value := 0; LogicAnalyzer.max_frequecy_value := 0;
     LogicAnalyzer.max_frequecy_threshold := 0;
     LogicAnalyzer.delay_time_us := 0;
     LogicAnalyzer.sump_reset_igorne_timeout := 0;
     LogicAnalyzer.stream_ptr := None;
     LogicAnalyzer.status_value := STOPPED;
     LogicAnalyzer.trigger_mask := 0; LogicAnalyzer.trigger_values := 0;
     LogicAnalyzer.impl_ptr := None; LogicAnalyzer.buffer_ptr := None;
     LogicAnalyzer.cmd4 := [0; 0; 0; 0]; LogicAnalyzer.eventHandler := None |}.

(** A world in which the host has sent [bytes] and [millis()] is 1000. *)
Definition world_with (bytes : list Z) : World :=
  {| rx := bytes; tx := []; events := []; pin_reads := 0; millis := 1000;
     waited_us := 0 |}.

(** [m] run in the state in which [o] ended. *)
Definition after {A : Type} (o : outcome (unit * LogicAnalyzer.State))
    (m : LogicAnalyzer.M A) : outcome (A * LogicAnalyzer.State) :=
  match o with
  | Ok (_, s) => m s
  | Fault f => Fault f
  end.

(** The calls made on the stream, and the frequency with its delay. *)
Definition sent {A : Type} (o : outcome (A * LogicAnalyzer.State)) : option (list StreamCall) :=
  match o with
  | Ok (_, (_, w)) => Some (tx w)
  | Fault _ => None
  end.

Definition timing {A : Type} (o : outcome (A * LogicAnalyzer.State)) : option (Z * Z) :=
  match o with
  | Ok (_, (la, _)) =>
      Some (LogicAnalyzer.frequecy_value la, LogicAnalyzer.delay_time_us la)
  | Fault _ => None
  end.

(** Pins on which the [n]-th read sees [0x12345678 + n]: 0x5678, 0x5679,
    ... for a 16-bit [T] and 0x12345678, 0x12345679, ... for a 32-bit one. *)
Definition wide_pins : PinReader :=
  {| level := fun n => 0x12345678 + Z.of_nat n |}.

(** An analyzer of 8-bit samples with room for [size] of them, after
    [begin] and [setEventHandler], on a little-endian host. *)
Definition started (size : Z) (bytes : list Z) : outcome (unit * LogicAnalyzer.State) :=
  (LogicAnalyzer.begin counting_pins 1000000 500000 size 0 8
     (Some (fun _ => 0));;
   LogicAnalyzer.setEventHandler (Some Handler))
    (LogicAnalyzer.new blank, world_with bytes).

(** An analyzer on [wide_pins] with room for [size] samples, after [begin]
    and [setEventHandler]. *)
Definition started_wide (size : Z) (bytes : list Z) : outcome (unit * LogicAnalyzer.State) :=
  (LogicAnalyzer.begin wide_pins 1000000 500000 size 0 16
     (Some (fun _ => 0));;
   LogicAnalyzer.setEventHandler (Some Handler))
    (LogicAnalyzer.new blank, world_with bytes).

(** The same analyzer after [buffer().write(7)], [buffer().write(9)] and
    [setStatus(ARMED)]. *)
Definition armed_with_samples : outcome (unit * LogicAnalyzer.State) :=
  after (started 4 [])
    (LogicAnalyzer.buffer_write 7;;
     LogicAnalyzer.buffer_write 9;;
     LogicAnalyzer.setStatus ARMED).

(** A buffer of capacity 4 that holds 20 and 30, after one value was read. *)
Definition two_unread : RingBuffer.t := RingBuffer.mk 2 4 3 1 0 [10; 20; 30; 0].

(** An analyzer in the trigger wait of a batch capture: mask 3 and values 2,
    so that a sample [s] matches when [s & 3 = 2]; [read_count] 3 and
    [delay_count] 2; the buffer is [two_unread]. *)
Definition armed_example : LogicAnalyzer.t :=
  {| LogicAnalyzer.is_continuous_capture := false;
     LogicAnalyzer.max_capture_size := 4; LogicAnalyzer.trigger_pos := -1;
     LogicAnalyzer.read_count := 3; LogicAnalyzer.delay_count := 2;
     LogicAnalyzer.pin_start := 0; LogicAnalyzer.pin_numbers := 8;
     LogicAnalyzer.frequecy_value := 1000000;
     LogicAnalyzer.max_frequecy_value := 1000000;
     LogicAnalyzer.max_frequecy_threshold := 500000;
     LogicAnalyzer.delay_time_us := 0;
     LogicAnalyzer.sump_reset_igorne_timeout := 0;
     LogicAnalyzer.stream_ptr := Some ProcessingStream;
     LogicAnalyzer.status_value := ARMED;
     LogicAnalyzer.trigger_mask := 3; LogicAnalyzer.trigger_values := 2;
     LogicAnalyzer.impl_ptr := Some counting_pins;
     LogicAnalyzer.buffer_ptr := Some two_unread;
     LogicAnalyzer.cmd4 := [0; 0; 0; 0]; LogicAnalyzer.eventHandler := None |}.

(** An analyzer as [begin] leaves it, ready for ARM: batch mode, no trigger
    mask, both counts 3, a frequency below the threshold with a delay of
    3 us, an event handler; the buffer is [two_unread], with 4 cells. *)
Definition ready_example : LogicAnalyzer.t :=
  {| LogicAnalyzer.is_continuous_capture := false;
     LogicAnalyzer.max_capture_size := 4; LogicAnalyzer.trigger_pos := -1;
     LogicAnalyzer.read_count := 3; LogicAnalyzer.delay_count := 3;
     LogicAnalyzer.pin_start := 0; LogicAnalyzer.pin_numbers := 8;
     LogicAnalyzer.frequecy_value := 250000;
     LogicAnalyzer.max_frequecy_value := 1000000;
     LogicAnalyzer.max_frequecy_threshold := 500000;
     LogicAnalyzer.delay_time_us := 3;
     LogicAnalyzer.sump_reset_igorne_timeout := 0;
     LogicAnalyzer.stream_ptr := Some ProcessingStream;
     LogicAnalyzer.status_value := STOPPED;
     LogicAnalyzer.trigger_mask := 0; LogicAnalyzer.trigger_values := 0;
     LogicAnalyzer.impl_ptr := Some counting_pins;
     LogicAnalyzer.buffer_ptr := Some two_unread;
     LogicAnalyzer.cmd4 := [0; 0; 0; 0];
     LogicAnalyzer.eventHandler := Some Handler |}.

(** The same analyzer in the sampling loop: TRIGGERED, the buffer cleared. *)
Definition sampling_example : LogicAnalyzer.t :=
  LogicAnalyzer.with_buffer_ptr (Some (RingBuffer.clear two_unread))
    (LogicAnalyzer.with_status_value TRIGGERED ready_example).

(** [ready_example] with the trigger of [armed_example]: a sample [s]
    matches when [s & 3 = 2]. *)
Definition trigger_example : LogicAnalyzer.t :=
  LogicAnalyzer.with_trigger_values 2
    (LogicAnalyzer.with_trigger_mask 3 ready_example).

(** * Proofs *)

Module RB := RingBuffer.
Module LA := LogicAnalyzer.

(** ** Cells and machine integers *)

Lemma wrap_size_t_small (z : Z) : 0 <= z < 2 ^ 32 -> wrap_size_t z = z.
Proof. intros Hz. unfold wrap_size_t, wrap_bits. now apply Z.mod_small. Qed.

Lemma load_some (cells : list Z) (i v : Z) :
  0 <= i -> cells !! Z.to_nat i = Some v -> load cells i = Ok v.
Proof.
  intros Hi Hv. unfold load. apply lookup_lt_Some in Hv as Hlt.
  destruct (Z.leb_spec 0 i); [|lia].
  destruct (Z.ltb_spec i (Z.of_nat (length cells))); [|lia].
  cbn [andb]. now rewrite Hv.
Qed.

Lemma store_in_bounds (cells : list Z) (i v : Z) :
  0 <= i < Z.of_nat (length cells) ->
  store cells i v = Ok (<[Z.to_nat i := v]> cells).
Proof.
  intros Hi. unfold store.
  destruct (Z.leb_spec 0 i); [|lia].
  destruct (Z.ltb_spec i (Z.of_nat (length cells))); [|lia]. reflexivity.
Qed.

Lemma store_out_of_bounds (cells : list Z) (i v : Z) :
  Z.of_nat (length cells) <= i ->
  store cells i v = Fault (OutOfBounds i).
Proof.
  intros Hi. unfold store.
  destruct (Z.ltb_spec i (Z.of_nat (length cells))); [lia|].
  now rewrite andb_false_r.
Qed.

(** ** RingBuffer: reading an empty buffer *)

(** C10. [read()] on a buffer with [available() == 0] returns the zero value
    and leaves every field of the buffer as it was: [available_count],
    [read_pos], [write_pos], [ignore_count] (and the cells); the count does
    not go below zero. *)
Theorem read_empty_returns_zero (b : RB.t) :
  RB.available b = 0 ->
  RB.read b = Ok (0, b).
Proof.
  unfold RB.available, RB.read. intros ->. reflexivity.
Qed.

Lemma read_empty_returns_zero_witness :
  RB.available (RB.mk 0 4 3 3 2 [10; 20; 30; 40]) = 0
  /\ RB.read (RB.mk 0 4 3 3 2 [10; 20; 30; 40])
     = Ok (0, RB.mk 0 4 3 3 2 [10; 20; 30; 40]).
Proof.
  split; [reflexivity | apply read_empty_returns_zero; reflexivity].
Defined.

(** ** RingBuffer: the states of the ring *)

Ltac ring_fields H :=
  destruct H as (Hsize & Hrp & Hav & Hfit & Hwp & Hdata).

Ltac ring_cases C :=
  unfold RB.ring_pos, RB.ring_norm in *;
  repeat match goal with
         | |- context [C <? ?x] => destruct (Z.ltb_spec C x)
         | H : context [C <? ?x] |- _ => destruct (Z.ltb_spec C x)
         end.

Lemma ring_pos_range (C r i : Z) :
  0 <= r <= C -> 0 <= i <= C -> 0 <= RB.ring_pos C r i <= C.
Proof. intros Hr Hi. ring_cases C; lia. Qed.

Lemma ring_pos_inj (C r i j : Z) :
  0 <= r <= C -> 0 <= i <= C -> 0 <= j <= C ->
  RB.ring_pos C r i = RB.ring_pos C r j -> i = j.
Proof. intros Hr Hi Hj. ring_cases C; lia. Qed.

Lemma ring_norm_range (C r : Z) : 0 <= r -> 0 <= C -> 0 <= RB.ring_norm C r <= C.
Proof. intros Hr HC. ring_cases C; lia. Qed.

(** The cell after the cursor [r], as [read] and [write] compute it. *)
Lemma ring_pos_next (C r i : Z) :
  0 <= r <= C -> 0 <= i < C ->
  RB.ring_pos C (RB.ring_norm C (r + 1)) i = RB.ring_pos C r (i + 1).
Proof. intros Hr Hi. ring_cases C; lia. Qed.

Lemma ring_fresh (C : Z) (cells : list Z) :
  0 <= C -> RB.ring C (RB.mk 0 C 0 0 0 cells) [].
Proof.
  intros HC. unfold RB.ring; simpl.
  split; [reflexivity|]. split; [lia|]. split; [reflexivity|]. split; [lia|].
  split; [ring_cases C; lia|]. intros i v Hv. destruct i; discriminate.
Qed.

Lemma ring_new (C : Z) (content : nat -> Z) :
  0 <= C -> RB.ring C (RB.new C (Some content)) [].
Proof. intros HC. apply ring_fresh. exact HC. Qed.

Lemma new_cells (C : Z) (content : nat -> Z) :
  0 <= C -> Z.of_nat (length (RB.data (RB.new C (Some content)))) = C.
Proof. intros HC. simpl. rewrite length_map, length_seq. lia. Qed.

Lemma ring_clear (C : Z) (b : RB.t) (q : list Z) :
  0 <= C -> RB.ring C b q -> RB.ring C (RB.clear b) [].
Proof.
  intros HC Hb. ring_fields Hb. unfold RB.ring, RB.clear; simpl.
  split; [assumption|]. split; [lia|]. split; [reflexivity|]. split; [lia|].
  split; [ring_cases C; lia|]. intros i v Hv. destruct i; discriminate.
Qed.

Lemma ring_with_ignore_count (C n : Z) (b : RB.t) (q : list Z) :
  RB.ring C b q -> RB.ring C (RB.with_ignore_count n b) q.
Proof. intros Hb. exact Hb. Qed.

(** [read] takes the oldest entry. *)
Lemma ring_read (C : Z) (b : RB.t) (v : Z) (q : list Z) :
  0 < C < 2 ^ 31 ->
  RB.ring C b (v :: q) ->
  exists b',
    RB.read b = Ok (v, b') /\ RB.ring C b' q
    /\ RB.ignore_count b' = RB.ignore_count b
    /\ RB.write_pos b' = RB.write_pos b
    /\ RB.data b' = RB.data b.
Proof.
  intros HC Hb. ring_fields Hb. simpl length in *.
  unfold RB.read.
  destruct (Z.ltb_spec 0 (RB.available_count b)); [|lia].
  fold (RB.ring_norm (RB.size_count b) (RB.read_pos b)). rewrite Hsize.
  set (r := RB.ring_norm C (RB.read_pos b)) in *.
  assert (Hr : 0 <= r <= C) by (apply ring_norm_range; lia).
  pose proof (Hdata 0%nat v eq_refl) as Hv.
  replace (RB.ring_pos C r (Z.of_nat 0)) with r in Hv by (ring_cases C; lia).
  rewrite (load_some _ r v) by (lia || assumption). cbn.
  rewrite wrap_size_t_small by lia.
  eexists. split; [reflexivity|]. split; [|repeat split].
  unfold RB.ring;
    cbn [RB.size_count RB.data RB.read_pos RB.available_count RB.write_pos].
  split; [reflexivity|]. split; [lia|]. split; [lia|]. split; [lia|]. split.
  - destruct (Z.eq_dec (Z.of_nat (length q)) 0) as [Hq0|Hq0].
    + rewrite Hwp, Hq0. ring_cases C; lia.
    + rewrite ring_pos_next by lia. rewrite Hwp. f_equal. lia.
  - intros i x Hx. apply lookup_lt_Some in Hx as Hi.
    rewrite ring_pos_next by lia.
    replace (Z.of_nat i + 1) with (Z.of_nat (S i)) by lia. apply Hdata. exact Hx.
Qed.

(** [write] with no pending skip stores the value as the newest entry, and
    drops the oldest one if the buffer is full. *)
Lemma ring_write (C : Z) (b : RB.t) (v : Z) (q : list Z) :
  0 < C < 2 ^ 31 ->
  RB.ring C b q -> RB.ignore_count b = 0 ->
  RB.write_pos b < Z.of_nat (length (RB.data b)) ->
  exists b',
    RB.write v b = Ok b'
    /\ RB.ignore_count b' = 0
    /\ length (RB.data b') = length (RB.data b)
    /\ (Z.of_nat (length q) < C -> RB.read_pos b' = RB.read_pos b)
    /\ RB.ring C b' (if Z.of_nat (length q) <? C then q ++ [v] else drop 1 q ++ [v]).
Proof.
  intros HC Hb Hig Hcell. ring_fields Hb.
  set (r := RB.ring_norm C (RB.read_pos b)) in *.
  assert (Hr : 0 <= r <= C) by (apply ring_norm_range; lia).
  pose proof (ring_pos_range C r (Z.of_nat (length q)) Hr ltac:(lia)) as Hwr.
  rewrite <- Hwp in Hwr.
  unfold RB.write. rewrite Hig. cbn [Z.ltb Z.compare].
  rewrite store_in_bounds by lia. cbn.
  rewrite (wrap_size_t_small (RB.write_pos b + 1)) by lia.
  rewrite Hsize, Hav.
  set (wp' := if C <? RB.write_pos b + 1 then 0 else RB.write_pos b + 1).
  assert (Hwp' : wp' = RB.ring_pos C r (Z.of_nat (length q) + 1)).
  { unfold wp'. rewrite Hwp. ring_cases C; lia. }
  assert (Hwr' : 0 <= wp' <= C) by (unfold wp'; ring_cases C; lia).
  destruct (Z.ltb_spec (Z.of_nat (length q)) C) as [Hroom|Hfull].
  - (* the buffer is not full *)
    eexists. split; [reflexivity|]. split; [reflexivity|].
    split; [apply length_insert|]. split; [reflexivity|].
    unfold RB.ring;
      cbn [RB.size_count RB.data RB.read_pos RB.available_count RB.write_pos].
    fold r. rewrite length_app. simpl length.
    split; [reflexivity|]. split; [assumption|].
    split; [rewrite wrap_size_t_small by lia; lia|]. split; [lia|].
    split; [rewrite Hwp'; f_equal; lia|].
    intros i x Hx.
    destruct (Nat.lt_ge_cases i (length q)) as [Hi|Hi].
    + rewrite lookup_app_l in Hx by assumption.
      rewrite list_lookup_insert_ne; [apply Hdata; exact Hx|].
      intros Heq. apply Z2Nat.inj in Heq; [|lia|apply ring_pos_range; lia].
      rewrite Hwp in Heq. apply ring_pos_inj in Heq; lia.
    + rewrite lookup_app_r in Hx by assumption.
      destruct (i - length q)%nat as [|k] eqn:Hk; [|destruct k; discriminate].
      simpl in Hx. injection Hx as <-.
      assert (i = length q) by lia. subst i.
      rewrite <- Hwp. apply list_lookup_insert_eq. lia.
  - (* the buffer is full: the oldest entry goes *)
    assert (Hlen : Z.of_nat (length q) = C) by lia.
    assert (Hwpr : wp' = r) by (rewrite Hwp'; ring_cases C; lia).
    eexists. split; [reflexivity|]. split; [reflexivity|].
    split; [apply length_insert|]. split; [lia|].
    unfold RB.ring;
      cbn [RB.size_count RB.data RB.read_pos RB.available_count RB.write_pos].
    rewrite length_app, length_drop. simpl length.
    rewrite wrap_size_t_small by lia. rewrite Hwpr.
    split; [reflexivity|]. split; [lia|]. split; [lia|]. split; [lia|].
    split.
    + ring_cases C; lia.
    + intros i x Hx.
      assert (Hi : (i < length q)%nat).
      { apply lookup_lt_Some in Hx. rewrite length_app, length_drop in Hx.
        simpl in Hx. lia. }
      rewrite ring_pos_next by lia.
      destruct (Nat.lt_ge_cases i (length q - 1)) as [Hold|Hnew].
      * rewrite lookup_app_l in Hx by (rewrite length_drop; lia).
        rewrite lookup_drop in Hx.
        rewrite list_lookup_insert_ne.
        -- replace (Z.of_nat i + 1) with (Z.of_nat (1 + i)) by lia.
           apply Hdata. exact Hx.
        -- intros Hsame. apply Z2Nat.inj in Hsame; [|lia|apply ring_pos_range; lia].
           rewrite Hwp in Hsame. apply ring_pos_inj in Hsame; lia.
      * rewrite lookup_app_r in Hx by (rewrite length_drop; lia).
        rewrite length_drop in Hx.
        destruct (i - (length q - 1))%nat as [|k] eqn:Hk; [|destruct k; discriminate].
        simpl in Hx. injection Hx as <-.
        replace (RB.ring_pos C r (Z.of_nat i + 1)) with (RB.write_pos b)
          by (rewrite Hwp; f_equal; lia).
        apply list_lookup_insert_eq. lia.
Qed.

(** [write] with no pending skip and the write cursor outside of the cells. *)
Lemma write_out_of_cells (v : Z) (b : RB.t) :
  RB.ignore_count b = 0 ->
  Z.of_nat (length (RB.data b)) <= RB.write_pos b ->
  RB.write v b = Fault (OutOfBounds (RB.write_pos b)).
Proof.
  intros Hig Hout. unfold RB.write. rewrite Hig. cbn [Z.ltb Z.compare].
  now rewrite store_out_of_bounds.
Qed.

(** A write while [ignore_count > 0] only counts down. *)
Lemma write_ignored (v : Z) (b : RB.t) :
  0 < RB.ignore_count b ->
  RB.write v b = Ok (RB.with_ignore_count (RB.ignore_count b - 1) b).
Proof.
  intros Hpos. unfold RB.write.
  destruct (Z.ltb_spec 0 (RB.ignore_count b)); [reflexivity|lia].
Qed.

Lemma write_all_ignored (vs : list Z) (b : RB.t) :
  Z.of_nat (length vs) <= RB.ignore_count b ->
  RB.write_all vs b =
    Ok (RB.with_ignore_count (RB.ignore_count b - Z.of_nat (length vs)) b).
Proof.
  revert b. induction vs as [|v vs IH]; intros b Hlen.
  - simpl. destruct b; unfold RB.with_ignore_count; simpl. f_equal. f_equal. lia.
  - cbn [RB.write_all]. simpl length in Hlen.
    rewrite write_ignored by lia. cbn.
    rewrite IH by (simpl; lia).
    unfold RB.with_ignore_count; simpl. f_equal. f_equal. lia.
Qed.

(** The loop of [clear(count)] reads [min n (available())] entries. *)
Lemma ring_clear_loop (C : Z) (n : nat) :
  0 < C < 2 ^ 31 ->
  forall (j : Z) (b : RB.t) (q : list Z),
  RB.ring C b q -> 0 <= j -> j + Z.of_nat (length q) <= int_max ->
  exists b',
    RB.clear_loop n j b = Ok b' /\ RB.ring C b' (drop n q)
    /\ RB.ignore_count b' = RB.ignore_count b
    /\ RB.write_pos b' = RB.write_pos b
    /\ RB.data b' = RB.data b.
Proof.
  intros HC. unfold int_max.
  induction n as [|n IH]; intros j b q Hb Hj Hcount.
  - exists b. rewrite drop_0. split; [reflexivity|]. split; [exact Hb|].
    split; [reflexivity|]. split; reflexivity.
  - cbn [RB.clear_loop]. unfold RB.available.
    destruct q as [|v q].
    + assert (Hav : RB.available_count b = 0) by (ring_fields Hb; assumption).
      rewrite Hav. exists b. split; [reflexivity|]. split; [exact Hb|].
      split; [reflexivity|]. split; reflexivity.
    + assert (Hav : 0 < RB.available_count b)
        by (ring_fields Hb; simpl length in *; lia).
      destruct (Z.ltb_spec 0 (RB.available_count b)); [|lia].
      destruct (ring_read C b v q HC Hb) as (b1 & -> & Hb1 & Hig1 & Hwp1 & Hd1). cbn.
      destruct (Z.eqb_spec j int_max) as [Hmax|_];
        [unfold int_max in Hmax; simpl length in Hcount; lia|].
      destruct (IH (j + 1) b1 q Hb1) as (b2 & -> & Hb2 & Hig2 & Hwp2 & Hd2);
        [lia|simpl length in Hcount; lia|].
      exists b2. split; [reflexivity|]. split; [exact Hb2|].
      split; [congruence|]. split; congruence.
Qed.

Lemma ring_clear_count (C : Z) (b : RB.t) (q : list Z) (n : Z) :
  0 < C < 2 ^ 31 -> RB.ring C b q -> 0 <= n ->
  exists b',
    RB.clear_count n b = Ok b' /\ RB.ring C b' (drop (Z.to_nat n) q)
    /\ RB.ignore_count b' = Z.max 0 (n - RB.available b)
    /\ RB.write_pos b' = RB.write_pos b
    /\ RB.data b' = RB.data b.
Proof.
  intros HC Hb Hn. unfold RB.clear_count, RB.available.
  set (ignore := if RB.available_count b <? n then n - RB.available_count b else 0).
  assert (Hi : ignore = Z.max 0 (n - RB.available_count b)).
  { unfold ignore. destruct (Z.ltb_spec (RB.available_count b) n); lia. }
  fold (RB.with_ignore_count ignore b).
  destruct (ring_clear_loop C (Z.to_nat n) HC 0 (RB.with_ignore_count ignore b) q)
    as (b' & Hrun & Hb' & Hig' & Hwp' & Hd').
  - exact Hb.
  - lia.
  - ring_fields Hb. unfold int_max. lia.
  - exists b'. split; [exact Hrun|]. split; [exact Hb'|].
    split; [rewrite Hig'; exact Hi|]. split; assumption.
Qed.

(** A drain yields the entries, oldest first. *)
Lemma ring_drain_loop (C : Z) (q : list Z) :
  0 < C < 2 ^ 31 ->
  forall (b : RB.t) (n : nat),
  RB.ring C b q -> (length q <= n)%nat ->
  exists b', RB.drain_loop n b = Ok (q, b') /\ RB.ring C b' [].
Proof.
  intros HC. induction q as [|v q IH]; intros b n Hb Hn.
  - exists b. split; [|exact Hb]. ring_fields Hb. simpl length in Hav.
    destruct n as [|n]; [reflexivity|]. cbn [RB.drain_loop].
    unfold RB.available. rewrite Hav. reflexivity.
  - destruct n as [|n]; [simpl in Hn; lia|]. cbn [RB.drain_loop].
    unfold RB.available.
    assert (Hpos : 0 < RB.available_count b)
      by (ring_fields Hb; simpl length in Hav; lia).
    destruct (Z.ltb_spec 0 (RB.available_count b)); [|lia].
    destruct (ring_read C b v q HC Hb) as (b1 & -> & Hb1 & _). cbn.
    destruct (IH b1 n Hb1 ltac:(simpl in Hn; lia)) as (b2 & -> & Hb2). cbn.
    exists b2. split; [reflexivity|exact Hb2].
Qed.

Lemma ring_drain (C : Z) (q : list Z) (b : RB.t) :
  0 < C < 2 ^ 31 -> RB.ring C b q ->
  exists b', RB.drain b = Ok (q, b').
Proof.
  intros HC Hb. unfold RB.drain, RB.available.
  destruct (ring_drain_loop C q HC b (Z.to_nat (RB.available_count b)) Hb)
    as (b' & Hd & _).
  - ring_fields Hb. lia.
  - exists b'. exact Hd.
Qed.

Lemma newest_short (C : Z) (l : list Z) :
  Z.of_nat (length l) <= C -> RB.newest C l = l.
Proof.
  intros Hl. unfold RB.newest.
  replace (length l - Z.to_nat C)%nat with 0%nat by lia. reflexivity.
Qed.

Lemma newest_snoc (C : Z) (l : list Z) (v : Z) :
  0 < C ->
  (if Z.of_nat (length (RB.newest C l)) <? C then RB.newest C l ++ [v]
   else drop 1 (RB.newest C l) ++ [v]) = RB.newest C (l ++ [v]).
Proof.
  intros HC. unfold RB.newest. rewrite length_drop, length_app. simpl length.
  destruct (Z.ltb_spec (Z.of_nat (length l - (length l - Z.to_nat C))) C) as [Hlt|Hge].
  - replace (length l - Z.to_nat C)%nat with 0%nat by lia.
    replace (length l + 1 - Z.to_nat C)%nat with 0%nat by lia. reflexivity.
  - rewrite drop_drop.
    rewrite drop_app_le by lia. f_equal. f_equal. lia.
Qed.

Lemma newest_push (C : Z) (l : list Z) (v : Z) :
  0 < C -> Z.of_nat (length l) <= C ->
  (if Z.of_nat (length l) <? C then l ++ [v] else drop 1 l ++ [v])
  = RB.newest C (l ++ [v]).
Proof.
  intros HC Hl. pose proof (newest_snoc C l v HC) as Hsnoc.
  rewrite (newest_short C l Hl) in Hsnoc. exact Hsnoc.
Qed.

(** ** RingBuffer: writing past the capacity *)

(** With a cell [data[size_count]], any sequence of writes keeps the [C]
    most recent values. *)
Lemma ring_write_all (C : Z) (vs : list Z) :
  0 < C < 2 ^ 31 ->
  forall (b : RB.t) (l : list Z),
  RB.ring C b (RB.newest C l) -> RB.ignore_count b = 0 ->
  C < Z.of_nat (length (RB.data b)) ->
  exists b',
    RB.write_all vs b = Ok b'
    /\ RB.ignore_count b' = 0
    /\ RB.ring C b' (RB.newest C (l ++ vs)).
Proof.
  intros HC. induction vs as [|v vs IH]; intros b l Hb Hig Hspare.
  - exists b. rewrite app_nil_r. split; [reflexivity|]. split; assumption.
  - cbn [RB.write_all].
    destruct (ring_write C b v (RB.newest C l) HC Hb Hig)
      as (b1 & -> & Hig1 & Hlen1 & _ & Hb1).
    { pose proof Hb as Hb0. ring_fields Hb0. rewrite Hwp.
      pose proof (ring_pos_range C (RB.ring_norm C (RB.read_pos b))
                    (Z.of_nat (length (RB.newest C l)))
                    ltac:(apply ring_norm_range; lia) ltac:(lia)). lia. }
    cbn. rewrite newest_snoc in Hb1 by lia.
    destruct (IH b1 (l ++ [v]) Hb1 Hig1 ltac:(lia)) as (b2 & Hw & Hig2 & Hb2).
    exists b2. rewrite <- app_assoc in Hb2. split; [exact Hw|]. split; assumption.
Qed.

(** With one cell more than the capacity, the cursor arithmetic of [write]
    and [read] keeps what C1 asks for: after any sequence of writes
    [available()] is at most [C] and a drain yields the [C] most recent
    values in the order in which they were written. *)
Lemma write_all_with_spare_cell (C : Z) (cells vs : list Z) :
  0 < C < 2 ^ 31 ->
  C < Z.of_nat (length cells) ->
  exists b' rest,
    RB.write_all vs (RB.mk 0 C 0 0 0 cells) = Ok b'
    /\ RB.available b' <= C
    /\ RB.drain b' = Ok (drop (length vs - Z.to_nat C) vs, rest).
Proof.
  intros HC Hcells.
  destruct (ring_write_all C vs HC (RB.mk 0 C 0 0 0 cells) [])
    as (b' & Hw & _ & Hb').
  - apply ring_fresh. lia.
  - reflexivity.
  - exact Hcells.
  - destruct (ring_drain C _ b' HC Hb') as (rest & Hd).
    exists b', rest. split; [exact Hw|]. split; [|exact Hd].
    destruct Hb' as (_ & _ & Hav & Hfit & _). unfold RB.available. lia.
Qed.

(** With the [size_count] cells that [new T[size_count]] returns, the write
    that follows [size_count] stored ones leaves the cells. *)
Lemma write_all_past_capacity (C : Z) (vs : list Z) :
  0 < C < 2 ^ 31 ->
  forall (b : RB.t) (q : list Z),
  RB.ring C b q -> RB.read_pos b = 0 -> RB.ignore_count b = 0 ->
  Z.of_nat (length (RB.data b)) = C ->
  C - Z.of_nat (length q) < Z.of_nat (length vs) ->
  RB.write_all vs b = Fault (OutOfBounds C).
Proof.
  intros HC. induction vs as [|v vs IH]; intros b q Hb Hrp0 Hig Hcells Hmore.
  - pose proof Hb as Hb0. ring_fields Hb0. simpl in Hmore. lia.
  - cbn [RB.write_all].
    assert (Hwpq : RB.write_pos b = Z.of_nat (length q)).
    { pose proof Hb as Hb0. ring_fields Hb0. rewrite Hwp, Hrp0. ring_cases C; lia. }
    destruct (Z.ltb_spec (Z.of_nat (length q)) C) as [Hroom|Hfull].
    + destruct (ring_write C b v q HC Hb Hig ltac:(lia))
        as (b1 & -> & Hig1 & Hlen1 & Hrp1 & Hb1).
      cbn. destruct (Z.ltb_spec (Z.of_nat (length q)) C); [|lia].
      assert (Hrp1' : RB.read_pos b1 = 0) by (rewrite Hrp1 by lia; exact Hrp0).
      assert (Hcells1 : Z.of_nat (length (RB.data b1)) = C)
        by (rewrite Hlen1; exact Hcells).
      assert (Hmore1 : C - Z.of_nat (length (q ++ [v])) < Z.of_nat (length vs))
        by (rewrite length_app; simpl length in *; lia).
      exact (IH b1 (q ++ [v]) Hb1 Hrp1' Hig1 Hcells1 Hmore1).
    + rewrite write_out_of_cells by (assumption || lia).
      cbn. f_equal. f_equal.
      pose proof Hb as Hb0. ring_fields Hb0. lia.
Qed.

(** A buffer as its constructor makes it: whatever is written, the write
    number [C + 1] leaves the cells. *)
Lemma write_all_fresh_past_capacity (C : Z) (content : nat -> Z) (vs : list Z) :
  0 < C < 2 ^ 31 ->
  C < Z.of_nat (length vs) ->
  RB.write_all vs (RB.new C (Some content)) = Fault (OutOfBounds C).
Proof.
  intros HC Hvs.
  apply (write_all_past_capacity C vs HC (RB.new C (Some content)) []).
  - apply ring_new. lia.
  - reflexivity.
  - reflexivity.
  - apply new_cells. lia.
  - simpl. lia.
Qed.

(** The states of the ring are closed under a write that returns. *)
Lemma ring_write_returns (C : Z) (b b' : RB.t) (v : Z) (q : list Z) :
  0 < C < 2 ^ 31 -> RB.ring C b q -> 0 <= RB.ignore_count b ->
  RB.write v b = Ok b' ->
  exists q', RB.ring C b' q'.
Proof.
  intros HC Hb Hig Hw.
  destruct (Z.ltb_spec 0 (RB.ignore_count b)) as [Hpos|Hzero].
  - rewrite write_ignored in Hw by assumption. injection Hw as <-.
    exists q. exact Hb.
  - assert (Hig0 : RB.ignore_count b = 0) by lia.
    destruct (Z.ltb_spec (RB.write_pos b) (Z.of_nat (length (RB.data b))))
      as [Hcell|Hout].
    + destruct (ring_write C b v q HC Hb Hig0 Hcell) as (b1 & Hw1 & _ & _ & _ & Hb1).
      rewrite Hw1 in Hw. injection Hw as <-. eexists. exact Hb1.
    + rewrite write_out_of_cells in Hw by assumption. discriminate.
Qed.

(** C4 (the code departs from it).  A write to a buffer of capacity 0 is not
    a no-op: with no pending skip it executes [data[write_pos++] = value]
    with [write_pos = 0], an access outside of the (empty or null) array.
    This holds for a buffer made with size 0 and for one whose allocation
    failed. *)
Theorem zero_capacity_write_accesses_storage (v size : Z) (content : nat -> Z) :
  RB.write v (RB.new 0 (Some content)) = Fault (OutOfBounds 0)
  /\ RB.write v (RB.new size None) = Fault (OutOfBounds 0).
Proof. split; reflexivity. Qed.

(** The rest of C4 holds: reading a buffer of capacity 0 returns the zero
    value and leaves it empty. *)
Lemma zero_capacity_read (size : Z) :
  RB.read (RB.new size None) = Ok (0, RB.new size None)
  /\ RB.available (RB.new size None) = 0.
Proof. split; reflexivity. Qed.

(** Were the cell [data[0]] there, the write would store into it and move
    the read cursor: no no-op either. *)
Lemma zero_capacity_write_with_a_cell (v c : Z) :
  RB.write v (RB.mk 0 0 0 0 0 [c]) = Ok (RB.mk 0 0 0 1 0 [v]).
Proof. reflexivity. Qed.

(** C1 (the code departs from it).  In a buffer of capacity 1 the second
    write, and in a buffer of capacity 2 the third write, stores to
    [data[size_count]], one cell past the array that [new T[size_count]]
    returned: the write cursor wraps only when it is greater than
    [size_count]. *)
Theorem write_past_capacity_leaves_cells :
  RB.write_all [1; 2] (RB.new 1 (Some (fun _ => 0))) = Fault (OutOfBounds 1)
  /\ RB.write_all [1; 2; 3] (RB.new 2 (Some (fun _ => 0)))
     = Fault (OutOfBounds 2).
Proof. split; reflexivity. Qed.

(** ** RingBuffer: clear(count) *)

(** The part of C7 that holds, for the states whose write cursor is on a
    cell.  [clear(n)] on a buffer of capacity [C] that holds the entries [q].
    With [n <= available()]: [available()] goes down by exactly [n], the
    [n] oldest entries are gone, [ignore_count] is 0 afterwards and no write
    is dropped: the next write is stored as the newest entry.  With
    [n > available()]: the buffer is empty, exactly the next
    [n - available()] writes are dropped (they change nothing but the
    counter), and the write after them is stored and read back.  The writes
    that store are those whose cell [data[write_pos]] exists. *)
Theorem clear_count_removes_or_defers (C : Z) (b : RB.t) (q : list Z) (n : Z) :
  0 < C < 2 ^ 31 -> RB.ring C b q -> 0 <= n ->
  exists b',
    RB.clear_count n b = Ok b' /\
    (n <= RB.available b ->
       RB.available b' = RB.available b - n
       /\ RB.ignore_count b' = 0
       /\ (exists rest, RB.drain b' = Ok (drop (Z.to_nat n) q, rest))
       /\ forall v, RB.write_pos b < Z.of_nat (length (RB.data b)) ->
            exists b'' rest,
              RB.write v b' = Ok b''
              /\ RB.drain b'' = Ok (RB.newest C (drop (Z.to_nat n) q ++ [v]), rest)) /\
    (RB.available b < n ->
       RB.available b' = 0
       /\ RB.ignore_count b' = n - RB.available b
       /\ forall vs, Z.of_nat (length vs) = n - RB.available b ->
            RB.write_all vs b' = Ok (RB.with_ignore_count 0 b')
            /\ forall v, RB.write_pos b < Z.of_nat (length (RB.data b)) ->
                 exists b'' rest,
                   RB.write v (RB.with_ignore_count 0 b') = Ok b''
                   /\ RB.available b'' = 1
                   /\ RB.drain b'' = Ok ([v], rest)).
Proof.
  intros HC Hb Hn.
  destruct (ring_clear_count C b q n HC Hb Hn) as (b' & Hrun & Hb' & Hig' & Hwp' & Hd').
  exists b'. split; [exact Hrun|].
  assert (Havq : RB.available b = Z.of_nat (length q))
    by (destruct Hb as (_ & _ & Hav & _); exact Hav).
  assert (Hav' : RB.available b' = Z.of_nat (length (drop (Z.to_nat n) q)))
    by (destruct Hb' as (_ & _ & Hav & _); exact Hav).
  rewrite length_drop in Hav'.
  split.
  - intros Hle. split; [lia|]. split; [lia|].
    split; [apply (ring_drain C _ b' HC Hb')|].
    intros v Hcell.
    destruct (ring_write C b' v _ HC Hb') as (b'' & Hw & _ & _ & _ & Hb'');
      [lia|rewrite Hwp', Hd'; exact Hcell|].
    assert (Hq' : Z.of_nat (length (drop (Z.to_nat n) q)) <= C)
      by (destruct Hb' as (_ & _ & _ & Hfit & _); exact Hfit).
    rewrite newest_push in Hb'' by lia.
    destruct (ring_drain C _ b'' HC Hb'') as (rest & Hdrain).
    exists b'', rest. split; [exact Hw|exact Hdrain].
  - intros Hlt. split; [lia|]. split; [lia|].
    intros vs Hvs. split.
    + rewrite write_all_ignored by lia. f_equal.
      unfold RB.with_ignore_count. f_equal. lia.
    + intros v Hcell.
      assert (Hempty : drop (Z.to_nat n) q = []) by (apply drop_ge; lia).
      rewrite Hempty in Hb'.
      destruct (ring_write C (RB.with_ignore_count 0 b') v [] HC Hb')
        as (b'' & Hw & _ & _ & _ & Hb'');
        [reflexivity|simpl; rewrite Hwp', Hd'; exact Hcell|].
      simpl length in Hb''. destruct (Z.ltb_spec (Z.of_nat 0) C); [|lia].
      destruct (ring_drain C _ b'' HC Hb'') as (rest & Hdrain).
      exists b'', rest. split; [exact Hw|]. split; [|exact Hdrain].
      destruct Hb'' as (_ & _ & Hav & _). exact Hav.
Qed.

Lemma two_unread_ring : RB.ring 4 two_unread [20; 30].
Proof.
  unfold RB.ring, two_unread; simpl.
  split; [reflexivity|]. split; [lia|]. split; [reflexivity|]. split; [lia|].
  split; [reflexivity|].
  intros i v Hv. destruct i as [|[|i]]; simpl in Hv; [| |discriminate];
    injection Hv as <-; reflexivity.
Defined.

Lemma clear_count_removes_or_defers_witness :
  0 < 4 < 2 ^ 31 /\ RB.ring 4 two_unread [20; 30] /\ 0 <= 5 /\
  exists b',
    RB.clear_count 5 two_unread = Ok b'
    /\ RB.available b' = 0
    /\ RB.ignore_count b' = 3
    /\ RB.write_all [7; 8; 9] b' = Ok (RB.with_ignore_count 0 b').
Proof.
  assert (HC : 0 < 4 < 2 ^ 31) by lia.
  assert (Hn : 0 <= 5) by lia.
  split; [exact HC|]. split; [exact two_unread_ring|]. split; [exact Hn|].
  destruct (clear_count_removes_or_defers 4 two_unread [20; 30] 5
              HC two_unread_ring Hn) as (b' & Hrun & _ & Hdefer).
  destruct Hdefer as (Hav & Hig & Hdrop); [simpl; lia|].
  exists b'. split; [exact Hrun|]. split; [exact Hav|]. split; [exact Hig|].
  apply (Hdrop [7; 8; 9]). reflexivity.
Defined.

(** ** LogicAnalyzer: running the operations *)

Ltac run :=
  unfold mbind, LA.M_bind, mret, LA.M_ret,
    LA.get_la, LA.get_world, LA.update_la,
    LA.update_world, LA.fail, LA.lift;
  cbn [fst snd].

Lemma with_buffer_ptr_same (la : LA.t) (b : RB.t) :
  LA.buffer_ptr la = Some b -> LA.with_buffer_ptr (Some b) la = la.
Proof. intros H. destruct la. simpl in H. subst. reflexivity. Qed.

(** *** Running the monadic operations *)

Lemma bind_run {A B : Type} (m : LA.M A) (k : A -> LA.M B) (s : LA.State) :
  (m ≫= k) s = match m s with Ok (a, s') => k a s' | Fault f => Fault f end.
Proof. reflexivity. Qed.

Lemma buffer_run (la : LA.t) (w : World) (b : RB.t) :
  LA.buffer_ptr la = Some b -> LA.buffer (la, w) = Ok (b, (la, w)).
Proof. intros H. unfold LA.buffer. run. rewrite H. reflexivity. Qed.

Lemma buffer_available_run (la : LA.t) (w : World) (b : RB.t) :
  LA.buffer_ptr la = Some b ->
  LA.buffer_available (la, w) = Ok (RB.available b, (la, w)).
Proof.
  intros H. unfold LA.buffer_available. rewrite bind_run, (buffer_run la w b H).
  reflexivity.
Qed.

Lemma buffer_clear_run (la : LA.t) (w : World) (b : RB.t) :
  LA.buffer_ptr la = Some b ->
  LA.buffer_clear (la, w) = Ok (tt, (LA.with_buffer_ptr (Some (RB.clear b)) la, w)).
Proof.
  intros H. unfold LA.buffer_clear. rewrite bind_run, (buffer_run la w b H).
  reflexivity.
Qed.

Lemma buffer_clear_count_run (n : Z) (la : LA.t) (w : World) (b b' : RB.t) :
  LA.buffer_ptr la = Some b -> RB.clear_count n b = Ok b' ->
  LA.buffer_clear_count n (la, w) = Ok (tt, (LA.with_buffer_ptr (Some b') la, w)).
Proof.
  intros H Hc. unfold LA.buffer_clear_count.
  rewrite bind_run, (buffer_run la w b H). rewrite bind_run.
  unfold LA.lift. rewrite Hc. reflexivity.
Qed.

Lemma buffer_read_run (la : LA.t) (w : World) (b b' : RB.t) (v : Z) :
  LA.buffer_ptr la = Some b -> RB.read b = Ok (v, b') ->
  LA.buffer_read (la, w) = Ok (v, (LA.with_buffer_ptr (Some b') la, w)).
Proof.
  intros H Hr. unfold LA.buffer_read.
  rewrite bind_run, (buffer_run la w b H). rewrite bind_run.
  unfold LA.lift. rewrite Hr. reflexivity.
Qed.

Section Trigger.
Context (sizeof_T : Z) (host : ByteOrder).

Lemma captureSample_armed (la : LA.t) (w : World) (pins : PinReader) :
  LA.impl_ptr la = Some pins ->
  LA.is_continuous_capture la = false ->
  LA.status_value la = ARMED ->
  LA.captureSample sizeof_T host (la, w) =
    Ok (LA.wrap_T sizeof_T (level pins (pin_reads w)),
        (la, with_pin_reads (S (pin_reads w)) w)).
Proof.
  intros Himpl Hcont Hst.
  unfold LA.captureSample, LA.readAll. run. rewrite Himpl. run.
  rewrite Hcont, Hst. reflexivity.
Qed.

(** One evaluation of the loop condition of the trigger wait, for a status
    other than TRIGGERED: one sample is read, the analyzer is as before. *)
Lemma trigger_mismatch_waiting (la : LA.t) (w : World) (pins : PinReader) :
  LA.impl_ptr la = Some pins ->
  LA.status_value la = ARMED ->
  exists w',
    LA.trigger_mismatch sizeof_T host (la, w) =
      Ok (negb (Z.land (Z.lxor (LA.trigger_values la) (LA.sample_at sizeof_T pins (pin_reads w)))
                       (LA.trigger_mask la) =? 0), (la, w'))
    /\ pin_reads w' = S (pin_reads w)
    /\ (LA.is_continuous_capture la = false -> w' = with_pin_reads (S (pin_reads w)) w).
Proof.
  intros Himpl Hst.
  unfold LA.trigger_mismatch, LA.captureSample, LA.readAll. run.
  rewrite Himpl. run.
  destruct (LA.is_continuous_capture la) eqn:Hcont.
  - unfold LA.write, LA.stream_call. run.
    eexists. split; [reflexivity|]. split; [reflexivity|discriminate].
  - rewrite Hst. eexists. split; [reflexivity|]. split; reflexivity.
Qed.

Lemma trigger_wait_sound (fuel : nat) (la : LA.t) (w : World) (pins : PinReader) (s' : LA.State) :
  LA.impl_ptr la = Some pins ->
  LA.status_value la = ARMED ->
  LA.while fuel (LA.trigger_mismatch sizeof_T host) (mret tt) (la, w) = Ok (tt, s') ->
  exists (w' : World) (k : nat),
    s' = (la, w') /\ pin_reads w' = S (pin_reads w + k)
    /\ LA.trigger_hit la (LA.sample_at sizeof_T pins (pin_reads w + k))
    /\ (forall j, (j < k)%nat -> ~ LA.trigger_hit la (LA.sample_at sizeof_T pins (pin_reads w + j)))
    /\ (LA.is_continuous_capture la = false ->
        w' = with_pin_reads (S (pin_reads w + k)) w).
Proof.
  intros Himpl Hst. revert w.
  induction fuel as [|fuel IH]; intros w Hrun; [discriminate|].
  cbn [LA.while] in Hrun. unfold mbind at 1, LA.M_bind at 1 in Hrun.
  destruct (trigger_mismatch_waiting la w pins Himpl Hst) as (w1 & Hc & Hreads & Hw1).
  rewrite Hc in Hrun.
  destruct (Z.eqb_spec
              (Z.land (Z.lxor (LA.trigger_values la)
                         (LA.sample_at sizeof_T pins (pin_reads w)))
                      (LA.trigger_mask la)) 0) as [Hhit|Hmiss];
    cbn [negb] in Hrun.
  - injection Hrun as <-. exists w1, 0%nat.
    rewrite Nat.add_0_r. split; [reflexivity|]. split; [assumption|].
    split; [exact Hhit|]. split; [intros j Hj; lia|]. exact Hw1.
  - unfold mbind at 1, LA.M_bind at 1, mret at 1, LA.M_ret at 1 in Hrun.
    destruct (IH w1 Hrun) as (w' & k & -> & Hr & Hk & Hbefore & Hw').
    exists w', (S k). rewrite Hreads in *.
    replace (pin_reads w + S k)%nat with (S (pin_reads w) + k)%nat by lia.
    split; [reflexivity|]. split; [assumption|]. split; [assumption|]. split.
    + intros j Hj. destruct j as [|j].
      * rewrite Nat.add_0_r. exact Hmiss.
      * replace (pin_reads w + S j)%nat with (S (pin_reads w) + j)%nat by lia.
        apply Hbefore. lia.
    + intros Hcont. rewrite (Hw' Hcont), (Hw1 Hcont). reflexivity.
Qed.

Lemma trigger_wait_complete (k : nat) (la : LA.t) (pins : PinReader) :
  LA.impl_ptr la = Some pins ->
  LA.status_value la = ARMED ->
  forall (w : World) (fuel : nat),
  LA.trigger_hit la (LA.sample_at sizeof_T pins (pin_reads w + k)) ->
  (forall j, (j < k)%nat -> ~ LA.trigger_hit la (LA.sample_at sizeof_T pins (pin_reads w + j))) ->
  (k < fuel)%nat ->
  exists w',
    LA.while fuel (LA.trigger_mismatch sizeof_T host) (mret tt) (la, w) = Ok (tt, (la, w'))
    /\ pin_reads w' = S (pin_reads w + k).
Proof.
  intros Himpl Hst. induction k as [|k IH]; intros w fuel Hhit Hbefore Hfuel.
  - destruct fuel as [|fuel]; [lia|]. cbn [LA.while].
    unfold mbind at 1, LA.M_bind at 1.
    destruct (trigger_mismatch_waiting la w pins Himpl Hst) as (w1 & -> & Hreads & _).
    rewrite Nat.add_0_r in Hhit. unfold LA.trigger_hit in Hhit. rewrite Hhit.
    cbn. exists w1. split; [reflexivity|]. lia.
  - destruct fuel as [|fuel]; [lia|]. cbn [LA.while].
    unfold mbind at 1, LA.M_bind at 1.
    destruct (trigger_mismatch_waiting la w pins Himpl Hst) as (w1 & -> & Hreads & _).
    assert (Hmiss : ~ LA.trigger_hit la (LA.sample_at sizeof_T pins (pin_reads w + 0)))
      by (apply Hbefore; lia).
    rewrite Nat.add_0_r in Hmiss. unfold LA.trigger_hit in Hmiss.
    destruct (Z.eqb_spec
                (Z.land (Z.lxor (LA.trigger_values la)
                           (LA.sample_at sizeof_T pins (pin_reads w)))
                        (LA.trigger_mask la)) 0) as [Hz|_]; [contradiction|].
    cbn [negb]. unfold mbind at 1, LA.M_bind at 1, mret at 1, LA.M_ret at 1.
    destruct (IH w1 fuel) as (w' & Hrun & Hr).
    + rewrite Hreads. replace (S (pin_reads w) + k)%nat with (pin_reads w + S k)%nat by lia.
      exact Hhit.
    + intros j Hj. rewrite Hreads.
      replace (S (pin_reads w) + j)%nat with (pin_reads w + S j)%nat by lia.
      apply Hbefore. lia.
    + lia.
    + exists w'. split; [exact Hrun|]. rewrite Hr, Hreads. lia.
Qed.

Lemma trigger_wait_starved (fuel : nat) (la : LA.t) (pins : PinReader) :
  LA.impl_ptr la = Some pins ->
  LA.status_value la = ARMED ->
  forall w : World,
  (forall j, (j < fuel)%nat ->
     ~ LA.trigger_hit la (LA.sample_at sizeof_T pins (pin_reads w + j))) ->
  LA.while fuel (LA.trigger_mismatch sizeof_T host) (mret tt) (la, w) = Fault OutOfFuel.
Proof.
  intros Himpl Hst. induction fuel as [|fuel IH]; intros w Hbefore; [reflexivity|].
  cbn [LA.while]. unfold mbind at 1, LA.M_bind at 1.
  destruct (trigger_mismatch_waiting la w pins Himpl Hst) as (w1 & -> & Hreads & _).
  assert (Hmiss : ~ LA.trigger_hit la (LA.sample_at sizeof_T pins (pin_reads w + 0)))
    by (apply Hbefore; lia).
  rewrite Nat.add_0_r in Hmiss. unfold LA.trigger_hit in Hmiss.
  destruct (Z.eqb_spec
              (Z.land (Z.lxor (LA.trigger_values la)
                         (LA.sample_at sizeof_T pins (pin_reads w)))
                      (LA.trigger_mask la)) 0) as [Hz|_]; [contradiction|].
  cbn [negb]. unfold mbind at 1, LA.M_bind at 1, mret at 1, LA.M_ret at 1.
  apply IH. intros j Hj. rewrite Hreads.
  replace (S (pin_reads w) + j)%nat with (pin_reads w + S j)%nat by lia.
  apply Hbefore. lia.
Qed.

Lemma setStatus_run (status : Status) (la : LA.t) (w : World) :
  LA.setStatus status (la, w) =
    Ok (tt, (LA.with_status_value status la, LA.notified STATUS la w)).
Proof. reflexivity. Qed.

Lemma capture_trigger_unmasked (fuel : nat) (la : LA.t) (w : World) :
  LA.trigger_mask la = 0 ->
  LA.capture_trigger sizeof_T host fuel (la, w) =
    Ok (tt, (LA.with_status_value TRIGGERED la, LA.notified STATUS la w)).
Proof.
  intros Hm. unfold LA.capture_trigger. run. rewrite Hm. reflexivity.
Qed.

Lemma capture_trigger_masked (fuel : nat) (la : LA.t) (w : World) :
  LA.trigger_mask la <> 0 ->
  LA.capture_trigger sizeof_T host fuel (la, w) =
    match LA.while fuel (LA.trigger_mismatch sizeof_T host) (mret tt) (la, w) with
    | Ok (_, s) => LA.setStatus TRIGGERED s
    | Fault f => Fault f
    end.
Proof.
  intros Hm. unfold LA.capture_trigger. run.
  destruct (Z.eqb_spec (LA.trigger_mask la) 0); [contradiction|]. reflexivity.
Qed.

Lemma notified_pin_reads (e : Event) (la : LA.t) (w : World) :
  pin_reads (LA.notified e la w) = pin_reads w /\ tx (LA.notified e la w) = tx w.
Proof. unfold LA.notified. destruct (LA.eventHandler la); split; reflexivity. Qed.

(** C6. From ARMED, with mask [m] and values [v]: if [m = 0] the status
    becomes TRIGGERED at once and no sample is read.  If [m <> 0], whenever
    the wait ends the status is TRIGGERED and the last sample read, [s],
    satisfies [(v XOR s) & m = 0] while none before it did; the first
    matching sample does end the wait (given the fuel to reach it); and as
    long as no sample matches the engine stays in the wait. *)
Theorem trigger_fires_on_match_only (la : LA.t) (w : World) (pins : PinReader) :
  LA.impl_ptr la = Some pins ->
  LA.status_value la = ARMED ->
  (LA.trigger_mask la = 0 ->
     forall fuel, exists w',
       LA.capture_trigger sizeof_T host fuel (la, w) =
         Ok (tt, (LA.with_status_value TRIGGERED la, w'))
       /\ pin_reads w' = pin_reads w /\ tx w' = tx w)
  /\ (LA.trigger_mask la <> 0 ->
      (forall fuel la' w',
         LA.capture_trigger sizeof_T host fuel (la, w) = Ok (tt, (la', w')) ->
         la' = LA.with_status_value TRIGGERED la /\
         exists k : nat,
           pin_reads w' = S (pin_reads w + k) /\
           Z.land (Z.lxor (LA.trigger_values la)
                     (LA.wrap_T sizeof_T (level pins (pin_reads w + k))))
                  (LA.trigger_mask la) = 0 /\
           forall j, (j < k)%nat ->
             Z.land (Z.lxor (LA.trigger_values la)
                       (LA.wrap_T sizeof_T (level pins (pin_reads w + j))))
                    (LA.trigger_mask la) <> 0)
      /\ (forall (k fuel : nat),
            Z.land (Z.lxor (LA.trigger_values la)
                      (LA.wrap_T sizeof_T (level pins (pin_reads w + k))))
                   (LA.trigger_mask la) = 0 ->
            (forall j, (j < k)%nat ->
               Z.land (Z.lxor (LA.trigger_values la)
                         (LA.wrap_T sizeof_T (level pins (pin_reads w + j))))
                      (LA.trigger_mask la) <> 0) ->
            (k < fuel)%nat ->
            exists w',
              LA.capture_trigger sizeof_T host fuel (la, w) =
                Ok (tt, (LA.with_status_value TRIGGERED la, w'))
              /\ pin_reads w' = S (pin_reads w + k))
      /\ (forall fuel : nat,
            (forall j, (j < fuel)%nat ->
               Z.land (Z.lxor (LA.trigger_values la)
                         (LA.wrap_T sizeof_T (level pins (pin_reads w + j))))
                      (LA.trigger_mask la) <> 0) ->
            LA.capture_trigger sizeof_T host fuel (la, w) = Fault OutOfFuel)).
Proof.
  intros Himpl Hst. split.
  - intros Hm fuel. rewrite capture_trigger_unmasked by assumption.
    eexists. split; [reflexivity|]. apply notified_pin_reads.
  - intros Hm. split; [|split].
    + intros fuel la' w' Hrun. rewrite capture_trigger_masked in Hrun by assumption.
      destruct (LA.while fuel _ _ (la, w)) as [[[] s1]|f] eqn:Hwait; [|discriminate].
      destruct (trigger_wait_sound fuel la w pins s1 Himpl Hst Hwait)
        as (w1 & k & -> & Hreads & Hhit & Hbefore & _).
      rewrite setStatus_run in Hrun. injection Hrun as <- <-.
      split; [reflexivity|]. exists k.
      destruct (notified_pin_reads STATUS la w1) as [-> _].
      split; [assumption|]. split; [exact Hhit|exact Hbefore].
    + intros k fuel Hhit Hbefore Hfuel.
      rewrite capture_trigger_masked by assumption.
      destruct (trigger_wait_complete k la pins Himpl Hst w fuel Hhit Hbefore Hfuel)
        as (w1 & -> & Hreads).
      rewrite setStatus_run. eexists. split; [reflexivity|].
      destruct (notified_pin_reads STATUS la w1) as [-> _]. assumption.
    + intros fuel Hbefore. rewrite capture_trigger_masked by assumption.
      rewrite (trigger_wait_starved fuel la pins Himpl Hst w Hbefore). reflexivity.
Qed.

(** The wait of a batch capture leaves the analyzer as it is. *)
Lemma trigger_wait_batch (fuel : nat) (la : LA.t) (pins : PinReader) :
  LA.impl_ptr la = Some pins ->
  LA.is_continuous_capture la = false ->
  LA.status_value la = ARMED ->
  forall w : World,
  LA.while fuel (LA.trigger_mismatch sizeof_T host) (mret tt) (la, w) = Fault OutOfFuel
  \/ exists k : nat,
       LA.while fuel (LA.trigger_mismatch sizeof_T host) (mret tt) (la, w) =
         Ok (tt, (la, with_pin_reads (S (pin_reads w + k)) w)).
Proof.
  intros Himpl Hcont Hst w.
  destruct (LA.while fuel _ _ (la, w)) as [[[] s1]|f] eqn:Hwait.
  - right. destruct (trigger_wait_sound fuel la w pins s1 Himpl Hst Hwait)
      as (w1 & k & -> & _ & _ & _ & Hw1).
    exists k. rewrite (Hw1 Hcont). reflexivity.
  - left. revert w Hwait. induction fuel as [|fuel IH]; intros w Hwait.
    + cbn [LA.while] in Hwait. unfold LA.fail in Hwait. congruence.
    + cbn [LA.while] in Hwait. unfold mbind at 1, LA.M_bind at 1 in Hwait.
      destruct (trigger_mismatch_waiting la w pins Himpl Hst) as (w1 & Hc & _ & _).
      rewrite Hc in Hwait.
      destruct (negb _).
      * unfold mbind at 1, LA.M_bind at 1, mret at 1, LA.M_ret at 1 in Hwait.
        apply (IH w1 Hwait).
      * unfold mret, LA.M_ret in Hwait. discriminate.
Qed.

(** C9. In the status ARMED with continuous capture off, [captureSample]
    returns the sample and changes nothing but the count of pin reads: the
    ring buffer and the stream are as before.  The whole trigger wait either
    is still waiting when the fuel ends, or ends with the analyzer changed
    in its status only: the samples seen during the wait are not stored. *)
Theorem armed_samples_are_not_stored (la : LA.t) (w : World) (pins : PinReader) :
  LA.impl_ptr la = Some pins ->
  LA.is_continuous_capture la = false ->
  LA.status_value la = ARMED ->
  LA.captureSample sizeof_T host (la, w) =
    Ok (LA.wrap_T sizeof_T (level pins (pin_reads w)),
        (la, with_pin_reads (S (pin_reads w)) w))
  /\ forall fuel : nat,
       LA.capture_trigger sizeof_T host fuel (la, w) = Fault OutOfFuel
       \/ exists (n : nat) (la' : LA.t),
            LA.capture_trigger sizeof_T host fuel (la, w) =
              Ok (tt, (la', LA.notified STATUS la (with_pin_reads n w)))
            /\ la' = LA.with_status_value TRIGGERED la
            /\ LA.buffer_ptr la' = LA.buffer_ptr la.
Proof.
  intros Himpl Hcont Hst. split.
  - apply captureSample_armed; assumption.
  - intros fuel. destruct (Z.eq_dec (LA.trigger_mask la) 0) as [Hm|Hm].
    + right. rewrite capture_trigger_unmasked by assumption.
      exists (pin_reads w), (LA.with_status_value TRIGGERED la).
      split; [|split; reflexivity]. destruct w; reflexivity.
    + rewrite capture_trigger_masked by assumption.
      destruct (trigger_wait_batch fuel la pins Himpl Hcont Hst w) as [->|(k & ->)].
      * left. reflexivity.
      * right. rewrite setStatus_run. eexists _, _.
        split; [reflexivity|]. split; reflexivity.
Qed.
End Trigger.

Section Windowing.
Context (sizeof_T : Z) (host : ByteOrder).

(** C5. The windowing step of [capture], with
    [keep = read_count - delay_count], on a buffer of capacity [C] that
    holds the entries [q].  [keep > 0] and more than [keep] entries:
    [available()] becomes [keep] and a drain yields [q] without its first
    [available() - keep] entries, that is the [keep] most recent ones.
    [keep < 0]: the buffer is empty, [ignore_count] is [|keep|] and the next
    [|keep|] writes only count it down.  [keep = 0]: the buffer is
    [clear()]ed, that is [available()] is 0, no write is pending to be
    skipped, both cursors are at 0 and a drain yields nothing; the cells
    are not touched. *)
Theorem windowing_on_trigger (la : LA.t) (w : World) (C : Z) (b : RB.t) (q : list Z) :
  LA.buffer_ptr la = Some b ->
  0 < C < 2 ^ 31 -> RB.ring C b q ->
  int_min < LA.read_count la - LA.delay_count la <= int_max ->
  exists b',
    LA.capture_buffer (la, w) = Ok (tt, (LA.with_buffer_ptr (Some b') la, w))
    /\ (0 < LA.read_count la - LA.delay_count la < RB.available b ->
        RB.available b' = LA.read_count la - LA.delay_count la
        /\ exists rest rest',
             RB.drain b = Ok (q, rest)
             /\ RB.drain b' =
                  Ok (drop (Z.to_nat (RB.available b
                                      - (LA.read_count la - LA.delay_count la))) q,
                      rest'))
    /\ (LA.read_count la - LA.delay_count la < 0 ->
        RB.available b' = 0
        /\ RB.ignore_count b' = Z.abs (LA.read_count la - LA.delay_count la)
        /\ forall vs : list Z,
             Z.of_nat (length vs) = Z.abs (LA.read_count la - LA.delay_count la) ->
             RB.write_all vs b' = Ok (RB.with_ignore_count 0 b'))
    /\ (LA.read_count la - LA.delay_count la = 0 ->
        b' = RB.clear b
        /\ RB.available b' = 0
        /\ RB.ignore_count b' = 0
        /\ RB.write_pos b' = 0 /\ RB.read_pos b' = 0
        /\ RB.size b' = RB.size b /\ RB.data b' = RB.data b
        /\ RB.drain b' = Ok ([], b')).
Proof.
  intros Hbuf HC Hb Hkeep.
  set (keep := LA.read_count la - LA.delay_count la) in *.
  assert (Havq : RB.available b = Z.of_nat (length q))
    by (destruct Hb as (_ & _ & Hav & _); exact Hav).
  assert (Hfit : Z.of_nat (length q) <= C)
    by (destruct Hb as (_ & _ & _ & Hfit & _); exact Hfit).
  unfold int_min, int_max in Hkeep.
  assert (Hrange : in_int_range keep = true).
  { unfold in_int_range, int_min, int_max. apply andb_true_intro.
    split; apply Z.leb_le; lia. }
  unfold LA.capture_buffer. rewrite bind_run. unfold LA.get_la at 1. cbn [fst].
  fold keep. rewrite Hrange. cbn [negb]. rewrite bind_run.
  destruct (Z.ltb_spec 0 keep) as [Hpos|Hnpos].
  - (* keep > 0 *)
    rewrite bind_run, (buffer_available_run la w b Hbuf).
    rewrite (wrap_size_t_small keep) by lia.
    unfold mret at 1, LA.M_ret at 1.
    destruct (Z.ltb_spec keep (RB.available b)) as [Hlt|Hge].
    + rewrite bind_run, (buffer_available_run la w b Hbuf).
      rewrite wrap_size_t_small by lia.
      destruct (ring_clear_count C b q (RB.available b - keep) HC Hb ltac:(lia))
        as (b' & Hrun & Hb' & Hig' & _).
      rewrite (buffer_clear_count_run _ la w b b' Hbuf Hrun).
      exists b'. split; [reflexivity|].
      split; [|split; intros; lia].
      intros _.
      assert (Hav' : RB.available b'
                     = Z.of_nat (length (drop (Z.to_nat (RB.available b - keep)) q)))
        by (destruct Hb' as (_ & _ & Hav & _); exact Hav).
      rewrite length_drop in Hav'. split; [lia|].
      destruct (ring_drain C q b HC Hb) as (rest & Hold).
      destruct (ring_drain C _ b' HC Hb') as (rest' & Hnew).
      exists rest, rest'. split; assumption.
    + destruct (Z.ltb_spec keep 0); [lia|].
      destruct (Z.eqb_spec keep 0); [lia|].
      exists b. rewrite with_buffer_ptr_same by assumption.
      split; [reflexivity|]. split; [|split]; intros; lia.
  - unfold mret at 1, LA.M_ret at 1.
    destruct (Z.ltb_spec keep 0) as [Hneg|Hnneg].
    + (* keep < 0 *)
      destruct (Z.eqb_spec keep int_min) as [Hmin|_]; [unfold int_min in Hmin; lia|].
      rewrite bind_run, (buffer_available_run la w b Hbuf).
      rewrite wrap_size_t_small by lia.
      destruct (ring_clear_count C b q (RB.available b + Z.abs keep) HC Hb ltac:(lia))
        as (b' & Hrun & Hb' & Hig' & _).
      rewrite (buffer_clear_count_run _ la w b b' Hbuf Hrun).
      exists b'. split; [reflexivity|].
      split; [intros; lia|]. split; [|intros; lia].
      intros _.
      assert (Hav' : RB.available b'
                     = Z.of_nat (length (drop (Z.to_nat (RB.available b + Z.abs keep)) q)))
        by (destruct Hb' as (_ & _ & Hav & _); exact Hav).
      rewrite length_drop in Hav'.
      split; [lia|]. split; [lia|].
      intros vs Hvs. rewrite write_all_ignored by lia.
      f_equal. unfold RB.with_ignore_count. f_equal. lia.
    + (* keep = 0 *)
      destruct (Z.eqb_spec keep 0); [|lia].
      rewrite (buffer_clear_run la w b Hbuf).
      eexists. split; [reflexivity|].
      split; [intros; lia|]. split; [intros; lia|].
      intros _. repeat split.
Qed.
End Windowing.

Lemma read_decrements (b b' : RB.t) (v : Z) :
  0 < RB.available_count b -> RB.read b = Ok (v, b') ->
  RB.available_count b' = RB.available_count b - 1.
Proof.
  intros Hpos Hr. unfold RB.read in Hr.
  destruct (Z.ltb_spec 0 (RB.available_count b)); [|lia].
  destruct (load _ _); [|discriminate]. cbn in Hr. injection Hr as _ <-. reflexivity.
Qed.

Section Dump.
Context (host : ByteOrder).

Lemma with_tx_same (w : World) : with_tx (tx w ++ []) w = w.
Proof. destruct w. unfold with_tx; simpl. now rewrite app_nil_r. Qed.

Lemma dump_loop_drains (n : nat) :
  forall (b b' : RB.t) (vs : list Z) (la : LA.t) (w : World) (fuel : nat),
  RB.drain_loop n b = Ok (vs, b') ->
  RB.available_count b <= Z.of_nat n ->
  LA.buffer_ptr la = Some b ->
  (n < fuel)%nat ->
  LA.while fuel (n ← LA.buffer_available; mret (0 <? n))
    (value ← LA.buffer_read;
     LA.stream_call (SWriteBuffer (mem_bytes host 4 (wrap_size_t value)))) (la, w)
  = Ok (tt, (LA.with_buffer_ptr (Some b') la,
             with_tx (tx w ++ map (LA.dump_word host) vs) w)).
Proof.
  induction n as [|n IH]; intros b b' vs la w fuel Hdrain Hav Hbuf Hfuel;
    (destruct fuel as [|fuel]; [lia|]); cbn [LA.while];
    rewrite bind_run, bind_run, (buffer_available_run la w b Hbuf);
    unfold RB.available; unfold mret at 1, LA.M_ret at 1.
  - cbn in Hdrain. injection Hdrain as <- <-.
    destruct (Z.ltb_spec 0 (RB.available_count b)); [lia|].
    unfold mret, LA.M_ret. cbn [map].
    now rewrite with_tx_same, with_buffer_ptr_same.
  - cbn [RB.drain_loop] in Hdrain. unfold RB.available in Hdrain.
    destruct (Z.ltb_spec 0 (RB.available_count b)) as [Hpos|Hnpos].
    + destruct (RB.read b) as [[v b1]|f] eqn:Hread; [|discriminate].
      cbn in Hdrain.
      destruct (RB.drain_loop n b1) as [[vs1 b2]|f] eqn:Hrest; [|discriminate].
      cbn in Hdrain. injection Hdrain as <- <-.
      rewrite bind_run, bind_run, (buffer_read_run la w b b1 v Hbuf Hread).
      unfold LA.stream_call at 1, LA.update_world at 1. cbn [fst snd].
      rewrite (IH b1 b2 vs1 _ _ fuel Hrest); [| |reflexivity|lia].
      * cbn [map]. f_equal. f_equal. f_equal.
        unfold with_tx; simpl. now rewrite <- app_assoc.
      * rewrite (read_decrements b b1 v Hpos Hread). lia.
    + injection Hdrain as <- <-. unfold mret, LA.M_ret. cbn [map].
      now rewrite with_tx_same, with_buffer_ptr_same.
Qed.

(** C3, amended.  [dumpData] emits, for each value that a drain of the
    buffer yields and in that order, one write of four bytes: the value as a
    32-bit word in the byte order of the host (least significant byte first
    on a little-endian host, most significant first on a big-endian one),
    whatever the width of [T]; a flush follows.  A sample narrower than 32
    bits is zero-extended. *)
Theorem dump_emits_host_order_words
    (la : LA.t) (w : World) (b b' : RB.t) (pins : PinReader)
    (vs : list Z) (fuel : nat) :
  LA.buffer_ptr la = Some b ->
  LA.impl_ptr la = Some pins ->
  RB.drain b = Ok (vs, b') ->
  (Z.to_nat (RB.available b) < fuel)%nat ->
  LA.dumpData host fuel (la, w) =
    Ok (tt, (LA.with_buffer_ptr (Some b') la,
             with_tx (tx w ++ map (fun v => SWriteBuffer (mem_bytes host 4 (wrap_size_t v))) vs
                           ++ [SFlush]) w))
  /\ (forall v, 0 <= v < 2 ^ 32 ->
       mem_bytes host 4 (wrap_size_t v) =
         match host with
         | LittleEndian =>
             [v mod 256; v / 256 mod 256; v / 256 / 256 mod 256;
              v / 256 / 256 / 256 mod 256]
         | BigEndian =>
             [v / 256 / 256 / 256 mod 256; v / 256 / 256 mod 256;
              v / 256 mod 256; v mod 256]
         end)
  /\ (forall v, 0 <= v < 2 ^ 8 ->
       mem_bytes host 4 (wrap_size_t v) =
         match host with
         | LittleEndian => [v; 0; 0; 0]
         | BigEndian => [0; 0; 0; v]
         end).
Proof.
  intros Hbuf Himpl Hdrain Hfuel. split; [|split].
  - unfold LA.dumpData. rewrite bind_run, (buffer_available_run la w b Hbuf).
    rewrite bind_run. unfold LA.get_la at 1. cbn [fst].
    rewrite Hbuf, Himpl. rewrite bind_run.
    unfold RB.drain in Hdrain.
    rewrite (dump_loop_drains _ b b' vs la w fuel Hdrain); [| |assumption|assumption].
    + unfold LA.stream_call, LA.update_world. cbn [fst snd].
      f_equal. f_equal. f_equal. unfold with_tx; simpl.
      now rewrite <- app_assoc.
    + unfold RB.available. lia.
  - intros v Hv. rewrite wrap_size_t_small by assumption.
    destruct host; reflexivity.
  - intros v Hv. rewrite wrap_size_t_small by lia.
    assert (Hlow : v mod 256 = v) by (apply Z.mod_small; lia).
    assert (Hhigh : v / 256 = 0) by (apply Z.div_small; lia).
    destruct host; unfold mem_bytes, be_bytes; cbn [le_bytes rev app];
      rewrite Hhigh, Hlow; reflexivity.
Qed.
End Dump.

(** ** Commands *)

Lemma get32_be_bytes host d : 0 <= d < 2 ^ 32 -> LA.get32 host (be_bytes 4 d) = d.
Proof.
  intros Hd. unfold LA.get32, ntohl, be_bytes. cbn [le_bytes rev app].
  destruct host; unfold mem_value, mem_bytes, le_value, be_value, be_bytes;
    cbn [le_bytes rev app fold_left].
  - Z.div_mod_to_equations; lia.
  - Z.div_mod_to_equations; lia.
Qed.

Lemma Qtruncate_delay (f : Z) :
  0 < f ->
  Qtruncate (Qminus (Qdiv (inject_Z 1000000) (inject_Z f)) (inject_Z 1))
  = Z.quot (1000000 - f) f.
Proof.
  intros Hf. destruct f as [|p|p]; try lia.
  unfold Qtruncate, Qminus, Qdiv, Qmult, Qinv, Qplus, Qopp, inject_Z.
  cbn [Qnum Qden]. 
  rewrite ?Pos.mul_1_l, ?Pos.mul_1_r. f_equal; lia.
Qed.

Lemma delay_of_frequency_closed (f : Z) :
  0 < f ->
  delay_of_frequency f = Ok (Z.max 0 (1000000 / f - 1)).
Proof.
  intros Hf. unfold delay_of_frequency.
  destruct (Z.eqb_spec f 0); [lia|].
  rewrite Qtruncate_delay by assumption.
  assert (Hq : Z.quot (1000000 - f) f = Z.max 0 (1000000 / f - 1)).
  { destruct (Z.le_gt_cases f 1000000) as [Hle|Hgt].
    - rewrite Z.quot_div_nonneg by lia.
      replace (1000000 - f) with (1000000 + (-1) * f) by lia.
      rewrite Z.div_add by lia.
      assert (1 <= 1000000 / f) by (apply Z.div_le_lower_bound; lia). lia.
    - rewrite (Z.div_small 1000000 f) by lia.
      replace (1000000 - f) with (- (f - 1000000)) by lia.
      rewrite Z.quot_opp_l by lia. rewrite Z.quot_small by lia. reflexivity. }
  rewrite Hq.
  assert (Hub : 1000000 / f <= 1000000).
  { apply Z.div_le_upper_bound; nia. }
  destruct (Z.leb_spec 0 (Z.max 0 (1000000 / f - 1))); [|lia].
  destruct (Z.ltb_spec (Z.max 0 (1000000 / f - 1)) (2 ^ 64)); [reflexivity|lia].
Qed.

Section Commands.
Context (sizeof_T : Z) (host : ByteOrder).

Lemma processCommand_set_divider (fuel : nat) (la : LA.t) (w : World)
    (b : RB.t) (pins : PinReader) :
  LA.buffer_ptr la = Some b -> LA.impl_ptr la = Some pins ->
  LA.processCommand sizeof_T host fuel SUMP_SET_DIVIDER (la, w) =
    (cmd ← LA.getSump4ByteComandArg; LA.setupDelay (LA.get32 host cmd)) (la, w).
Proof.
  intros Hbuf Himpl. unfold LA.processCommand.
  rewrite bind_run. unfold LA.get_la at 1. cbn [fst]. rewrite Hbuf, Himpl.
  reflexivity.
Qed.

Lemma commandExt_full (la : LA.t) (w : World) (b0 b1 b2 b3 : Z) (rest : list Z) :
  length (LA.cmd4 la) = 4%nat ->
  rx w = b0 :: b1 :: b2 :: b3 :: rest ->
  LA.commandExt (la, w) =
    Ok ([b0; b1; b2; b3],
        (LA.with_cmd4 [b0; b1; b2; b3] la,
         with_rx rest (with_waited_us (waited_us w + 1000 * 10) w))).
Proof.
  intros Hlen Hrx. unfold LA.commandExt, LA.delay, LA.delayMicroseconds.
  unfold mbind, LA.M_bind, mret, LA.M_ret, LA.get_la, LA.get_world,
    LA.update_la, LA.update_world. cbn [fst snd].
  assert (Hrx' : rx (with_waited_us (waited_us w + 1000 * 10) w) = rx w) by reflexivity.
  rewrite Hrx', Hrx. cbn [take drop length].
  destruct (LA.cmd4 la) as [|c0 [|c1 [|c2 [|c3 [|c4 tl]]]]]; try discriminate.
  reflexivity.
Qed.

(** C8, amended.  SET_DIVIDER with a divider [d], [0 <= d < 100000000],
    sent big-endian, sets the frequency to [100000000 / (d + 1)] and the
    delay to [(1000000 / frequency) - 1] truncated toward zero when it is
    stored as an unsigned integer: [1000000 / frequency - 1] for [d >= 99]
    and 0 for [d < 99]; [d = 99] gives 1000000 Hz and 0 us, [d = 199] gives
    500000 Hz and 1 us. *)
Theorem set_divider_frequency_and_delay (fuel : nat) (la : LA.t) (w : World)
    (b : RB.t) (pins : PinReader) (d : Z) (rest : list Z) :
  LA.buffer_ptr la = Some b ->
  LA.impl_ptr la = Some pins ->
  length (LA.cmd4 la) = 4%nat ->
  rx w = be_bytes 4 d ++ rest ->
  0 <= d < 100000000 ->
  exists la' w',
    LA.processCommand sizeof_T host fuel SUMP_SET_DIVIDER (la, w) = Ok (tt, (la', w'))
    /\ rx w' = rest
    /\ LA.frequecy_value la' = 100000000 / (d + 1)
    /\ LA.delay_time_us la' = Z.max 0 (1000000 / LA.frequecy_value la' - 1)
    /\ (99 <= d -> LA.delay_time_us la' = 1000000 / LA.frequecy_value la' - 1)
    /\ (d < 99 -> LA.delay_time_us la' = 0)
    /\ (d = 99 -> LA.frequecy_value la' = 1000000 /\ LA.delay_time_us la' = 0)
    /\ (d = 199 -> LA.frequecy_value la' = 500000 /\ LA.delay_time_us la' = 1).
Proof.
  intros Hbuf Himpl Hlen Hrx Hd.
  rewrite (processCommand_set_divider fuel la w b pins Hbuf Himpl).
  unfold LA.getSump4ByteComandArg. rewrite bind_run.
  unfold be_bytes in Hrx. cbn [le_bytes rev app] in Hrx.
  rewrite (commandExt_full la w _ _ _ _ rest Hlen Hrx).
  change [d / 256 / 256 / 256 mod 256; d / 256 / 256 mod 256; d / 256 mod 256; d mod 256]
    with (be_bytes 4 d).
  rewrite get32_be_bytes by lia.
  unfold LA.setupDelay. rewrite bind_run. unfold LA.get_la at 1. cbn [fst].
  assert (Himpl' : LA.impl_ptr (LA.with_cmd4 (be_bytes 4 d) la) = Some pins) by exact Himpl.
  rewrite Himpl'. rewrite wrap_size_t_small by lia.
  destruct (Z.eqb_spec (d + 1) 0); [lia|].
  set (f := 100000000 / (d + 1)).
  assert (Hf : 0 < f) by (apply Z.div_str_pos; lia).
  unfold LA.setCaptureFrequency. 
  unfold mbind, LA.M_bind, mret, LA.M_ret, LA.update_la, LA.lift, LA.raiseEvent,
    LA.get_la, LA.update_world. cbn [fst snd].
  rewrite (delay_of_frequency_closed f Hf).
  eexists _, _. split; [reflexivity|].
  cbn [fst snd LA.frequecy_value LA.delay_time_us LA.with_delay_time_us
       LA.with_frequecy_value].
  split.
  { unfold LA.notified. destruct (LA.eventHandler _); reflexivity. }
  split; [reflexivity|]. split; [reflexivity|].
  split; [|split; [|split]].
  - intros H99. assert (f <= 1000000).
    { unfold f. apply Z.div_le_upper_bound; lia. }
    assert (1 <= 1000000 / f) by (apply Z.div_le_lower_bound; lia). lia.
  - intros H99. assert (1000001 <= f).
    { unfold f. apply Z.div_le_lower_bound; lia. }
    rewrite Z.div_small by lia. lia.
  - intros ->. unfold f. split; reflexivity.
  - intros ->. unfold f. split; reflexivity.
Qed.

(** RESET: the case of the switch compares the clock with the end of the
    cool-down and, outside of it, moves that end; nothing else changes. *)
Lemma processCommand_reset (fuel : nat) (la : LA.t) (w : World)
    (b : RB.t) (pins : PinReader) :
  LA.buffer_ptr la = Some b -> LA.impl_ptr la = Some pins ->
  LA.processCommand sizeof_T host fuel SUMP_RESET (la, w) =
    Ok (tt,
        (if LA.sump_reset_igorne_timeout la <? millis w
         then LA.with_sump_reset_igorne_timeout
                (wrap_size_t (millis w + 500)) la
         else la, w)).
Proof.
  intros Hbuf Himpl. unfold LA.processCommand.
  rewrite bind_run. unfold LA.get_la at 1. cbn [fst]. rewrite Hbuf, Himpl.
  change (SUMP_RESET =? SUMP_RESET) with true. cbv iota.
  rewrite bind_run. unfold LA.get_world at 1. cbn [snd].
  destruct (LA.sump_reset_igorne_timeout la <? millis w); reflexivity.
Qed.

(** The part of C2 that holds: a RESET inside the cool-down changes
    nothing. *)
Lemma reset_within_cool_down (fuel : nat) (la : LA.t) (w : World)
    (b : RB.t) (pins : PinReader) :
  LA.buffer_ptr la = Some b -> LA.impl_ptr la = Some pins ->
  millis w <= LA.sump_reset_igorne_timeout la ->
  LA.processCommand sizeof_T host fuel SUMP_RESET (la, w) = Ok (tt, (la, w)).
Proof.
  intros Hbuf Himpl Hcool. rewrite (processCommand_reset fuel la w b pins Hbuf Himpl).
  destruct (Z.ltb_spec (LA.sump_reset_igorne_timeout la) (millis w)); [lia|].
  reflexivity.
Qed.

End Commands.

(** ** The claims at concrete inputs *)

(** C2 (the code departs from it).  An analyzer with status ARMED, two
    samples in its buffer and an event handler receives RESET at
    [millis() = 1000], outside of the cool-down that ends at 0.  The command
    only moves the end of the cool-down to 1500: the status stays ARMED, the
    buffer keeps its two samples and no event is raised. [reset()], which the
    case does not call, would set STOPPED, empty the buffer and raise
    STATUS and RESET. *)
Theorem reset_command_resets_nothing :
  exists (la : LA.t) (w : World) (b : RB.t),
    armed_with_samples = Ok (tt, (la, w))
    /\ LA.sump_reset_igorne_timeout la < millis w
    /\ LA.status_value la = ARMED
    /\ LA.buffer_ptr la = Some b
    /\ RB.available b = 2
    /\ LA.processCommand 1 LittleEndian 10 SUMP_RESET (la, w) =
         Ok (tt, (LA.with_sump_reset_igorne_timeout 1500 la, w))
    /\ LA.status_value
         (LA.with_sump_reset_igorne_timeout 1500 la) = ARMED
    /\ LA.buffer_ptr
         (LA.with_sump_reset_igorne_timeout 1500 la) = Some b
    /\ exists (la' : LA.t) (w' : World) (b' : RB.t),
         LA.reset (la, w) = Ok (tt, (la', w'))
         /\ LA.status_value la' = STOPPED
         /\ LA.buffer_ptr la' = Some b'
         /\ RB.available b' = 0
         /\ events w' = events w ++ [STATUS; RESET].
Proof.
  eexists _, _, _. split; [vm_compute; reflexivity|].
  split; [vm_compute; reflexivity|]. split; [reflexivity|].
  split; [reflexivity|]. split; [reflexivity|].
  split; [vm_compute; reflexivity|]. split; [reflexivity|]. split; [reflexivity|].
  eexists _, _, _. split; [vm_compute; reflexivity|].
  repeat split.
Qed.

(** C3, as stated, fails.  A batch capture on a little-endian host of two
    16-bit samples, 0x5678 and 0x5679: the dump sends the bytes 78 56 00 00
    and 79 56 00 00 (in hexadecimal).  The 32-bit big-endian word of the
    first sample is 00 00 56 78 if the sample is zero-extended and
    56 78 00 00 if it is left-justified and zero-padded: the dump is
    neither, under either reading.  With 32-bit samples, 0x12345678 and
    0x12345679, the dump sends 78 56 34 12 and 79 56 34 12, not
    12 34 56 78 and 12 34 56 79. *)
Lemma dump_little_endian_host_not_big_endian :
  sent (after (started_wide 2 [])
          (LA.processCommand 2 LittleEndian 10 SUMP_ARM))
  = Some [SWriteBuffer [0x78; 0x56; 0; 0]; SWriteBuffer [0x79; 0x56; 0; 0]; SFlush]
  /\ sent (after (started_wide 2 [])
             (LA.processCommand 2 LittleEndian 10 SUMP_ARM))
     <> Some [SWriteBuffer (be_bytes 4 0x5678); SWriteBuffer (be_bytes 4 0x5679);
              SFlush]
  /\ sent (after (started_wide 2 [])
             (LA.processCommand 2 LittleEndian 10 SUMP_ARM))
     <> Some [SWriteBuffer (be_bytes 4 (0x5678 * 2 ^ 16));
              SWriteBuffer (be_bytes 4 (0x5679 * 2 ^ 16)); SFlush]
  /\ be_bytes 4 0x5678 = [0; 0; 0x56; 0x78]
  /\ be_bytes 4 (0x5678 * 2 ^ 16) = [0x56; 0x78; 0; 0]
  /\ sent (after (started_wide 2 [])
             (LA.processCommand 4 LittleEndian 10 SUMP_ARM))
     = Some [SWriteBuffer [0x78; 0x56; 0x34; 0x12];
             SWriteBuffer [0x79; 0x56; 0x34; 0x12]; SFlush]
  /\ sent (after (started_wide 2 [])
             (LA.processCommand 4 LittleEndian 10 SUMP_ARM))
     <> Some [SWriteBuffer (be_bytes 4 0x12345678);
              SWriteBuffer (be_bytes 4 0x12345679); SFlush].
Proof.
  split; [vm_compute; reflexivity|].
  split; [vm_compute; discriminate|].
  split; [vm_compute; discriminate|].
  split; [reflexivity|]. split; [reflexivity|].
  split; [vm_compute; reflexivity|].
  vm_compute. discriminate.
Qed.

Lemma dump_emits_host_order_words_witness :
  LA.buffer_ptr armed_example = Some two_unread
  /\ LA.impl_ptr armed_example = Some counting_pins
  /\ RB.drain two_unread = Ok ([20; 30], RB.mk 0 4 3 3 0 [10; 20; 30; 0])
  /\ (Z.to_nat (RB.available two_unread) < 5)%nat
  /\ sent (LA.dumpData LittleEndian 5 (armed_example, world_with []))
     = Some [SWriteBuffer [20; 0; 0; 0]; SWriteBuffer [30; 0; 0; 0]; SFlush].
Proof.
  assert (Hdrain : RB.drain two_unread
                   = Ok ([20; 30], RB.mk 0 4 3 3 0 [10; 20; 30; 0])) by reflexivity.
  assert (Hfuel : (Z.to_nat (RB.available two_unread) < 5)%nat)
    by (vm_compute; lia).
  split; [reflexivity|]. split; [reflexivity|]. split; [exact Hdrain|].
  split; [exact Hfuel|].
  rewrite (proj1 (dump_emits_host_order_words LittleEndian armed_example
                    (world_with []) two_unread (RB.mk 0 4 3 3 0 [10; 20; 30; 0])
                    counting_pins [20; 30] 5 eq_refl eq_refl Hdrain Hfuel)).
  reflexivity.
Defined.

(** C8, as stated, fails.  With the divider 49 the frequency is 2000000 Hz
    and the delay that is stored is 0 us, while [(1000000 / frequency) - 1]
    is -1 in integer arithmetic and -1/2 in the rationals. *)
Lemma set_divider_fast_rate_delay_not_formula :
  timing (after (started 2 [0; 0; 0; 49])
            (LA.processCommand 1 LittleEndian 10 SUMP_SET_DIVIDER))
  = Some (100000000 / (49 + 1), 0)
  /\ 0 <> 1000000 / (100000000 / (49 + 1)) - 1
  /\ ~ (inject_Z 0 ==
        Qminus (Qdiv (inject_Z 1000000) (inject_Z (100000000 / (49 + 1))))
               (inject_Z 1))%Q.
Proof.
  split; [vm_compute; reflexivity|]. split; [vm_compute; discriminate|].
  vm_compute. discriminate.
Qed.

Lemma set_divider_frequency_and_delay_witness :
  LA.buffer_ptr armed_example = Some two_unread
  /\ LA.impl_ptr armed_example = Some counting_pins
  /\ length (LA.cmd4 armed_example) = 4%nat
  /\ rx (world_with [0; 0; 0; 199]) = be_bytes 4 199 ++ []
  /\ 0 <= 199 < 100000000
  /\ exists la' w',
       LA.processCommand 1 LittleEndian 10 SUMP_SET_DIVIDER
         (armed_example, world_with [0; 0; 0; 199]) = Ok (tt, (la', w'))
       /\ LA.frequecy_value la' = 500000
       /\ LA.delay_time_us la' = 1.
Proof.
  assert (Hd : 0 <= 199 < 100000000) by lia.
  split; [reflexivity|]. split; [reflexivity|]. split; [reflexivity|].
  split; [reflexivity|]. split; [exact Hd|].
  destruct (set_divider_frequency_and_delay 1 LittleEndian 10 armed_example
              (world_with [0; 0; 0; 199]) two_unread counting_pins 199 []
              eq_refl eq_refl eq_refl eq_refl Hd)
    as (la' & w' & Hrun & _ & _ & _ & _ & _ & _ & H199).
  exists la', w'. split; [exact Hrun|]. exact (H199 eq_refl).
Defined.

Lemma windowing_on_trigger_witness :
  LA.buffer_ptr armed_example = Some two_unread
  /\ 0 < 4 < 2 ^ 31
  /\ RB.ring 4 two_unread [20; 30]
  /\ int_min < LA.read_count armed_example - LA.delay_count armed_example <= int_max
  /\ (exists b',
        LA.capture_buffer (armed_example, world_with []) =
          Ok (tt, (LA.with_buffer_ptr (Some b') armed_example, world_with []))
        /\ RB.available b' = 1
        /\ exists rest, RB.drain b' = Ok ([30], rest))
  /\ LA.buffer_ptr ready_example = Some two_unread
  /\ int_min < LA.read_count ready_example - LA.delay_count ready_example <= int_max
  /\ exists b',
       LA.capture_buffer (ready_example, world_with []) =
         Ok (tt, (LA.with_buffer_ptr (Some b') ready_example, world_with []))
       /\ RB.available two_unread = 2
       /\ RB.available b' = 0
       /\ RB.ignore_count b' = 0
       /\ RB.drain b' = Ok ([], b').
Proof.
  assert (HC : 0 < 4 < 2 ^ 31) by lia.
  assert (Hkeep : int_min < LA.read_count armed_example
                            - LA.delay_count armed_example <= int_max)
    by (unfold int_min, int_max; simpl; lia).
  assert (Hkeep0 : int_min < LA.read_count ready_example
                             - LA.delay_count ready_example <= int_max)
    by (unfold int_min, int_max; simpl; lia).
  split; [reflexivity|]. split; [exact HC|]. split; [exact two_unread_ring|].
  split; [exact Hkeep|]. split.
  - destruct (windowing_on_trigger armed_example (world_with []) 4 two_unread [20; 30]
                eq_refl HC two_unread_ring Hkeep) as (b' & Hrun & Hkeeps & _ & _).
    exists b'. split; [exact Hrun|].
    destruct Hkeeps as (Hav & rest & rest' & _ & Hnew); [simpl; lia|].
    split; [exact Hav|]. exists rest'. exact Hnew.
  - split; [reflexivity|]. split; [exact Hkeep0|].
    destruct (windowing_on_trigger ready_example (world_with []) 4 two_unread [20; 30]
                eq_refl HC two_unread_ring Hkeep0) as (b' & Hrun & _ & _ & Hclear).
    exists b'. split; [exact Hrun|]. split; [reflexivity|].
    destruct (Hclear eq_refl) as (_ & Hav & Hig & _ & _ & _ & _ & Hdrain).
    split; [exact Hav|]. split; [exact Hig|exact Hdrain].
Defined.

Lemma trigger_fires_on_match_only_witness :
  LA.impl_ptr armed_example = Some counting_pins
  /\ LA.status_value armed_example = ARMED
  /\ exists w',
       LA.capture_trigger 1 LittleEndian 5 (armed_example, world_with []) =
         Ok (tt, (LA.with_status_value TRIGGERED armed_example, w'))
       /\ pin_reads w' = 2%nat.
Proof.
  split; [reflexivity|]. split; [reflexivity|].
  destruct (trigger_fires_on_match_only 1 LittleEndian armed_example
              (world_with []) counting_pins eq_refl eq_refl) as [_ Hmasked].
  destruct Hmasked as (_ & Hfires & _); [simpl; lia|].
  apply (Hfires 1%nat 5%nat).
  - reflexivity.
  - intros j Hj. destruct j as [|j]; [vm_compute; discriminate|lia].
  - lia.
Defined.

Lemma armed_samples_are_not_stored_witness :
  LA.impl_ptr armed_example = Some counting_pins
  /\ LA.is_continuous_capture armed_example = false
  /\ LA.status_value armed_example = ARMED
  /\ LA.captureSample 1 LittleEndian (armed_example, world_with []) =
       Ok (1, (armed_example, with_pin_reads 1 (world_with []))).
Proof.
  split; [reflexivity|]. split; [reflexivity|]. split; [reflexivity|].
  exact (proj1 (armed_samples_are_not_stored 1 LittleEndian armed_example
                  (world_with []) counting_pins eq_refl eq_refl eq_refl)).
Defined.

(** * Further properties of the ring buffer and of the analyzer *)

(** ** RingBuffer: frames and invariants of the calls *)

(** [read] touches [available_count] and [read_pos] only. *)
Lemma read_frame (b b' : RB.t) (v : Z) :
  RB.read b = Ok (v, b') ->
  RB.size_count b' = RB.size_count b
  /\ RB.write_pos b' = RB.write_pos b
  /\ RB.ignore_count b' = RB.ignore_count b
  /\ RB.data b' = RB.data b
  /\ RB.available_count b' =
       (if 0 <? RB.available_count b then RB.available_count b - 1
        else RB.available_count b).
Proof.
  unfold RB.read. intros Hr.
  destruct (0 <? RB.available_count b).
  - destruct (load _ _); [|discriminate]. cbn in Hr. injection Hr as _ <-.
    repeat split.
  - injection Hr as _ <-. repeat split.
Qed.

Lemma clear_loop_frame (n : nat) :
  forall (j : Z) (b b' : RB.t),
  RB.clear_loop n j b = Ok b' ->
  RB.size_count b' = RB.size_count b
  /\ RB.write_pos b' = RB.write_pos b
  /\ RB.ignore_count b' = RB.ignore_count b
  /\ RB.data b' = RB.data b
  /\ (0 <= RB.available_count b -> 0 <= RB.available_count b' <= RB.available_count b).
Proof.
  induction n as [|n IH]; intros j b b' Hrun.
  - injection Hrun as <-. repeat split; lia.
  - cbn [RB.clear_loop] in Hrun. unfold RB.available in Hrun.
    destruct (Z.ltb_spec 0 (RB.available_count b)) as [Hpos|Hnpos].
    + destruct (RB.read b) as [[v b1]|f] eqn:Hread; [|discriminate].
      cbn in Hrun. destruct (j =? int_max); [discriminate|].
      destruct (read_frame b b1 v Hread) as (Hs & Hw & Hi & Hd & Ha).
      destruct (Z.ltb_spec 0 (RB.available_count b)); [|lia].
      destruct (IH (j + 1) b1 b' Hrun) as (Hs' & Hw' & Hi' & Hd' & Ha').
      repeat split; try congruence; lia.
    + injection Hrun as <-. repeat split; lia.
Qed.

Lemma drain_loop_frame (n : nat) :
  forall (b b' : RB.t) (vs : list Z),
  RB.drain_loop n b = Ok (vs, b') ->
  RB.size_count b' = RB.size_count b
  /\ RB.write_pos b' = RB.write_pos b
  /\ RB.ignore_count b' = RB.ignore_count b
  /\ RB.data b' = RB.data b.
Proof.
  induction n as [|n IH]; intros b b' vs Hrun.
  - injection Hrun as _ <-. repeat split.
  - cbn [RB.drain_loop] in Hrun.
    destruct (0 <? RB.available b).
    + destruct (RB.read b) as [[v b1]|f] eqn:Hread; [|discriminate].
      cbn in Hrun.
      destruct (RB.drain_loop n b1) as [[vs1 b2]|f] eqn:Hrest; [|discriminate].
      cbn in Hrun. injection Hrun as _ <-.
      destruct (read_frame b b1 v Hread) as (Hs & Hw & Hi & Hd & _).
      destruct (IH b1 b2 vs1 Hrest) as (Hs' & Hw' & Hi' & Hd').
      repeat split; congruence.
    + injection Hrun as _ <-. repeat split.
Qed.

Lemma run_call_bounds (c : RB.call) (b b' : RB.t) :
  0 <= RB.available b <= RB.size b -> RB.size b < 2 ^ 32 ->
  RB.run_call c b = Ok b' ->
  RB.size b' = RB.size b /\ 0 <= RB.available b' <= RB.size b'.
Proof.
  unfold RB.available, RB.size. intros Hav Hsize Hrun.
  destruct c as [v| | |n]; cbn [RB.run_call] in Hrun.
  - unfold RB.write in Hrun.
    destruct (0 <? RB.ignore_count b); [injection Hrun as <-; simpl; lia|].
    destruct (store _ _ _); [|discriminate]. cbn in Hrun.
    destruct (Z.ltb_spec (RB.available_count b) (RB.size_count b));
      injection Hrun as <-; simpl; [|lia].
    rewrite wrap_size_t_small by lia. lia.
  - destruct (RB.read b) as [[v b1]|f] eqn:Hread; [|discriminate].
    cbn in Hrun. injection Hrun as <-.
    destruct (read_frame b b1 v Hread) as (Hs & _ & _ & _ & Ha).
    rewrite Hs, Ha. destruct (Z.ltb_spec 0 (RB.available_count b)); lia.
  - injection Hrun as <-. simpl. lia.
  - unfold RB.clear_count in Hrun.
    apply clear_loop_frame in Hrun as (Hs & _ & _ & _ & Ha). simpl in *. lia.
Qed.

(** X1. Whatever the state of the buffer, a program of calls that returns
    leaves [size()] as it was and [available()] between 0 and [size()]. *)
Theorem calls_keep_available_within_size (cs : list RB.call) (b b' : RB.t) :
  0 <= RB.available b <= RB.size b -> RB.size b < 2 ^ 32 ->
  RB.run_calls cs b = Ok b' ->
  RB.size b' = RB.size b /\ 0 <= RB.available b' <= RB.size b'.
Proof.
  revert b. induction cs as [|c cs IH]; intros b Hav Hsize Hrun.
  - injection Hrun as <-. split; [reflexivity|exact Hav].
  - cbn [RB.run_calls] in Hrun.
    destruct (RB.run_call c b) as [b1|f] eqn:Hc; [|discriminate]. cbn in Hrun.
    destruct (run_call_bounds c b b1 Hav Hsize Hc) as [Hs1 Hav1].
    destruct (IH b1 Hav1 ltac:(lia) Hrun) as [Hs' Hav'].
    split; [congruence|exact Hav'].
Qed.

Lemma calls_keep_available_within_size_witness :
  0 <= RB.available two_unread <= RB.size two_unread
  /\ RB.size two_unread < 2 ^ 32
  /\ RB.run_calls [RB.CallRead; RB.CallWrite 40; RB.CallClearCount 5; RB.CallWrite 50] two_unread
     = Ok (RB.mk 0 4 4 4 2 [10; 20; 30; 40])
  /\ RB.size (RB.mk 0 4 4 4 2 [10; 20; 30; 40]) = RB.size two_unread
  /\ 0 <= RB.available (RB.mk 0 4 4 4 2 [10; 20; 30; 40])
       <= RB.size (RB.mk 0 4 4 4 2 [10; 20; 30; 40]).
Proof.
  assert (Hav : 0 <= RB.available two_unread <= RB.size two_unread)
    by (vm_compute; split; discriminate).
  assert (Hsize : RB.size two_unread < 2 ^ 32) by reflexivity.
  assert (Hrun : RB.run_calls
                   [RB.CallRead; RB.CallWrite 40; RB.CallClearCount 5; RB.CallWrite 50]
                   two_unread = Ok (RB.mk 0 4 4 4 2 [10; 20; 30; 40]))
    by reflexivity.
  split; [exact Hav|]. split; [exact Hsize|]. split; [exact Hrun|].
  exact (calls_keep_available_within_size _ _ _ Hav Hsize Hrun).
Defined.

(** ** RingBuffer: the calls against the reference queue *)

Lemma read_nothing (b : RB.t) : RB.available_count b = 0 -> RB.read b = Ok (0, b).
Proof. intros Hav. unfold RB.read. rewrite Hav. reflexivity. Qed.

Lemma run_call_refines (C : Z) (c : RB.call) (b b' : RB.t) (q : list Z) :
  0 < C < 2 ^ 31 -> RB.call_in_range c ->
  RB.ring C b q -> 0 <= RB.ignore_count b ->
  RB.run_call c b = Ok b' ->
  RB.ring C b' (fst (RB.queue_call C c (q, RB.ignore_count b)))
  /\ RB.ignore_count b' = snd (RB.queue_call C c (q, RB.ignore_count b))
  /\ 0 <= RB.ignore_count b'.
Proof.
  intros HC Hc Hb Hig Hrun.
  destruct c as [v| | |n]; cbn [RB.run_call RB.queue_call] in *.
  - destruct (Z.ltb_spec 0 (RB.ignore_count b)) as [Hpos|Hzero].
    + rewrite write_ignored in Hrun by assumption. injection Hrun as <-.
      cbn. split; [exact Hb|]. split; [reflexivity|lia].
    + assert (Hig0 : RB.ignore_count b = 0) by lia.
      destruct (Z.ltb_spec (RB.write_pos b) (Z.of_nat (length (RB.data b))))
        as [Hcell|Hout].
      * destruct (ring_write C b v q HC Hb Hig0 Hcell)
          as (b1 & Hw1 & Hig1 & _ & _ & Hb1).
        rewrite Hw1 in Hrun. injection Hrun as <-.
        destruct (Z.of_nat (length q) <? C); cbn;
          (split; [exact Hb1|]); (split; [exact Hig1|lia]).
      * rewrite write_out_of_cells in Hrun by assumption. discriminate.
  - destruct q as [|v q].
    + assert (Hav : RB.available b = 0)
        by (destruct Hb as (_ & _ & Hav & _); exact Hav).
      rewrite (read_nothing b Hav) in Hrun. cbn in Hrun. injection Hrun as <-.
      cbn. split; [exact Hb|]. split; [reflexivity|lia].
    + destruct (ring_read C b v q HC Hb) as (b1 & Hr & Hb1 & Hig1 & _).
      rewrite Hr in Hrun. cbn in Hrun. injection Hrun as <-.
      cbn. rewrite drop_0. split; [exact Hb1|]. split; [exact Hig1|lia].
  - injection Hrun as <-. cbn. split; [apply (ring_clear C b q); [lia|exact Hb]|].
    split; [reflexivity|lia].
  - destruct (ring_clear_count C b q n HC Hb ltac:(cbn in Hc; lia))
      as (b1 & Hr & Hb1 & Hig1 & _).
    rewrite Hr in Hrun. injection Hrun as <-. cbn.
    assert (Hav : RB.available b = Z.of_nat (length q))
      by (destruct Hb as (_ & _ & Hav & _); exact Hav).
    split; [exact Hb1|]. split; [rewrite Hig1, Hav; reflexivity|lia].
Qed.

Lemma run_calls_refine (C : Z) (cs : list RB.call) :
  0 < C < 2 ^ 31 -> Forall RB.call_in_range cs ->
  forall (b b' : RB.t) (q : list Z),
  RB.ring C b q -> 0 <= RB.ignore_count b ->
  RB.run_calls cs b = Ok b' ->
  RB.ring C b' (fst (RB.queue_calls C cs (q, RB.ignore_count b)))
  /\ RB.ignore_count b' = snd (RB.queue_calls C cs (q, RB.ignore_count b)).
Proof.
  intros HC Hcs. induction Hcs as [|c cs Hc Hcs IH]; intros b b' q Hb Hig Hrun.
  - injection Hrun as <-. split; [exact Hb|reflexivity].
  - cbn [RB.run_calls] in Hrun.
    destruct (RB.run_call c b) as [b1|f] eqn:Hcall; [|discriminate]. cbn in Hrun.
    destruct (run_call_refines C c b b1 q HC Hc Hb Hig Hcall) as (Hb1 & Hig1 & Hpos1).
    specialize (IH b1 b' _ Hb1 Hpos1 Hrun).
    unfold RB.queue_calls in *. cbn [fold_left].
    rewrite Hig1 in IH. rewrite <- surjective_pairing in IH. exact IH.
Qed.

(** X2. A buffer made by the constructor with capacity [C], after any
    program of calls that returns, holds what the reference queue holds: a
    drain yields the entries of the queue, oldest first, [available()] is
    their number and [ignore_count] is the number of writes still to
    skip. *)
Theorem calls_refine_queue (C : Z) (content : nat -> Z) (cs : list RB.call) (b' : RB.t) :
  0 < C < 2 ^ 31 -> Forall RB.call_in_range cs ->
  RB.run_calls cs (RB.new C (Some content)) = Ok b' ->
  exists rest,
    RB.drain b' = Ok (fst (RB.queue_calls C cs ([], 0)), rest)
    /\ RB.available b' = Z.of_nat (length (fst (RB.queue_calls C cs ([], 0))))
    /\ RB.ignore_count b' = snd (RB.queue_calls C cs ([], 0)).
Proof.
  intros HC Hcs Hrun.
  destruct (run_calls_refine C cs HC Hcs (RB.new C (Some content)) b' [])
    as [Hb' Hig']; [apply ring_new; lia|simpl; lia|exact Hrun|].
  destruct (ring_drain C _ b' HC Hb') as (rest & Hdrain).
  exists rest. split; [exact Hdrain|]. split; [|exact Hig'].
  destruct Hb' as (_ & _ & Hav & _). exact Hav.
Qed.

Lemma calls_refine_queue_witness :
  0 < 4 < 2 ^ 31
  /\ Forall RB.call_in_range
       [RB.CallWrite 1; RB.CallWrite 2; RB.CallRead; RB.CallClearCount 3;
        RB.CallWrite 5; RB.CallWrite 6; RB.CallWrite 7]
  /\ RB.run_calls
       [RB.CallWrite 1; RB.CallWrite 2; RB.CallRead; RB.CallClearCount 3;
        RB.CallWrite 5; RB.CallWrite 6; RB.CallWrite 7]
       (RB.new 4 (Some (fun _ => 0))) = Ok (RB.mk 1 4 3 2 0 [1; 2; 7; 0])
  /\ exists rest,
       RB.drain (RB.mk 1 4 3 2 0 [1; 2; 7; 0]) = Ok ([7], rest)
       /\ RB.available (RB.mk 1 4 3 2 0 [1; 2; 7; 0]) = 1
       /\ RB.ignore_count (RB.mk 1 4 3 2 0 [1; 2; 7; 0]) = 0.
Proof.
  assert (HC : 0 < 4 < 2 ^ 31) by lia.
  assert (Hcs : Forall RB.call_in_range
                  [RB.CallWrite 1; RB.CallWrite 2; RB.CallRead; RB.CallClearCount 3;
                   RB.CallWrite 5; RB.CallWrite 6; RB.CallWrite 7])
    by (repeat constructor; simpl; lia).
  assert (Hrun : RB.run_calls
                   [RB.CallWrite 1; RB.CallWrite 2; RB.CallRead; RB.CallClearCount 3;
                    RB.CallWrite 5; RB.CallWrite 6; RB.CallWrite 7]
                   (RB.new 4 (Some (fun _ => 0))) = Ok (RB.mk 1 4 3 2 0 [1; 2; 7; 0]))
    by (vm_compute; reflexivity).
  split; [exact HC|]. split; [exact Hcs|]. split; [exact Hrun|].
  exact (calls_refine_queue 4 (fun _ => 0) _ _ HC Hcs Hrun).
Defined.

(** ** RingBuffer: within the capacity *)

Lemma write_all_within_capacity (C : Z) (vs : list Z) :
  0 < C < 2 ^ 31 ->
  forall (b : RB.t) (q : list Z),
  RB.ring C b q -> RB.read_pos b = 0 -> RB.ignore_count b = 0 ->
  Z.of_nat (length (RB.data b)) = C ->
  Z.of_nat (length q) + Z.of_nat (length vs) <= C ->
  exists b',
    RB.write_all vs b = Ok b' /\ RB.ring C b' (q ++ vs)
    /\ RB.read_pos b' = 0 /\ RB.ignore_count b' = 0
    /\ Z.of_nat (length (RB.data b')) = C.
Proof.
  intros HC. induction vs as [|v vs IH]; intros b q Hb Hrp0 Hig Hcells Hcap.
  - exists b. rewrite app_nil_r. split; [reflexivity|]. split; [exact Hb|].
    split; [exact Hrp0|]. split; [exact Hig|exact Hcells].
  - cbn [RB.write_all]. simpl length in Hcap.
    assert (Hwpq : RB.write_pos b = Z.of_nat (length q)).
    { pose proof Hb as Hb0. ring_fields Hb0. rewrite Hwp, Hrp0. ring_cases C; lia. }
    destruct (ring_write C b v q HC Hb Hig ltac:(lia))
      as (b1 & -> & Hig1 & Hlen1 & Hrp1 & Hb1).
    cbn. destruct (Z.ltb_spec (Z.of_nat (length q)) C); [|lia].
    destruct (IH b1 (q ++ [v]) Hb1) as (b2 & Hw & Hb2 & Hrp2 & Hig2 & Hc2).
    + rewrite Hrp1 by lia. exact Hrp0.
    + exact Hig1.
    + rewrite Hlen1. exact Hcells.
    + rewrite length_app. simpl length. lia.
    + exists b2. rewrite <- app_assoc in Hb2. split; [exact Hw|].
      split; [exact Hb2|]. split; [exact Hrp2|]. split; [exact Hig2|exact Hc2].
Qed.

(** From the cursors at 0, up to [C] writes are stored and a drain returns
    them; once [C] values are stored the write cursor is at [data[C]]. *)
Lemma fresh_round_trip (C : Z) (cells vs : list Z) :
  0 < C < 2 ^ 31 -> Z.of_nat (length cells) = C -> Z.of_nat (length vs) <= C ->
  exists b' rest,
    RB.write_all vs (RB.mk 0 C 0 0 0 cells) = Ok b'
    /\ RB.available b' = Z.of_nat (length vs)
    /\ RB.drain b' = Ok (vs, rest)
    /\ RB.available rest = 0
    /\ RB.write_pos rest = Z.of_nat (length vs)
    /\ RB.ignore_count rest = 0
    /\ Z.of_nat (length (RB.data rest)) = C.
Proof.
  intros HC Hcells Hvs.
  destruct (write_all_within_capacity C vs HC (RB.mk 0 C 0 0 0 cells) [])
    as (b' & Hw & Hb' & Hrp' & Hig' & Hc');
    [apply ring_fresh; lia|reflexivity|reflexivity|exact Hcells|simpl; lia|].
  simpl app in Hb'.
  destruct (ring_drain_loop C vs HC b' (Z.to_nat (RB.available b')) Hb')
    as (rest & Hd & Hrest).
  { destruct Hb' as (_ & _ & Hav & _). unfold RB.available. lia. }
  destruct (drain_loop_frame _ _ _ _ Hd) as (_ & Hwp & Hig & Hdata).
  exists b', rest. split; [exact Hw|].
  split; [destruct Hb' as (_ & _ & Hav & _); exact Hav|].
  split; [exact Hd|].
  split; [destruct Hrest as (_ & _ & Hav & _); exact Hav|].
  split.
  { rewrite Hwp. destruct Hb' as (_ & _ & _ & _ & Hwp0 & _). rewrite Hwp0, Hrp'.
    ring_cases C; lia. }
  split; [congruence|]. rewrite Hdata. exact Hc'.
Qed.

(** X3. Up to [C] values written to a buffer that the constructor made with
    capacity [C] are all stored: [available()] is their number and a drain
    returns them in the order in which they were written. *)
Theorem write_then_drain_within_capacity (C : Z) (content : nat -> Z) (vs : list Z) :
  0 < C < 2 ^ 31 -> Z.of_nat (length vs) <= C ->
  exists b' rest,
    RB.write_all vs (RB.new C (Some content)) = Ok b'
    /\ RB.available b' = Z.of_nat (length vs)
    /\ RB.drain b' = Ok (vs, rest)
    /\ RB.available rest = 0.
Proof.
  intros HC Hvs.
  destruct (fresh_round_trip C (map content (seq 0 (Z.to_nat C))) vs HC)
    as (b' & rest & Hw & Hav & Hd & Hav' & _);
    [rewrite length_map, length_seq; lia|exact Hvs|].
  exists b', rest. repeat split; assumption.
Qed.

Lemma write_then_drain_within_capacity_witness :
  0 < 3 < 2 ^ 31 /\ Z.of_nat (length [7; 8; 9]) <= 3
  /\ exists b' rest,
       RB.write_all [7; 8; 9] (RB.new 3 (Some (fun _ => 0))) = Ok b'
       /\ RB.available b' = 3
       /\ RB.drain b' = Ok ([7; 8; 9], rest)
       /\ RB.available rest = 0.
Proof.
  assert (HC : 0 < 3 < 2 ^ 31) by lia.
  assert (Hvs : Z.of_nat (length [7; 8; 9]) <= 3) by (simpl; lia).
  split; [exact HC|]. split; [exact Hvs|].
  exact (write_then_drain_within_capacity 3 (fun _ => 0) [7; 8; 9] HC Hvs).
Defined.

(** X4. [clear()] brings any buffer, whatever its cursors, its count and
    its pending skip, back to the state after construction: up to
    [size()] values written after it are stored and a drain returns them in
    order. *)
Theorem clear_then_write_and_drain (b : RB.t) (vs : list Z) :
  0 < RB.size b < 2 ^ 31 ->
  Z.of_nat (length (RB.data b)) = RB.size b ->
  Z.of_nat (length vs) <= RB.size b ->
  exists b' rest,
    RB.write_all vs (RB.clear b) = Ok b'
    /\ RB.available b' = Z.of_nat (length vs)
    /\ RB.drain b' = Ok (vs, rest)
    /\ RB.available rest = 0.
Proof.
  unfold RB.size. intros HC Hcells Hvs.
  destruct (fresh_round_trip (RB.size_count b) (RB.data b) vs HC Hcells Hvs)
    as (b' & rest & Hw & Hav & Hd & Hav' & _).
  exists b', rest. repeat split; assumption.
Qed.

Lemma clear_then_write_and_drain_witness :
  0 < RB.size (RB.mk 2 4 4 2 7 [10; 20; 30; 40]) < 2 ^ 31
  /\ Z.of_nat (length (RB.data (RB.mk 2 4 4 2 7 [10; 20; 30; 40])))
     = RB.size (RB.mk 2 4 4 2 7 [10; 20; 30; 40])
  /\ Z.of_nat (length [5; 6]) <= RB.size (RB.mk 2 4 4 2 7 [10; 20; 30; 40])
  /\ exists b' rest,
       RB.write_all [5; 6] (RB.clear (RB.mk 2 4 4 2 7 [10; 20; 30; 40])) = Ok b'
       /\ RB.available b' = 2
       /\ RB.drain b' = Ok ([5; 6], rest)
       /\ RB.available rest = 0.
Proof.
  assert (HC : 0 < RB.size (RB.mk 2 4 4 2 7 [10; 20; 30; 40]) < 2 ^ 31)
    by (simpl; lia).
  assert (Hcells : Z.of_nat (length (RB.data (RB.mk 2 4 4 2 7 [10; 20; 30; 40])))
                   = RB.size (RB.mk 2 4 4 2 7 [10; 20; 30; 40])) by reflexivity.
  assert (Hvs : Z.of_nat (length [5; 6]) <= RB.size (RB.mk 2 4 4 2 7 [10; 20; 30; 40]))
    by (simpl; lia).
  split; [exact HC|]. split; [exact Hcells|]. split; [exact Hvs|].
  exact (clear_then_write_and_drain _ [5; 6] HC Hcells Hvs).
Defined.

(** X5. Reading does not move the write cursor.  Once [C] values have been
    stored in a buffer that the constructor made with capacity [C], the
    write cursor is at [data[C]]: the next write leaves the cells even
    after every entry has been read, until [clear()] is called. *)
Theorem drained_buffer_write_leaves_cells (C : Z) (content : nat -> Z) (vs : list Z) (v : Z) :
  0 < C < 2 ^ 31 -> Z.of_nat (length vs) = C ->
  exists b1 b2,
    RB.write_all vs (RB.new C (Some content)) = Ok b1
    /\ RB.drain b1 = Ok (vs, b2)
    /\ RB.available b2 = 0
    /\ RB.write v b2 = Fault (OutOfBounds C)
    /\ exists b3, RB.write v (RB.clear b2) = Ok b3 /\ RB.available b3 = 1.
Proof.
  intros HC Hvs.
  destruct (fresh_round_trip C (map content (seq 0 (Z.to_nat C))) vs HC)
    as (b1 & b2 & Hw & Hav & Hd & Hav2 & Hwp2 & Hig2 & Hc2);
    [rewrite length_map, length_seq; lia|lia|].
  exists b1, b2. split; [exact Hw|]. split; [exact Hd|]. split; [exact Hav2|].
  split.
  - rewrite write_out_of_cells by (assumption || lia). rewrite Hwp2, Hvs. reflexivity.
  - assert (Hsize : RB.size_count b2 = C).
    { apply drain_loop_frame in Hd as (Hs & _).
      rewrite Hs. 
      destruct (write_all_within_capacity C vs HC (RB.new C (Some content)) [])
        as (b1' & Hw' & Hb1' & _);
        [apply ring_new; lia|reflexivity|reflexivity|apply new_cells; lia|simpl; lia|].
      change (RB.new C (Some content)) with (RB.mk 0 C 0 0 0 (map content (seq 0 (Z.to_nat C)))) in Hw'.
      rewrite Hw in Hw'. injection Hw' as <-.
      destruct Hb1' as (Hs1 & _). exact Hs1. }
    destruct (fresh_round_trip C (RB.data b2) [v] HC Hc2 ltac:(simpl; lia))
      as (b3 & _ & Hw3 & Hav3 & _).
    exists b3. unfold RB.clear. rewrite Hsize. cbn [RB.write_all] in Hw3.
    destruct (RB.write v _) as [b4|f] eqn:Hw4; [|discriminate].
    cbn in Hw3. injection Hw3 as ->. split; [reflexivity|exact Hav3].
Qed.

Lemma drained_buffer_write_leaves_cells_witness :
  0 < 2 < 2 ^ 31 /\ Z.of_nat (length [7; 8]) = 2
  /\ exists b1 b2,
       RB.write_all [7; 8] (RB.new 2 (Some (fun _ => 0))) = Ok b1
       /\ RB.drain b1 = Ok ([7; 8], b2)
       /\ RB.available b2 = 0
       /\ RB.write 9 b2 = Fault (OutOfBounds 2).
Proof.
  assert (HC : 0 < 2 < 2 ^ 31) by lia.
  assert (Hvs : Z.of_nat (length [7; 8]) = 2) by reflexivity.
  split; [exact HC|]. split; [exact Hvs|].
  destruct (drained_buffer_write_leaves_cells 2 (fun _ => 0) [7; 8] 9 HC Hvs)
    as (b1 & b2 & Hw & Hd & Hav & Hf & _).
  exists b1, b2. repeat split; assumption.
Defined.

(** ** RingBuffer: clear(count) on a full buffer *)

Lemma write_all_app (vs vs' : list Z) (b : RB.t) :
  RB.write_all (vs ++ vs') b =
    match RB.write_all vs b with
    | Ok b' => RB.write_all vs' b'
    | Fault f => Fault f
    end.
Proof.
  revert b. induction vs as [|v vs IH]; intros b; [reflexivity|].
  cbn [app RB.write_all]. destruct (RB.write v b) as [b1|f]; [|reflexivity].
  cbn. apply IH.
Qed.

(** A buffer that the constructor made with capacity [C] and that [C]
    writes have filled has its write cursor at [data[C]].  [clear(n)]
    leaves the cursor there: [available()] goes down by [n], or to 0 with
    the next [n - C] writes skipped, but the first write that is to be
    stored goes past the last cell. *)
Lemma clear_count_on_full_buffer (C : Z) (content : nat -> Z) (vs : list Z) :
  0 < C < 2 ^ 31 -> Z.of_nat (length vs) = C ->
  exists b,
    RB.write_all vs (RB.new C (Some content)) = Ok b
    /\ RB.available b = C /\ RB.ignore_count b = 0
    /\ forall n, 0 <= n ->
         exists b',
           RB.clear_count n b = Ok b'
           /\ RB.available b' = Z.max 0 (C - n)
           /\ RB.ignore_count b' = Z.max 0 (n - C)
           /\ forall (skipped : list Z) (v : Z),
                Z.of_nat (length skipped) = Z.max 0 (n - C) ->
                RB.write_all skipped b' = Ok (RB.with_ignore_count 0 b')
                /\ RB.write v (RB.with_ignore_count 0 b') = Fault (OutOfBounds C)
                /\ RB.write_all (skipped ++ [v]) b' = Fault (OutOfBounds C).
Proof.
  intros HC Hvs.
  destruct (write_all_within_capacity C vs HC (RB.new C (Some content)) [])
    as (b & Hw & Hb & Hrp & Hig & Hcells);
    [apply ring_new; lia|reflexivity|reflexivity|apply (new_cells C content); lia
    |simpl length; lia|].
  simpl app in Hb.
  assert (Hav : RB.available b = C)
    by (destruct Hb as (_ & _ & Hav & _); unfold RB.available; lia).
  assert (Hwp : RB.write_pos b = C).
  { destruct Hb as (_ & _ & _ & _ & Hwp & _). rewrite Hwp, Hrp. ring_cases C; lia. }
  exists b. split; [exact Hw|]. split; [exact Hav|]. split; [exact Hig|].
  intros n Hn.
  destruct (ring_clear_count C b vs n HC Hb Hn) as (b' & Hrun & Hb' & Hig' & Hwp' & Hd').
  exists b'. split; [exact Hrun|].
  assert (Hav' : RB.available b' = Z.max 0 (C - n)).
  { destruct Hb' as (_ & _ & Hav' & _). unfold RB.available. rewrite Hav', length_drop. lia. }
  split; [exact Hav'|]. split; [rewrite Hig', Hav; reflexivity|].
  intros skipped v Hskipped.
  assert (Hskip : RB.write_all skipped b' = Ok (RB.with_ignore_count 0 b')).
  { rewrite write_all_ignored by (rewrite Hig', Hav; lia). f_equal.
    unfold RB.with_ignore_count. f_equal. rewrite Hig', Hav. lia. }
  assert (Hfault : RB.write v (RB.with_ignore_count 0 b') = Fault (OutOfBounds C)).
  { rewrite write_out_of_cells; cbn [RB.with_ignore_count RB.ignore_count RB.write_pos RB.data].
    - rewrite Hwp', Hwp. reflexivity.
    - reflexivity.
    - rewrite Hwp', Hd', Hwp. lia. }
  split; [exact Hskip|]. split; [exact Hfault|].
  rewrite write_all_app, Hskip. cbn [RB.write_all]. rewrite Hfault. reflexivity.
Qed.

(** C7 (the code departs from it).  A buffer of capacity 4 is filled by
    four writes.  After [clear(2)], [available()] is 2 and no write is to be
    skipped, but the next write is not stored: it executes [data[4] = 9],
    past the four cells of the array.  After [clear(6)] instead, the buffer
    is empty and the next two writes are skipped, but the write after them
    does not store normally either: it executes [data[4] = 9] as well.
    [clear(count)] moves the read cursor only; the write cursor stays at
    [data[size_count]], where the four writes left it. *)
Theorem clear_count_then_write_leaves_cells :
  RB.write_all [1; 2; 3; 4] (RB.new 4 (Some (fun _ => 0)))
  = Ok (RB.mk 4 4 4 0 0 [1; 2; 3; 4])
  /\ (exists b',
        RB.clear_count 2 (RB.mk 4 4 4 0 0 [1; 2; 3; 4]) = Ok b'
        /\ RB.available b' = 2 /\ RB.ignore_count b' = 0
        /\ RB.write 9 b' = Fault (OutOfBounds 4))
  /\ (exists b',
        RB.clear_count 6 (RB.mk 4 4 4 0 0 [1; 2; 3; 4]) = Ok b'
        /\ RB.available b' = 0 /\ RB.ignore_count b' = 2
        /\ RB.write_all [7; 8] b' = Ok (RB.with_ignore_count 0 b')
        /\ RB.write 9 (RB.with_ignore_count 0 b') = Fault (OutOfBounds 4)).
Proof.
  split; [reflexivity|]. split.
  - eexists. split; [reflexivity|]. repeat split.
  - eexists. split; [reflexivity|]. repeat split.
Qed.

(** ** Commands: the bytes of an argument *)

Lemma le_bytes_4 (a b c d : Z) :
  0 <= a < 256 -> 0 <= b < 256 -> 0 <= c < 256 -> 0 <= d < 256 ->
  le_bytes 4 (((d * 256 + c) * 256 + b) * 256 + a) = [a; b; c; d].
Proof.
  intros Ha Hb Hc Hd. cbn [le_bytes].
  repeat f_equal; Z.div_mod_to_equations; lia.
Qed.

Lemma le_bytes_2 (a b : Z) :
  0 <= a < 256 -> 0 <= b < 256 -> le_bytes 2 (b * 256 + a) = [a; b].
Proof.
  intros Ha Hb. cbn [le_bytes]. repeat f_equal; Z.div_mod_to_equations; lia.
Qed.

Lemma get32_bytes (host : ByteOrder) (a b c d : Z) :
  0 <= a < 256 -> 0 <= b < 256 -> 0 <= c < 256 -> 0 <= d < 256 ->
  LA.get32 host [a; b; c; d] = ((a * 256 + b) * 256 + c) * 256 + d.
Proof.
  intros Ha Hb Hc Hd. unfold LA.get32, ntohl.
  destruct host; unfold mem_value, mem_bytes, le_value, be_bytes;
    cbn [rev app be_value fold_left]; rewrite !Z.mul_0_l, !Z.add_0_l.
  - rewrite (le_bytes_4 a b c d) by assumption. reflexivity.
  - rewrite (le_bytes_4 d c b a) by assumption. reflexivity.
Qed.

Lemma get16_bytes (host : ByteOrder) (a b c d : Z) :
  0 <= a < 256 -> 0 <= b < 256 -> 0 <= c < 256 -> 0 <= d < 256 ->
  LA.get16 host [a; b; c; d] 0 = a * 256 + b
  /\ LA.get16 host [a; b; c; d] 1 = c * 256 + d.
Proof.
  intros Ha Hb Hc Hd. unfold LA.get16, ntohs. cbn [Nat.mul Nat.add drop take].
  destruct host; unfold mem_value, mem_bytes, le_value, be_bytes;
    cbn [rev app be_value fold_left]; rewrite !Z.mul_0_l, !Z.add_0_l.
  - rewrite (le_bytes_2 a b), (le_bytes_2 c d) by assumption. split; reflexivity.
  - rewrite (le_bytes_2 b a), (le_bytes_2 d c) by assumption. split; reflexivity.
Qed.

Lemma be_bytes_4_range (x : Z) :
  exists a b c d,
    be_bytes 4 x = [a; b; c; d]
    /\ 0 <= a < 256 /\ 0 <= b < 256 /\ 0 <= c < 256 /\ 0 <= d < 256.
Proof.
  unfold be_bytes. cbn [le_bytes rev app]. eexists _, _, _, _.
  split; [reflexivity|]. repeat split; apply Z.mod_pos_bound; lia.
Qed.

(** [htonl] followed by a copy of the four bytes from memory, as
    [write(uint8_t, uint32_t)] does it, puts the number on the wire most
    significant byte first, on either host. *)
Lemma mem_bytes_htonl (host : ByteOrder) (x : Z) :
  mem_bytes host 4 (htonl host x) = be_bytes 4 x.
Proof.
  destruct (be_bytes_4_range x) as (a & b & c & d & Hx & Ha & Hb & Hc & Hd).
  unfold htonl. rewrite Hx.
  destruct host; unfold mem_value, mem_bytes, le_value, be_bytes;
    cbn [rev app be_value fold_left]; rewrite !Z.mul_0_l, !Z.add_0_l.
  - apply le_bytes_4; assumption.
  - rewrite (le_bytes_4 d c b a) by assumption. reflexivity.
Qed.

Lemma notified_frame (e : Event) (la : LA.t) (w : World) :
  rx (LA.notified e la w) = rx w
  /\ tx (LA.notified e la w) = tx w
  /\ pin_reads (LA.notified e la w) = pin_reads w
  /\ millis (LA.notified e la w) = millis w
  /\ waited_us (LA.notified e la w) = waited_us w
  /\ events (LA.notified e la w) =
       events w ++ match LA.eventHandler la with Some _ => [e] | None => [] end.
Proof.
  unfold LA.notified. destruct (LA.eventHandler la); simpl;
    rewrite ?app_nil_r; repeat split.
Qed.

(** ** Commands: the dispatch *)

(** The case that the switch of [processCommand] takes for the opcode
    [op]. *)
Ltac dispatch op :=
  unfold LA.processCommand; rewrite bind_run; unfold LA.get_la at 1; cbn [fst];
  repeat match goal with
         | H : LA.buffer_ptr _ = Some _ |- _ => rewrite H
         | H : LA.impl_ptr _ = Some _ |- _ => rewrite H
         end;
  repeat match goal with
         | |- context [op =? ?c] =>
             let v := eval vm_compute in (op =? c) in change (op =? c) with v
         end;
  cbv iota.

Section Dispatch.
Context (sizeof_T : Z) (host : ByteOrder).

(** X6. Before [begin] has set both [buffer_ptr] and [impl_ptr],
    [processCommand(cmd)] returns at once for every command: no field of
    the analyzer changes, nothing is sent, and the argument bytes of a long
    command stay in the stream. *)
Theorem commands_before_begin_are_ignored (fuel : nat) (cmd : Z) (la : LA.t) (w : World) :
  LA.buffer_ptr la = None \/ LA.impl_ptr la = None ->
  LA.processCommand sizeof_T host fuel cmd (la, w) = Ok (tt, (la, w)).
Proof.
  intros Hnull. unfold LA.processCommand. rewrite bind_run.
  unfold LA.get_la at 1. cbn [fst].
  destruct (LA.buffer_ptr la), (LA.impl_ptr la), Hnull; try discriminate; reflexivity.
Qed.

(** The commands that the switch of [processCommand] has a case for. *)
Lemma processCommand_default (fuel : nat) (cmd : Z) (la : LA.t) (w : World) :
  ~ In cmd [SUMP_RESET; SUMP_ID; SUMP_GET_METADATA; SUMP_ARM; SUMP_TRIGGER_MASK;
            SUMP_TRIGGER_VALUES; SUMP_TRIGGER_CONFIG; SUMP_SET_DIVIDER;
            SUMP_SET_READ_DELAY_COUNT; SUMP_SET_FLAGS] ->
  LA.processCommand sizeof_T host fuel cmd (la, w) = Ok (tt, (la, w)).
Proof.
  intros Hcmd. unfold LA.processCommand. rewrite bind_run.
  unfold LA.get_la at 1. cbn [fst].
  destruct (LA.buffer_ptr la), (LA.impl_ptr la); try reflexivity.
  cbn [In] in Hcmd.
  repeat match goal with
         | |- context [cmd =? ?c] =>
             destruct (Z.eqb_spec cmd c) as [->|_]; [exfalso; apply Hcmd; intuition|]
         end.
  reflexivity.
Qed.

(** [processCommand()] starts with [hasCommand()], which goes through
    [stream_ptr]: before [begin] has set it there is no stream behind
    it. *)
Lemma processCommand_next_without_stream (fuel : nat) (la : LA.t) (w : World) :
  LA.stream_ptr la = None ->
  LA.processCommand_next sizeof_T host fuel (la, w) = Fault NullPointer.
Proof.
  intros Hnone. unfold LA.processCommand_next, LA.hasCommand, LA.stream.
  run. rewrite Hnone. reflexivity.
Qed.

(** With the stream set, [processCommand()] takes the next byte, if there
    is one, and hands it to [processCommand(int)]. *)
Lemma processCommand_next_run (fuel : nat) (la : LA.t) (w : World)
    (s : Stream) (cmd : Z) (rest : list Z) :
  LA.stream_ptr la = Some s -> rx w = cmd :: rest -> 0 <= cmd < 256 ->
  LA.processCommand_next sizeof_T host fuel (la, w) =
    LA.processCommand sizeof_T host fuel cmd (la, with_rx rest w).
Proof.
  intros Hs Hrx Hbyte.
  unfold LA.processCommand_next, LA.hasCommand, LA.command, LA.stream.
  run. repeat (first [rewrite Hs | rewrite Hrx]; cbn [fst snd]).
  change (wrap_bits 8 cmd) with (cmd mod 2 ^ 8).
  rewrite (Z.mod_small cmd (2 ^ 8)) by (change (2 ^ 8) with 256; lia).
  reflexivity.
Qed.

(** X7. A command byte that is none of the ten opcodes with a case in the
    switch is dropped: [processCommand(int)] leaves the analyzer and the
    stream as they are, and [processCommand()], on an analyzer whose
    stream [begin] has set, takes the byte from the stream and changes
    nothing else.  XON (0x11) and XOFF (0x13), which the header defines,
    are among these bytes.  Before [begin], [processCommand()] does not get
    to the byte: its [hasCommand()] goes through the unset [stream_ptr]. *)
Theorem unknown_command_is_ignored (fuel : nat) (cmd : Z) (la : LA.t) (w : World) :
  ~ In cmd [SUMP_RESET; SUMP_ID; SUMP_GET_METADATA; SUMP_ARM; SUMP_TRIGGER_MASK;
            SUMP_TRIGGER_VALUES; SUMP_TRIGGER_CONFIG; SUMP_SET_DIVIDER;
            SUMP_SET_READ_DELAY_COUNT; SUMP_SET_FLAGS] ->
  0 <= cmd < 256 ->
  LA.processCommand sizeof_T host fuel cmd (la, w) = Ok (tt, (la, w))
  /\ (forall s : Stream, LA.stream_ptr la = Some s ->
      LA.processCommand_next sizeof_T host fuel (la, with_rx (cmd :: rx w) w)
      = Ok (tt, (la, w)))
  /\ (LA.stream_ptr la = None ->
      LA.processCommand_next sizeof_T host fuel (la, with_rx (cmd :: rx w) w)
      = Fault NullPointer).
Proof.
  intros Hcmd Hbyte. split; [apply processCommand_default; exact Hcmd|]. split.
  - intros s Hs.
    rewrite (processCommand_next_run fuel la (with_rx (cmd :: rx w) w) s cmd (rx w)
               Hs eq_refl Hbyte).
    replace (with_rx (rx w) (with_rx (cmd :: rx w) w)) with w by (destruct w; reflexivity).
    apply processCommand_default. exact Hcmd.
  - apply processCommand_next_without_stream.
Qed.

(** X8. ID is answered with the four bytes of [device_id], the characters
    1, A, L and S, and a flush; the analyzer is as before and no input is
    read. *)
Theorem id_command_sends_device_id (fuel : nat) (la : LA.t) (w : World)
    (b : RB.t) (pins : PinReader) :
  LA.buffer_ptr la = Some b -> LA.impl_ptr la = Some pins ->
  LA.processCommand sizeof_T host fuel SUMP_ID (la, w) =
    Ok (tt, (la, with_tx (tx w ++ [SWriteBuffer [49; 65; 76; 83]; SFlush]) w)).
Proof.
  intros Hbuf Himpl. dispatch SUMP_ID. unfold LA.stream_call. run.
  unfold with_tx; simpl. rewrite <- app_assoc. reflexivity.
Qed.

Lemma write_number_run (cmd number : Z) (la : LA.t) (w : World) :
  LA.write_number host cmd number (la, w) =
    Ok (tt, (la, with_tx (tx w ++ [SWrite cmd;
                                   SWriteBuffer (be_bytes 4 (wrap_size_t number));
                                   SFlush]) w)).
Proof.
  unfold LA.write_number, LA.stream_call. run. rewrite mem_bytes_htonl.
  unfold with_tx; simpl. rewrite <- !app_assoc. reflexivity.
Qed.

Lemma write_str_run (cmd : Z) (str : list Z) (la : LA.t) (w : World) :
  LA.write_str cmd str (la, w) =
    Ok (tt, (la, with_tx (tx w ++ [SWrite cmd; SPrint str; SWriteBuffer [0]; SFlush]) w)).
Proof.
  unfold LA.write_str, LA.stream_call. run.
  unfold with_tx; simpl. rewrite <- !app_assoc. reflexivity.
Qed.

(** X9. GET_METADATA is answered with: token 0x01, the name ARDUINO and a
    zero byte; token 0x20 and the number of pins; token 0x21 and
    [max_capture_size]; token 0x23 and the capture frequency; the bytes
    0x41, 0x02 and 0x00.  Each number goes out as four bytes, most
    significant first on either host, reduced modulo 2^32.  The analyzer
    is as before and no input is read. *)
Theorem metadata_command_reply (fuel : nat) (la : LA.t) (w : World)
    (b : RB.t) (pins : PinReader) :
  LA.buffer_ptr la = Some b -> LA.impl_ptr la = Some pins ->
  LA.processCommand sizeof_T host fuel SUMP_GET_METADATA (la, w) =
    Ok (tt, (la, with_tx
      (tx w ++
       [SWrite 0x01; SPrint [65; 82; 68; 85; 73; 78; 79]; SWriteBuffer [0]; SFlush;
        SWrite 0x20; SWriteBuffer (be_bytes 4 (LA.pin_numbers la mod 2 ^ 32)); SFlush;
        SWrite 0x21; SWriteBuffer (be_bytes 4 (LA.max_capture_size la mod 2 ^ 32)); SFlush;
        SWrite 0x23; SWriteBuffer (be_bytes 4 (LA.captureFrequency la mod 2 ^ 32)); SFlush;
        SWriteBuffer [0x41; 0x02; 0x00]; SFlush]) w)).
Proof.
  intros Hbuf Himpl. dispatch SUMP_GET_METADATA.
  unfold LA.sendMetadata. rewrite bind_run. unfold LA.get_la at 1. cbn [fst].
  rewrite Himpl.
  rewrite bind_run, write_str_run.
  rewrite bind_run, write_number_run.
  rewrite bind_run, write_number_run.
  rewrite bind_run, write_number_run.
  unfold LA.stream_call. run.
  unfold with_tx, wrap_size_t, wrap_bits, LA.captureFrequency; simpl.
  rewrite <- !app_assoc. reflexivity.
Qed.

End Dispatch.

(** ** Commands: the long commands and their argument *)

Section Arguments.
Context (sizeof_T : Z) (host : ByteOrder).

(** X10. SET_READ_DELAY_COUNT takes four argument bytes; the first two
    are the read count and the last two the delay count, each most
    significant byte first, and each is limited to [max_capture_size].
    Both counts end up between 0 and [max_capture_size]; the event
    READ_DLEAY_COUNT is raised; nothing else of the analyzer changes. *)
Theorem read_delay_count_command (fuel : nat) (la : LA.t) (w : World)
    (b : RB.t) (pins : PinReader) (b0 b1 b2 b3 : Z) (rest : list Z) :
  LA.buffer_ptr la = Some b -> LA.impl_ptr la = Some pins ->
  length (LA.cmd4 la) = 4%nat ->
  rx w = b0 :: b1 :: b2 :: b3 :: rest ->
  0 <= b0 < 256 -> 0 <= b1 < 256 -> 0 <= b2 < 256 -> 0 <= b3 < 256 ->
  0 <= LA.max_capture_size la < 2 ^ 32 ->
  exists la' w',
    LA.processCommand sizeof_T host fuel SUMP_SET_READ_DELAY_COUNT (la, w)
      = Ok (tt, (la', w'))
    /\ la' = LA.with_delay_count (Z.min (b2 * 256 + b3) (LA.max_capture_size la))
               (LA.with_read_count (Z.min (b0 * 256 + b1) (LA.max_capture_size la))
                  (LA.with_cmd4 [b0; b1; b2; b3] la))
    /\ 0 <= LA.readCount la' <= LA.max_capture_size la
    /\ 0 <= LA.delayCount la' <= LA.max_capture_size la
    /\ rx w' = rest /\ tx w' = tx w
    /\ events w' =
         events w ++ match LA.eventHandler la with
                     | Some _ => [READ_DLEAY_COUNT]
                     | None => []
                     end.
Proof.
  intros Hbuf Himpl Hlen Hrx H0 H1 H2 H3 Hmax.
  dispatch SUMP_SET_READ_DELAY_COUNT. unfold LA.getSump4ByteComandArg.
  rewrite bind_run, (commandExt_full la w b0 b1 b2 b3 rest Hlen Hrx).
  destruct (get16_bytes host b0 b1 b2 b3 H0 H1 H2 H3) as [-> ->].
  unfold LA.raiseEvent. run.
  cbn [LA.max_capture_size LA.with_cmd4].
  set (rc := Z.min (b0 * 256 + b1) (LA.max_capture_size la)).
  set (dc := Z.min (b2 * 256 + b3) (LA.max_capture_size la)).
  assert (Hrc : to_int rc = rc).
  { unfold to_int. rewrite wrap_size_t_small by lia.
    destruct (Z.ltb_spec rc (2 ^ 31)); [reflexivity|lia]. }
  assert (Hdc : to_int dc = dc).
  { unfold to_int. rewrite wrap_size_t_small by lia.
    destruct (Z.ltb_spec dc (2 ^ 31)); [reflexivity|lia]. }
  rewrite Hrc, Hdc.
  eexists _, _. split; [reflexivity|]. split; [reflexivity|].
  unfold LA.readCount, LA.delayCount.
  cbn [LA.read_count LA.delay_count LA.with_delay_count LA.with_read_count].
  split; [lia|]. split; [lia|].
  match goal with
  | |- context [LA.notified ?e ?a ?x] =>
      destruct (notified_frame e a x) as (-> & -> & _ & _ & _ & ->)
  end.
  repeat split.
Qed.

(** X11. SET_FLAGS takes four argument bytes and sets continuous capture
    to bit 6 (0x40) of the second one; the event FLAGS is raised; nothing
    else of the analyzer changes and nothing is sent. *)
Theorem flags_command_sets_continuous_capture (fuel : nat) (la : LA.t) (w : World)
    (b : RB.t) (pins : PinReader) (b0 b1 b2 b3 : Z) (rest : list Z) :
  LA.buffer_ptr la = Some b -> LA.impl_ptr la = Some pins ->
  length (LA.cmd4 la) = 4%nat ->
  rx w = b0 :: b1 :: b2 :: b3 :: rest ->
  exists w',
    LA.processCommand sizeof_T host fuel SUMP_SET_FLAGS (la, w)
      = Ok (tt, (LA.with_is_continuous_capture (Z.testbit b1 6)
                   (LA.with_cmd4 [b0; b1; b2; b3] la), w'))
    /\ rx w' = rest /\ tx w' = tx w
    /\ events w' =
         events w ++ match LA.eventHandler la with
                     | Some _ => [FLAGS]
                     | None => []
                     end.
Proof.
  intros Hbuf Himpl Hlen Hrx.
  dispatch SUMP_SET_FLAGS. unfold LA.getSump4ByteComandArg.
  rewrite bind_run, (commandExt_full la w b0 b1 b2 b3 rest Hlen Hrx).
  unfold LA.raiseEvent. run. cbn [nth].
  assert (Hbit : negb (Z.land b1 64 =? 0) = Z.testbit b1 6).
  { change 64 with (Z.shiftl 1 6).
    destruct (Z.testbit b1 6) eqn:Hb.
    - apply negb_true_iff, Z.eqb_neq. intros Hz.
      apply (f_equal (fun z => Z.testbit z 6)) in Hz.
      rewrite Z.land_spec, Hb in Hz. discriminate.
    - apply negb_false_iff, Z.eqb_eq. apply Z.bits_inj'. intros n Hn.
      rewrite Z.land_spec, Z.bits_0.
      destruct (Z.eq_dec n 6) as [->|Hne]; [rewrite Hb; reflexivity|].
      rewrite Z.shiftl_spec by lia.
      replace (Z.testbit 1 (n - 6)) with false; [apply andb_false_r|].
      destruct (Z.lt_ge_cases n 6).
      + symmetry. apply Z.testbit_neg_r. lia.
      + symmetry. change 1 with (2 ^ 0). apply Z.pow2_bits_false. lia. }
  rewrite Hbit. eexists. split; [reflexivity|].
  match goal with
  | |- context [LA.notified ?e ?a ?x] =>
      destruct (notified_frame e a x) as (-> & -> & _ & _ & _ & ->)
  end.
  repeat split.
Qed.

(** X12. TRIGGER_MASK and TRIGGER_VALUES take four argument bytes and set
    the mask, or the values, from them according to the width of [T]: the
    first byte for an 8-bit [T]; the first two bytes, the first being the
    more significant, for a 16-bit [T]; all four bytes, most significant
    first, for a 32-bit [T].  The event TRIGGER_MASK or TRIGGER_VALUES is
    raised; nothing else of the analyzer changes. *)
Theorem trigger_commands_decode_argument (fuel : nat) (la : LA.t) (w : World)
    (b : RB.t) (pins : PinReader) (b0 b1 b2 b3 : Z) (rest : list Z) :
  LA.buffer_ptr la = Some b -> LA.impl_ptr la = Some pins ->
  length (LA.cmd4 la) = 4%nat ->
  rx w = b0 :: b1 :: b2 :: b3 :: rest ->
  0 <= b0 < 256 -> 0 <= b1 < 256 -> 0 <= b2 < 256 -> 0 <= b3 < 256 ->
  sizeof_T = 1 \/ sizeof_T = 2 \/ sizeof_T = 4 ->
  let bits :=
    if sizeof_T =? 1 then b0
    else if sizeof_T =? 2 then b0 * 256 + b1
    else ((b0 * 256 + b1) * 256 + b2) * 256 + b3 in
  (exists w',
     LA.processCommand sizeof_T host fuel SUMP_TRIGGER_MASK (la, w)
       = Ok (tt, (LA.with_trigger_mask bits (LA.with_cmd4 [b0; b1; b2; b3] la), w'))
     /\ rx w' = rest /\ tx w' = tx w
     /\ events w' =
          events w ++ match LA.eventHandler la with
                      | Some _ => [TRIGGER_MASK]
                      | None => []
                      end)
  /\ (exists w',
       LA.processCommand sizeof_T host fuel SUMP_TRIGGER_VALUES (la, w)
         = Ok (tt, (LA.with_trigger_values bits (LA.with_cmd4 [b0; b1; b2; b3] la), w'))
       /\ rx w' = rest /\ tx w' = tx w
       /\ events w' =
            events w ++ match LA.eventHandler la with
                        | Some _ => [TRIGGER_VALUES]
                        | None => []
                        end).
Proof.
  intros Hbuf Himpl Hlen Hrx H0 H1 H2 H3 HT bits.
  assert (Harg : LA.commandExtPinBitArray sizeof_T host (la, w) =
                 Ok (bits, (LA.with_cmd4 [b0; b1; b2; b3] la,
                            with_rx rest (with_waited_us (waited_us w + 1000 * 10) w)))).
  { unfold LA.commandExtPinBitArray, LA.getSump4ByteComandArg.
    rewrite bind_run, (commandExt_full la w b0 b1 b2 b3 rest Hlen Hrx).
    unfold mret, LA.M_ret. f_equal. f_equal.
    destruct (get16_bytes host b0 b1 b2 b3 H0 H1 H2 H3) as [-> _].
    rewrite (get32_bytes host b0 b1 b2 b3 H0 H1 H2 H3). cbn [nth].
    unfold bits, LA.wrap_T, wrap_bits.
    destruct HT as [HT | [HT | HT]]; rewrite HT; cbn [Z.eqb Pos.eqb Z.mul Pos.mul];
      apply Z.mod_small; lia. }
  split.
  - dispatch SUMP_TRIGGER_MASK. rewrite bind_run, Harg.
    unfold LA.setTriggerMask, LA.raiseEvent. run.
    eexists. split; [reflexivity|].
    match goal with
    | |- context [LA.notified ?e ?a ?x] =>
        destruct (notified_frame e a x) as (-> & -> & _ & _ & _ & ->)
    end.
    repeat split.
  - dispatch SUMP_TRIGGER_VALUES. rewrite bind_run, Harg.
    unfold LA.setTriggerValues, LA.raiseEvent. run.
    eexists. split; [reflexivity|].
    match goal with
    | |- context [LA.notified ?e ?a ?x] =>
        destruct (notified_frame e a x) as (-> & -> & _ & _ & _ & ->)
    end.
    repeat split.
Qed.

End Arguments.

(** ** Commands: the frequency and the divider *)

Section Frequency.
Context (sizeof_T : Z) (host : ByteOrder).

(** X13. [setCaptureFrequency(f)] with [f >= 1] stores the frequency and
    the delay [1000000 / f - 1] microseconds (integer division), or 0 where
    that would be negative, that is for every frequency above 1 MHz; the
    delay is below 1000000; the event CAPTURE_FREQUNCY is raised.  With
    [f = 0] the quotient is infinite and its conversion to an integer is
    undefined. *)
Theorem setCaptureFrequency_delay (f : Z) (la : LA.t) (w : World) :
  0 < f < 2 ^ 64 ->
  LA.setCaptureFrequency f (la, w) =
    Ok (tt, (LA.with_delay_time_us (Z.max 0 (1000000 / f - 1))
               (LA.with_frequecy_value f la),
             LA.notified CAPTURE_FREQUNCY la w))
  /\ 0 <= Z.max 0 (1000000 / f - 1) < 1000000
  /\ (1000000 < f -> Z.max 0 (1000000 / f - 1) = 0)
  /\ LA.setCaptureFrequency 0 (la, w) = Fault NotRepresentable.
Proof.
  intros Hf. split; [|split; [|split]].
  - unfold LA.setCaptureFrequency, LA.raiseEvent. run.
    rewrite (delay_of_frequency_closed f) by lia. reflexivity.
  - assert (1000000 / f <= 1000000) by (apply Z.div_le_upper_bound; nia). lia.
  - intros Hfast. rewrite Z.div_small by lia. reflexivity.
  - reflexivity.
Qed.

(** X14. SET_DIVIDER with a divider from 100000000 up faults: with
    [0xFFFFFFFF] the sum [divider + 1] wraps to 0 and
    [100000000l / (divider + 1)] divides by zero; with the other values the
    frequency is 0 and the delay [(1000000.0 / 0) - 1] is not a number that
    an integer can hold. *)
Theorem set_divider_out_of_range_faults (fuel : nat) (la : LA.t) (w : World)
    (b : RB.t) (pins : PinReader) (d : Z) (rest : list Z) :
  LA.buffer_ptr la = Some b -> LA.impl_ptr la = Some pins ->
  length (LA.cmd4 la) = 4%nat ->
  rx w = be_bytes 4 d ++ rest ->
  100000000 <= d < 2 ^ 32 ->
  LA.processCommand sizeof_T host fuel SUMP_SET_DIVIDER (la, w) =
    Fault (if d =? 2 ^ 32 - 1 then DivisionByZero else NotRepresentable).
Proof.
  intros Hbuf Himpl Hlen Hrx Hd.
  rewrite (processCommand_set_divider sizeof_T host fuel la w b pins Hbuf Himpl).
  unfold LA.getSump4ByteComandArg. rewrite bind_run.
  unfold be_bytes in Hrx. cbn [le_bytes rev app] in Hrx.
  rewrite (commandExt_full la w _ _ _ _ rest Hlen Hrx).
  change [d / 256 / 256 / 256 mod 256; d / 256 / 256 mod 256; d / 256 mod 256; d mod 256]
    with (be_bytes 4 d).
  rewrite get32_be_bytes by lia.
  unfold LA.setupDelay. rewrite bind_run. unfold LA.get_la at 1. cbn [fst].
  assert (Himpl' : LA.impl_ptr (LA.with_cmd4 (be_bytes 4 d) la) = Some pins) by exact Himpl.
  rewrite Himpl'.
  destruct (Z.eqb_spec d (2 ^ 32 - 1)) as [->|Hne].
  - reflexivity.
  - rewrite wrap_size_t_small by lia.
    destruct (Z.eqb_spec (d + 1) 0); [lia|].
    rewrite Z.div_small by lia. reflexivity.
Qed.

End Frequency.

(** ** Capture: the sampling loops *)

(** The world after [n] samples were taken with a pause of [us]
    microseconds after each. *)
Lemma sampled_world_step (w : World) (n : nat) (us : Z) :
  with_waited_us
    (waited_us (with_waited_us (waited_us w + us) (with_pin_reads (S (pin_reads w)) w))
     + Z.of_nat n * us)
    (with_pin_reads
       (pin_reads (with_waited_us (waited_us w + us) (with_pin_reads (S (pin_reads w)) w)) + n)
       (with_waited_us (waited_us w + us) (with_pin_reads (S (pin_reads w)) w)))
  = with_waited_us (waited_us w + Z.of_nat (S n) * us)
      (with_pin_reads (pin_reads w + S n) w).
Proof.
  destruct w. unfold with_waited_us, with_pin_reads; simpl. f_equal; lia.
Qed.

Lemma sampled_world_zero (w : World) (us : Z) :
  with_waited_us (waited_us w + Z.of_nat 0 * us) (with_pin_reads (pin_reads w + 0) w) = w.
Proof.
  destruct w. unfold with_waited_us, with_pin_reads; simpl. f_equal; lia.
Qed.

Section Sampling.
Context (sizeof_T : Z) (host : ByteOrder).

Lemma readAll_run (la : LA.t) (w : World) (pins : PinReader) :
  LA.impl_ptr la = Some pins ->
  LA.readAll sizeof_T (la, w) =
    Ok (LA.sample_at sizeof_T pins (pin_reads w),
        (la, with_pin_reads (S (pin_reads w)) w)).
Proof. intros Himpl. unfold LA.readAll. run. rewrite Himpl. reflexivity. Qed.

Lemma buffer_write_run (v : Z) (la : LA.t) (w : World) (b : RB.t) :
  LA.buffer_ptr la = Some b ->
  LA.buffer_write v (la, w) =
    match RB.write v b with
    | Ok b' => Ok (tt, (LA.with_buffer_ptr (Some b') la, w))
    | Fault f => Fault f
    end.
Proof.
  intros Hbuf. unfold LA.buffer_write.
  rewrite bind_run, (buffer_run la w b Hbuf). rewrite bind_run.
  unfold LA.lift. destruct (RB.write v b); reflexivity.
Qed.

Lemma capturing_run (la : LA.t) (w : World) (b : RB.t) :
  LA.status_value la = TRIGGERED -> LA.buffer_ptr la = Some b ->
  LA.capturing (la, w) =
    Ok (RB.available b <? wrap_size_t (LA.read_count la), (la, w)).
Proof.
  intros Hst Hbuf. unfold LA.capturing. rewrite bind_run.
  unfold LA.get_la at 1. cbn [fst]. rewrite Hst.
  rewrite bind_run, (buffer_available_run la w b Hbuf). reflexivity.
Qed.

(** One pass through the body of [captureAll] and of
    [captureAllMaxSpeed]. *)
Lemma captureAll_body_run (la : LA.t) (w : World) (pins : PinReader) (b : RB.t) :
  LA.impl_ptr la = Some pins -> LA.buffer_ptr la = Some b ->
  (LA.captureSampleFast sizeof_T;;
   la ← LA.get_la; LA.delayMicroseconds (LA.delay_time_us la)) (la, w) =
    match RB.write (LA.sample_at sizeof_T pins (pin_reads w)) b with
    | Ok b' =>
        Ok (tt, (LA.with_buffer_ptr (Some b') la,
                 with_waited_us (waited_us w + LA.delay_time_us la)
                   (with_pin_reads (S (pin_reads w)) w)))
    | Fault f => Fault f
    end.
Proof.
  intros Himpl Hbuf. rewrite bind_run. unfold LA.captureSampleFast.
  rewrite bind_run, (readAll_run la w pins Himpl).
  rewrite (buffer_write_run _ la _ b Hbuf).
  destruct (RB.write _ b); reflexivity.
Qed.

Lemma captureAllMaxSpeed_body_run (la : LA.t) (w : World) (pins : PinReader) (b : RB.t) :
  LA.impl_ptr la = Some pins -> LA.buffer_ptr la = Some b ->
  LA.captureSampleFast sizeof_T (la, w) =
    match RB.write (LA.sample_at sizeof_T pins (pin_reads w)) b with
    | Ok b' =>
        Ok (tt, (LA.with_buffer_ptr (Some b') la,
                 with_waited_us (waited_us w + 0)
                   (with_pin_reads (S (pin_reads w)) w)))
    | Fault f => Fault f
    end.
Proof.
  intros Himpl Hbuf. unfold LA.captureSampleFast.
  rewrite bind_run, (readAll_run la w pins Himpl).
  rewrite (buffer_write_run _ la _ b Hbuf).
  destruct (RB.write _ b); [|reflexivity].
  do 3 f_equal. destruct w. unfold with_waited_us, with_pin_reads; simpl.
  f_equal. lia.
Qed.

(** The two loops differ in the pause after a sample: [pause la]
    microseconds. *)
Section Loop.
Variable body : LA.M unit.
Variable pause : LA.t -> Z.
Hypothesis body_run :
  forall (la : LA.t) (w : World) (pins : PinReader) (b : RB.t),
  LA.impl_ptr la = Some pins -> LA.buffer_ptr la = Some b ->
  body (la, w) =
    match RB.write (LA.sample_at sizeof_T pins (pin_reads w)) b with
    | Ok b' =>
        Ok (tt, (LA.with_buffer_ptr (Some b') la,
                 with_waited_us (waited_us w + pause la)
                   (with_pin_reads (S (pin_reads w)) w)))
    | Fault f => Fault f
    end.
Hypothesis pause_frame :
  forall (v : option RB.t) (la : LA.t), pause (LA.with_buffer_ptr v la) = pause la.

(** On a buffer whose cursors have not wrapped, the loop takes samples
    until the buffer holds [read_count] entries. *)
Lemma sampling_loop (C : Z) (pins : PinReader) (n : nat) :
  0 < C < 2 ^ 31 ->
  forall (la : LA.t) (w : World) (b : RB.t) (q : list Z) (fuel : nat),
  LA.status_value la = TRIGGERED ->
  LA.impl_ptr la = Some pins -> LA.buffer_ptr la = Some b ->
  RB.ring C b q -> RB.read_pos b = 0 -> RB.ignore_count b = 0 ->
  Z.of_nat (length (RB.data b)) = C ->
  Z.of_nat (length q) + Z.of_nat n = wrap_size_t (LA.read_count la) ->
  wrap_size_t (LA.read_count la) <= C ->
  (n < fuel)%nat ->
  exists b',
    RB.write_all (LA.samples_from sizeof_T pins (pin_reads w) n) b = Ok b'
    /\ LA.while fuel LA.capturing body (la, w) =
         Ok (tt, (LA.with_buffer_ptr (Some b') la,
                  with_waited_us (waited_us w + Z.of_nat n * pause la)
                    (with_pin_reads (pin_reads w + n) w))).
Proof.
  intros HC.
  induction n as [|n IH]; intros la w b q fuel Hst Himpl Hbuf Hb Hrp Hig Hcells Hn Hcap Hfuel;
    (destruct fuel as [|fuel]; [lia|]); cbn [LA.while];
    rewrite bind_run, (capturing_run la w b Hst Hbuf);
    assert (Hav : RB.available b = Z.of_nat (length q))
      by (destruct Hb as (_ & _ & Hav & _); exact Hav);
    rewrite Hav.
  - destruct (Z.ltb_spec (Z.of_nat (length q)) (wrap_size_t (LA.read_count la))); [lia|].
    exists b. unfold mret, LA.M_ret.
    rewrite with_buffer_ptr_same by assumption. rewrite sampled_world_zero.
    split; reflexivity.
  - destruct (Z.ltb_spec (Z.of_nat (length q)) (wrap_size_t (LA.read_count la))); [|lia].
    rewrite bind_run, (body_run la w pins b Himpl Hbuf).
    destruct (write_all_within_capacity C [LA.sample_at sizeof_T pins (pin_reads w)] HC
                b q Hb Hrp Hig Hcells ltac:(simpl length; lia))
      as (b1 & Hw & Hb1 & Hrp1 & Hig1 & Hc1).
    unfold LA.samples_from. cbn [seq map RB.write_all].
    cbn [RB.write_all] in Hw.
    destruct (RB.write _ b) as [b1'|f]; [|discriminate]. cbn in Hw. injection Hw as ->.
    destruct (IH (LA.with_buffer_ptr (Some b1) la)
                (with_waited_us (waited_us w + pause la)
                   (with_pin_reads (S (pin_reads w)) w))
                b1 (q ++ [LA.sample_at sizeof_T pins (pin_reads w)]) fuel)
      as (b' & Hwall & Hrun); try assumption; try reflexivity.
    + rewrite length_app. simpl length.
      change (LA.read_count (LA.with_buffer_ptr (Some b1) la)) with (LA.read_count la). lia.
    + lia.
    + exists b'. split; [exact Hwall|]. rewrite Hrun, pause_frame.
      rewrite sampled_world_step. reflexivity.
Qed.

(** With [read_count] above the capacity the loop goes on past the last
    cell. *)
Lemma sampling_overrun (C : Z) (pins : PinReader) (n : nat) :
  0 < C < 2 ^ 31 ->
  forall (la : LA.t) (w : World) (b : RB.t) (q : list Z) (fuel : nat),
  LA.status_value la = TRIGGERED ->
  LA.impl_ptr la = Some pins -> LA.buffer_ptr la = Some b ->
  RB.ring C b q -> RB.read_pos b = 0 -> RB.ignore_count b = 0 ->
  Z.of_nat (length (RB.data b)) = C ->
  Z.of_nat (length q) + Z.of_nat n = C ->
  C < wrap_size_t (LA.read_count la) ->
  (n < fuel)%nat ->
  LA.while fuel LA.capturing body (la, w) = Fault (OutOfBounds C).
Proof.
  intros HC.
  induction n as [|n IH]; intros la w b q fuel Hst Himpl Hbuf Hb Hrp Hig Hcells Hn Hover Hfuel;
    (destruct fuel as [|fuel]; [lia|]); cbn [LA.while];
    rewrite bind_run, (capturing_run la w b Hst Hbuf);
    assert (Hav : RB.available b = Z.of_nat (length q))
      by (destruct Hb as (_ & _ & Hav & _); exact Hav);
    rewrite Hav;
    (destruct (Z.ltb_spec (Z.of_nat (length q)) (wrap_size_t (LA.read_count la))); [|lia]);
    rewrite bind_run, (body_run la w pins b Himpl Hbuf).
  - assert (Hwp : RB.write_pos b = C).
    { destruct Hb as (_ & _ & _ & _ & Hwp & _). rewrite Hwp, Hrp. ring_cases C; lia. }
    rewrite write_out_of_cells by (assumption || lia). rewrite Hwp. reflexivity.
  - destruct (write_all_within_capacity C [LA.sample_at sizeof_T pins (pin_reads w)] HC
                b q Hb Hrp Hig Hcells ltac:(simpl length; lia))
      as (b1 & Hw & Hb1 & Hrp1 & Hig1 & Hc1).
    cbn [RB.write_all] in Hw.
    destruct (RB.write _ b) as [b1'|f]; [|discriminate]. cbn in Hw. injection Hw as ->.
    apply (IH (LA.with_buffer_ptr (Some b1) la) _ b1
              (q ++ [LA.sample_at sizeof_T pins (pin_reads w)]) fuel);
      try assumption; try reflexivity.
    + rewrite length_app. simpl length. lia.
    + lia.
Qed.

End Loop.

Lemma captureAll_run (C : Z) (pins : PinReader) (n : nat)
    (la : LA.t) (w : World) (b : RB.t) (q : list Z) (fuel : nat) :
  0 < C < 2 ^ 31 ->
  LA.status_value la = TRIGGERED ->
  LA.impl_ptr la = Some pins -> LA.buffer_ptr la = Some b ->
  RB.ring C b q -> RB.read_pos b = 0 -> RB.ignore_count b = 0 ->
  Z.of_nat (length (RB.data b)) = C ->
  Z.of_nat (length q) + Z.of_nat n = wrap_size_t (LA.read_count la) ->
  wrap_size_t (LA.read_count la) <= C ->
  (n < fuel)%nat ->
  exists b',
    RB.write_all (LA.samples_from sizeof_T pins (pin_reads w) n) b = Ok b'
    /\ LA.captureAll sizeof_T fuel (la, w) =
         Ok (tt, (LA.with_buffer_ptr (Some b') la,
                  with_waited_us (waited_us w + Z.of_nat n * LA.delay_time_us la)
                    (with_pin_reads (pin_reads w + n) w)))
    /\ LA.captureAllMaxSpeed sizeof_T fuel (la, w) =
         Ok (tt, (LA.with_buffer_ptr (Some b') la,
                  with_pin_reads (pin_reads w + n) w)).
Proof.
  intros HC Hst Himpl Hbuf Hb Hrp Hig Hcells Hn Hcap Hfuel.
  destruct (sampling_loop _ LA.delay_time_us captureAll_body_run
              ltac:(reflexivity) C pins n HC la w b q fuel)
    as (b' & Hw & Hrun); try assumption.
  destruct (sampling_loop _ (fun _ => 0) captureAllMaxSpeed_body_run
              ltac:(reflexivity) C pins n HC la w b q fuel)
    as (b'' & Hw' & Hrun'); try assumption.
  rewrite Hw in Hw'. injection Hw' as <-.
  exists b'. split; [exact Hw|]. split; [exact Hrun|].
  unfold LA.captureAllMaxSpeed. rewrite Hrun'. do 3 f_equal.
  destruct w. unfold with_waited_us, with_pin_reads; simpl. f_equal. lia.
Qed.

End Sampling.

(** ** Capture: from ARM to the dump *)

Section Capture.
Context (sizeof_T : Z) (host : ByteOrder).

(** X15. From the status TRIGGERED and a buffer that was just cleared,
    with [0 <= read_count <= size()], [captureAll] and [captureAllMaxSpeed]
    take exactly [read_count] samples and store them: afterwards
    [available()] is [read_count] and a drain returns the samples in the
    order in which they were taken.  [captureAll] pauses [delay_time_us]
    microseconds after each sample, [captureAllMaxSpeed] does not pause;
    neither writes to the stream. *)
Theorem capture_loops_take_read_count_samples
    (la : LA.t) (w : World) (pins : PinReader) (b0 : RB.t) (fuel : nat) :
  LA.status la = TRIGGERED ->
  LA.impl_ptr la = Some pins ->
  LA.buffer_ptr la = Some (RB.clear b0) ->
  0 < RB.size b0 < 2 ^ 31 ->
  Z.of_nat (length (RB.data b0)) = RB.size b0 ->
  0 <= LA.readCount la <= RB.size b0 ->
  (Z.to_nat (LA.readCount la) < fuel)%nat ->
  exists b' rest,
    LA.captureAll sizeof_T fuel (la, w) =
      Ok (tt, (LA.with_buffer_ptr (Some b') la,
               with_waited_us (waited_us w + LA.readCount la * LA.delayTimeUs la)
                 (with_pin_reads (pin_reads w + Z.to_nat (LA.readCount la)) w)))
    /\ LA.captureAllMaxSpeed sizeof_T fuel (la, w) =
         Ok (tt, (LA.with_buffer_ptr (Some b') la,
                  with_pin_reads (pin_reads w + Z.to_nat (LA.readCount la)) w))
    /\ RB.available b' = LA.readCount la
    /\ RB.drain b' =
         Ok (LA.samples_from sizeof_T pins (pin_reads w) (Z.to_nat (LA.readCount la)),
             rest).
Proof.
  unfold LA.status, LA.readCount, LA.delayTimeUs, RB.size.
  intros Hst Himpl Hbuf HC Hcells Hcount Hfuel.
  set (C := RB.size_count b0) in *. set (n := Z.to_nat (LA.read_count la)) in *.
  assert (Hwrap : wrap_size_t (LA.read_count la) = LA.read_count la)
    by (apply wrap_size_t_small; lia).
  destruct (captureAll_run sizeof_T C pins n la w (RB.clear b0) [] fuel HC Hst Himpl Hbuf)
    as (b' & Hw & Hrun & Hfast);
    [apply (ring_fresh C); lia|reflexivity|reflexivity|exact Hcells
    |simpl length; lia|lia|exact Hfuel|].
  destruct (fresh_round_trip C (RB.data b0)
              (LA.samples_from sizeof_T pins (pin_reads w) n) HC Hcells)
    as (b1 & rest & Hw1 & Hav1 & Hd1 & _).
  { unfold LA.samples_from. rewrite length_map, length_seq. lia. }
  change (RB.mk 0 C 0 0 0 (RB.data b0)) with (RB.clear b0) in Hw1.
  rewrite Hw in Hw1. injection Hw1 as <-.
  exists b', rest. split; [|split; [exact Hfast|split; [|exact Hd1]]].
  - rewrite Hrun. replace (Z.of_nat n) with (LA.read_count la) by lia. reflexivity.
  - rewrite Hav1. unfold LA.samples_from. rewrite length_map, length_seq. lia.
Qed.

(** X16. [setReadCount] does not limit its argument.  With [read_count]
    (as the [size_t] that [available()] is compared with) above [size()],
    from the status TRIGGERED and a buffer that was just cleared,
    [captureAll] and [captureAllMaxSpeed] fill the cells and then store the
    next sample at [data[size()]], past the last cell.  A negative
    [read_count] is such a value. *)
Theorem capture_loops_overrun_when_read_count_exceeds_size
    (la : LA.t) (w : World) (pins : PinReader) (b0 : RB.t) (count : Z) (fuel : nat) :
  LA.status la = TRIGGERED ->
  LA.impl_ptr la = Some pins ->
  LA.buffer_ptr la = Some (RB.clear b0) ->
  0 < RB.size b0 < 2 ^ 31 ->
  Z.of_nat (length (RB.data b0)) = RB.size b0 ->
  int_min <= count <= int_max ->
  count < 0 \/ RB.size b0 < count ->
  (Z.to_nat (RB.size b0) < fuel)%nat ->
  (LA.setReadCount count;; LA.captureAll sizeof_T fuel) (la, w)
    = Fault (OutOfBounds (RB.size b0))
  /\ (LA.setReadCount count;; LA.captureAllMaxSpeed sizeof_T fuel) (la, w)
     = Fault (OutOfBounds (RB.size b0)).
Proof.
  unfold LA.status, RB.size.
  intros Hst Himpl Hbuf HC Hcells Hint Hcount Hfuel.
  set (C := RB.size_count b0) in *.
  assert (Hover : C < wrap_size_t (LA.read_count (LA.with_read_count count la))).
  { cbn [LA.read_count LA.with_read_count]. unfold wrap_size_t, wrap_bits.
    unfold int_min, int_max in Hint.
    change (2 ^ 32) with 4294967296. change (2 ^ 31) with 2147483648 in *.
    Z.div_mod_to_equations. lia. }
  split;
    [change (LA.captureAll sizeof_T fuel (LA.with_read_count count la, w)
             = Fault (OutOfBounds C))
    |change (LA.captureAllMaxSpeed sizeof_T fuel (LA.with_read_count count la, w)
             = Fault (OutOfBounds C))].
  - apply (sampling_overrun sizeof_T _ LA.delay_time_us (captureAll_body_run sizeof_T)
             C pins (Z.to_nat C) HC _ w (RB.clear b0) [] fuel);
      try assumption; try reflexivity.
    + apply (ring_fresh C). lia.
    + simpl length. lia.
  - apply (sampling_overrun sizeof_T _ (fun _ => 0) (captureAllMaxSpeed_body_run sizeof_T)
             C pins (Z.to_nat C) HC _ w (RB.clear b0) [] fuel);
      try assumption; try reflexivity.
    + apply (ring_fresh C). lia.
    + simpl length. lia.
Qed.

Lemma dumpData_run (la : LA.t) (w : World) (b b' : RB.t) (pins : PinReader)
    (vs : list Z) (fuel : nat) :
  LA.buffer_ptr la = Some b -> LA.impl_ptr la = Some pins ->
  RB.drain b = Ok (vs, b') ->
  (Z.to_nat (RB.available b) < fuel)%nat ->
  LA.dumpData host fuel (la, w) =
    Ok (tt, (LA.with_buffer_ptr (Some b') la,
             with_tx (tx w ++ map (LA.dump_word host) vs ++ [SFlush]) w)).
Proof.
  intros Hbuf Himpl Hdrain Hfuel.
  unfold LA.dumpData. rewrite bind_run, (buffer_available_run la w b Hbuf).
  rewrite bind_run. unfold LA.get_la at 1. cbn [fst].
  rewrite Hbuf, Himpl. rewrite bind_run.
  unfold RB.drain in Hdrain.
  rewrite (dump_loop_drains host _ b b' vs la w fuel Hdrain); [| |assumption|assumption].
  - unfold LA.stream_call, LA.update_world. cbn [fst snd].
    f_equal. f_equal. f_equal. unfold with_tx; simpl.
    now rewrite <- app_assoc.
  - unfold RB.available. lia.
Qed.

Lemma capture_buffer_clears (la : LA.t) (w : World) (b : RB.t) :
  LA.buffer_ptr la = Some b ->
  LA.read_count la = LA.delay_count la ->
  LA.capture_buffer (la, w) =
    Ok (tt, (LA.with_buffer_ptr (Some (RB.clear b)) la, w)).
Proof.
  intros Hbuf Hsame. unfold LA.capture_buffer. rewrite bind_run.
  unfold LA.get_la at 1. cbn [fst].
  replace (LA.read_count la - LA.delay_count la) with 0 by lia.
  change (in_int_range 0) with true. cbn [negb]. rewrite bind_run.
  change (0 <? 0) with false. cbv iota. unfold mret at 1, LA.M_ret at 1.
  change (0 =? 0) with true. cbv iota.
  apply (buffer_clear_run la w b Hbuf).
Qed.

(** The windowing step and the sampling of a batch capture with
    [read_count = delay_count], from the status TRIGGERED. *)
Lemma capture_batch_run (fuel : nat) (is_max_speed : bool)
    (la : LA.t) (w : World) (b : RB.t) (pins : PinReader) :
  LA.status_value la = TRIGGERED ->
  LA.buffer_ptr la = Some b -> LA.impl_ptr la = Some pins ->
  LA.is_continuous_capture la = false ->
  LA.read_count la = LA.delay_count la ->
  0 < RB.size b < 2 ^ 31 ->
  Z.of_nat (length (RB.data b)) = RB.size b ->
  0 <= LA.read_count la <= RB.size b ->
  (Z.to_nat (LA.read_count la) < fuel)%nat ->
  exists (w' : World) (b' : RB.t),
    (LA.capture_buffer;; LA.capture_start sizeof_T host fuel is_max_speed true) (la, w) =
      Ok (tt, (LA.with_buffer_ptr (Some b') (LA.with_status_value STOPPED la), w'))
    /\ RB.available b' = 0
    /\ tx w' =
         tx w ++ map (LA.dump_word host)
                   (LA.samples_from sizeof_T pins (pin_reads w)
                      (Z.to_nat (LA.read_count la)))
              ++ [SFlush]
    /\ pin_reads w' = (pin_reads w + Z.to_nat (LA.read_count la))%nat
    /\ events w' =
         events w ++ match LA.eventHandler la with
                     | Some _ => [STATUS]
                     | None => []
                     end
    /\ waited_us w' =
         waited_us w + (if is_max_speed then 0
                        else LA.read_count la * LA.delay_time_us la)
    /\ rx w' = rx w.
Proof.
  intros Hst Hbuf Himpl Hcont Hsame HC Hcells Hcount Hfuel.
  rewrite bind_run, (capture_buffer_clears _ _ b) by assumption.
  set (la3 := LA.with_buffer_ptr (Some (RB.clear b)) la).
  set (C := RB.size b) in *. set (n := Z.to_nat (LA.read_count la)) in *.
  set (vs := LA.samples_from sizeof_T pins (pin_reads w) n).
  assert (Hwrap : wrap_size_t (LA.read_count la3) = LA.read_count la)
    by (apply wrap_size_t_small; unfold RB.size in *; lia).
  destruct (captureAll_run sizeof_T C pins n la3 w (RB.clear b) [] fuel HC)
    as (b1 & Hw & Hslow & Hfast);
    [exact Hst|exact Himpl|reflexivity|apply (ring_fresh C); lia|reflexivity
    |reflexivity|exact Hcells|simpl length; lia|lia|exact Hfuel|].
  fold vs in Hw.
  destruct (fresh_round_trip C (RB.data b) vs HC Hcells)
    as (b1' & b2 & Hw1 & Hav1 & Hd1 & Hav2 & _).
  { unfold vs, LA.samples_from. rewrite length_map, length_seq. lia. }
  change (RB.mk 0 C 0 0 0 (RB.data b)) with (RB.clear b) in Hw1.
  rewrite Hw in Hw1. injection Hw1 as <-.
  assert (Hdump : forall (la4 : LA.t) (w4 : World),
            LA.buffer_ptr la4 = Some b1 -> LA.impl_ptr la4 = Some pins ->
            LA.dumpData host fuel (la4, w4) =
              Ok (tt, (LA.with_buffer_ptr (Some b2) la4,
                       with_tx (tx w4 ++ map (LA.dump_word host) vs ++ [SFlush]) w4))).
  { intros la4 w4 Hb4 Hi4. apply (dumpData_run la4 w4 b1 b2 pins vs fuel Hb4 Hi4 Hd1).
    rewrite Hav1. unfold vs, LA.samples_from. rewrite length_map, length_seq. lia. }
  unfold LA.capture_start. rewrite bind_run. unfold LA.get_la at 1. cbn [fst].
  change (LA.is_continuous_capture la3) with (LA.is_continuous_capture la).
  rewrite Hcont.
  replace (Z.of_nat n) with (LA.read_count la) in Hslow by (unfold n; lia).
  change (LA.delay_time_us la3) with (LA.delay_time_us la) in Hslow.
  destruct is_max_speed.
  - rewrite bind_run, Hfast. rewrite bind_run, setStatus_run.
    rewrite bind_run, (buffer_available_run _ _ b1) by reflexivity.
    rewrite Hdump by (reflexivity || exact Himpl).
    eexists _, b2. split; [reflexivity|]. split; [exact Hav2|].
    unfold LA.notified.
    destruct (LA.eventHandler la) eqn:Hh; cbn; rewrite ?Hh; cbn;
      rewrite <- ?app_assoc; repeat split; rewrite ?app_nil_r; try reflexivity; lia.
  - rewrite bind_run, Hslow. rewrite bind_run, setStatus_run.
    rewrite bind_run, (buffer_available_run _ _ b1) by reflexivity.
    rewrite Hdump by (reflexivity || exact Himpl).
    eexists _, b2. split; [reflexivity|]. split; [exact Hav2|].
    unfold LA.notified.
    destruct (LA.eventHandler la) eqn:Hh; cbn; rewrite ?Hh; cbn;
      rewrite <- ?app_assoc; repeat split; rewrite ?app_nil_r; try reflexivity; lia.
Qed.

(** X17. ARM in batch mode with no trigger and [read_count = delay_count]
    (the setting after [begin]): the buffer is cleared, [read_count]
    samples are taken, the status ends as STOPPED, and the samples are sent
    in the order in which they were taken, each as one write of four bytes,
    followed by a flush; the buffer is empty afterwards.  The status
    changes three times (ARMED, TRIGGERED, STOPPED), each raising STATUS.
    At or above the threshold frequency there is no pause between samples,
    below it [delay_time_us] microseconds after each. *)
Theorem arm_command_captures_and_dumps
    (fuel : nat) (la : LA.t) (w : World) (b : RB.t) (pins : PinReader) :
  LA.buffer_ptr la = Some b -> LA.impl_ptr la = Some pins ->
  LA.isContinuousCapture la = false ->
  LA.triggerMask la = 0 ->
  LA.readCount la = LA.delayCount la ->
  0 < RB.size b < 2 ^ 31 ->
  Z.of_nat (length (RB.data b)) = RB.size b ->
  0 <= LA.readCount la <= RB.size b ->
  (Z.to_nat (LA.readCount la) < fuel)%nat ->
  exists (w' : World) (b' : RB.t),
    LA.processCommand sizeof_T host fuel SUMP_ARM (la, w) =
      Ok (tt, (LA.with_buffer_ptr (Some b') (LA.with_status_value STOPPED la), w'))
    /\ RB.available b' = 0
    /\ tx w' =
         tx w ++ map (LA.dump_word host)
                   (LA.samples_from sizeof_T pins (pin_reads w)
                      (Z.to_nat (LA.readCount la)))
              ++ [SFlush]
    /\ pin_reads w' = (pin_reads w + Z.to_nat (LA.readCount la))%nat
    /\ events w' =
         events w ++ match LA.eventHandler la with
                     | Some _ => [STATUS; STATUS; STATUS]
                     | None => []
                     end
    /\ waited_us w' =
         waited_us w + (if LA.max_frequecy_threshold la <=? LA.captureFrequency la
                        then 0 else LA.readCount la * LA.delayTimeUs la)
    /\ rx w' = rx w.
Proof.
  unfold LA.isContinuousCapture, LA.triggerMask, LA.readCount, LA.delayCount,
    LA.captureFrequency, LA.delayTimeUs.
  intros Hbuf Himpl Hcont Hmask Hsame HC Hcells Hcount Hfuel.
  dispatch SUMP_ARM.
  rewrite bind_run, setStatus_run. unfold LA.capture.
  rewrite bind_run, (capture_trigger_unmasked sizeof_T host) by exact Hmask.
  set (la2 := LA.with_status_value TRIGGERED (LA.with_status_value ARMED la)).
  set (w2 := LA.notified STATUS (LA.with_status_value ARMED la) (LA.notified STATUS la w)).
  destruct (capture_batch_run fuel (LA.max_frequecy_threshold la <=? LA.frequecy_value la)
              la2 w2 b pins)
    as (w' & b' & Hrun & Hav & Htx & Hreads & Hev & Hwait & Hrx);
    try assumption; try reflexivity.
  exists w', b'. split; [exact Hrun|]. split; [exact Hav|].
  rewrite Htx, Hreads, Hev, Hwait, Hrx. unfold w2, LA.notified.
  destruct (LA.eventHandler la) eqn:Hh; cbn; rewrite ?Hh; cbn;
    rewrite <- ?app_assoc; repeat split.
Qed.

(** X18. ARM in batch mode with a trigger mask and
    [read_count = delay_count]: the samples are read one after the other
    until one matches the trigger; that sample and those before it are not
    recorded.  The capture consists of the [read_count] samples that follow
    the matching one, sent in order and followed by a flush; the status
    ends as STOPPED. *)
Theorem arm_command_records_after_the_trigger_sample
    (fuel : nat) (la : LA.t) (w : World) (b : RB.t) (pins : PinReader) (k : nat) :
  LA.buffer_ptr la = Some b -> LA.impl_ptr la = Some pins ->
  LA.isContinuousCapture la = false ->
  LA.triggerMask la <> 0 ->
  LA.trigger_hit la (LA.sample_at sizeof_T pins (pin_reads w + k)) ->
  (forall j, (j < k)%nat ->
     ~ LA.trigger_hit la (LA.sample_at sizeof_T pins (pin_reads w + j))) ->
  LA.readCount la = LA.delayCount la ->
  0 < RB.size b < 2 ^ 31 ->
  Z.of_nat (length (RB.data b)) = RB.size b ->
  0 <= LA.readCount la <= RB.size b ->
  (Z.to_nat (LA.readCount la) < fuel)%nat -> (k < fuel)%nat ->
  exists (w' : World) (b' : RB.t),
    LA.processCommand sizeof_T host fuel SUMP_ARM (la, w) =
      Ok (tt, (LA.with_buffer_ptr (Some b') (LA.with_status_value STOPPED la), w'))
    /\ RB.available b' = 0
    /\ tx w' =
         tx w ++ map (LA.dump_word host)
                   (LA.samples_from sizeof_T pins (S (pin_reads w + k))
                      (Z.to_nat (LA.readCount la)))
              ++ [SFlush]
    /\ pin_reads w' = (S (pin_reads w + k) + Z.to_nat (LA.readCount la))%nat.
Proof.
  unfold LA.isContinuousCapture, LA.triggerMask, LA.readCount, LA.delayCount.
  intros Hbuf Himpl Hcont Hmask Hhit Hbefore Hsame HC Hcells Hcount Hfuel Hk.
  dispatch SUMP_ARM.
  rewrite bind_run, setStatus_run. unfold LA.capture.
  set (la1 := LA.with_status_value ARMED la). set (w1 := LA.notified STATUS la w).
  assert (Hreads1 : pin_reads w1 = pin_reads w)
    by (destruct (notified_frame STATUS la w) as (_ & _ & Hr & _); exact Hr).
  assert (Htx1 : tx w1 = tx w)
    by (destruct (notified_frame STATUS la w) as (_ & Ht & _); exact Ht).
  rewrite bind_run, (capture_trigger_masked sizeof_T host) by exact Hmask.
  destruct (trigger_wait_complete sizeof_T host k la1 pins Himpl eq_refl w1 fuel)
    as (w2 & Hwait & Hreads2); [rewrite Hreads1; exact Hhit| |exact Hk|].
  { intros j Hj. rewrite Hreads1. apply Hbefore. exact Hj. }
  destruct (trigger_wait_sound sizeof_T host fuel la1 w1 pins _ Himpl eq_refl Hwait)
    as (w2' & k' & Heq & _ & _ & _ & Hw2).
  injection Heq as <-. specialize (Hw2 Hcont).
  rewrite Hwait, setStatus_run.
  set (la2 := LA.with_status_value TRIGGERED la1).
  set (w3 := LA.notified STATUS la1 w2).
  assert (Hreads3 : pin_reads w3 = S (pin_reads w + k)).
  { unfold w3. destruct (notified_frame STATUS la1 w2) as (_ & _ & -> & _).
    rewrite Hreads2, Hreads1. reflexivity. }
  assert (Htx3 : tx w3 = tx w).
  { unfold w3. destruct (notified_frame STATUS la1 w2) as (_ & -> & _).
    rewrite Hw2. exact Htx1. }
  destruct (capture_batch_run fuel (LA.max_frequecy_threshold la <=? LA.frequecy_value la)
              la2 w3 b pins)
    as (w' & b' & Hrun & Hav & Htx & Hreads & _);
    try assumption; try reflexivity.
  exists w', b'. split; [exact Hrun|]. split; [exact Hav|].
  rewrite Htx, Hreads, Hreads3, Htx3. split; reflexivity.
Qed.

(** X19. [begin] followed by ARM, on an analyzer fresh from its
    constructor and with the allocation of the buffer succeeding: ARM
    takes exactly [maxCaptureSize] samples, sends them in order, each as
    one write of four bytes, and a flush, and leaves the status STOPPED
    and the buffer empty.  This holds whatever the members without an
    initializer (the frequency and the delay among them) hold. *)
Theorem begin_then_arm_captures_max_capture_size
    (fuel : nat) (indeterminate : LA.t) (w : World) (impl : PinReader)
    (maxCaptureFreq maxCaptureFreqThreshold maxCaptureSize pinStart numberOfPins : Z)
    (content : nat -> Z) :
  0 < maxCaptureSize < 2 ^ 31 ->
  (Z.to_nat maxCaptureSize < fuel)%nat ->
  exists (la' : LA.t) (w' : World) (b' : RB.t),
    (LA.begin impl maxCaptureFreq maxCaptureFreqThreshold maxCaptureSize
       pinStart numberOfPins (Some content);;
     LA.processCommand sizeof_T host fuel SUMP_ARM) (LA.new indeterminate, w) =
      Ok (tt, (la', w'))
    /\ LA.status la' = STOPPED
    /\ LA.buffer_ptr la' = Some b' /\ RB.available b' = 0
    /\ tx w' =
         tx w ++ map (LA.dump_word host)
                   (LA.samples_from sizeof_T impl (pin_reads w) (Z.to_nat maxCaptureSize))
              ++ [SFlush]
    /\ pin_reads w' = (pin_reads w + Z.to_nat maxCaptureSize)%nat.
Proof.
  intros Hsize Hfuel.
  assert (Hint : to_int maxCaptureSize = maxCaptureSize).
  { unfold to_int. rewrite wrap_size_t_small by lia.
    destruct (Z.ltb_spec maxCaptureSize (2 ^ 31)); [reflexivity|lia]. }
  rewrite bind_run. unfold LA.begin.
  rewrite bind_run. unfold LA.update_la at 1. cbn [fst snd].
  rewrite setStatus_run, Hint.
  match goal with
  | |- context [LA.processCommand _ _ _ _ (?a, ?x)] => set (la1 := a); set (w1 := x)
  end.
  assert (Hbuf : LA.buffer_ptr la1 = Some (RB.new maxCaptureSize (Some content)))
    by reflexivity.
  assert (Himpl : LA.impl_ptr la1 = Some impl) by reflexivity.
  dispatch SUMP_ARM.
  rewrite bind_run, setStatus_run. unfold LA.capture.
  rewrite bind_run, (capture_trigger_unmasked sizeof_T host) by reflexivity.
  match goal with
  | |- context [(LA.capture_buffer;; _) (?a, ?x)] => set (la2 := a); set (w2 := x)
  end.
  destruct (capture_batch_run fuel
              (LA.max_frequecy_threshold la1 <=? LA.frequecy_value la1)
              la2 w2 (RB.new maxCaptureSize (Some content)) impl)
    as (w' & b' & Hrun & Hav & Htx & Hreads & _);
    try reflexivity.
  - exact Hsize.
  - apply (new_cells maxCaptureSize content). lia.
  - change (0 <= maxCaptureSize <= maxCaptureSize). lia.
  - exact Hfuel.
  - eexists _, w', b'. split; [exact Hrun|]. split; [reflexivity|].
    split; [reflexivity|]. split; [exact Hav|].
    rewrite Htx, Hreads. unfold w2, w1.
    repeat match goal with
           | |- context [LA.notified ?e ?a ?x] =>
               destruct (notified_frame e a x) as (_ & -> & -> & _)
           end.
    split; reflexivity.
Qed.

(** One pass through the body of the continuous loops changes the world
    only. *)
Lemma captureSampleFastContinuous_run (la : LA.t) (w : World) (pins : PinReader) :
  LA.impl_ptr la = Some pins ->
  exists w', LA.captureSampleFastContinuous sizeof_T host (la, w) = Ok (tt, (la, w')).
Proof.
  intros Himpl. unfold LA.captureSampleFastContinuous.
  rewrite bind_run, (readAll_run sizeof_T la w pins Himpl).
  unfold LA.write, LA.stream_call, LA.update_world. cbn [fst snd].
  eexists. reflexivity.
Qed.

Lemma continuous_loop_starves (body : LA.M unit) (la : LA.t) :
  LA.status_value la = TRIGGERED ->
  (forall w, exists w', body (la, w) = Ok (tt, (la, w'))) ->
  forall (fuel : nat) (w : World),
  LA.while fuel LA.is_triggered body (la, w) = Fault OutOfFuel.
Proof.
  intros Hst Hbody. induction fuel as [|fuel IH]; intros w; [reflexivity|].
  cbn [LA.while]. rewrite bind_run. unfold LA.is_triggered.
  rewrite bind_run. unfold LA.get_la at 1. cbn [fst]. rewrite Hst.
  unfold mret at 1, LA.M_ret at 1. rewrite bind_run.
  destruct (Hbody w) as (w' & ->). apply IH.
Qed.

(** X20. The loops of a continuous capture test nothing but
    [status_value == TRIGGERED], and nothing in their body changes the
    status: once entered they do not end, whatever the fuel.  So ARM with
    continuous capture on (here with no trigger and
    [read_count = delay_count]) does not return to the caller: no later
    command is processed. *)
Theorem continuous_capture_never_returns
    (fuel : nat) (la : LA.t) (w : World) (b : RB.t) (pins : PinReader) :
  LA.buffer_ptr la = Some b -> LA.impl_ptr la = Some pins ->
  (LA.status la = TRIGGERED ->
   LA.captureAllContinous sizeof_T host fuel (la, w) = Fault OutOfFuel
   /\ LA.captureAllContinousMaxSpeed sizeof_T host fuel (la, w) = Fault OutOfFuel)
  /\ (LA.isContinuousCapture la = true -> LA.triggerMask la = 0 ->
      LA.readCount la = LA.delayCount la ->
      LA.processCommand sizeof_T host fuel SUMP_ARM (la, w) = Fault OutOfFuel).
Proof.
  unfold LA.status, LA.isContinuousCapture, LA.triggerMask, LA.readCount, LA.delayCount.
  intros Hbuf Himpl.
  assert (Hslow : forall (la0 : LA.t) (w0 : World),
            LA.impl_ptr la0 = Some pins ->
            exists w', (LA.captureSampleFastContinuous sizeof_T host;;
                        la1 ← LA.get_la; LA.delayMicroseconds (LA.delay_time_us la1))
                         (la0, w0) = Ok (tt, (la0, w'))).
  { intros la0 w0 Hi. rewrite bind_run.
    destruct (captureSampleFastContinuous_run la0 w0 pins Hi) as (w1 & ->).
    unfold LA.delayMicroseconds. run. eexists. reflexivity. }
  split.
  - intros Hst. split.
    + apply continuous_loop_starves; [exact Hst|]. intros w0. apply Hslow. exact Himpl.
    + apply continuous_loop_starves; [exact Hst|]. intros w0.
      apply (captureSampleFastContinuous_run la w0 pins Himpl).
  - intros Hcont Hmask Hsame. dispatch SUMP_ARM.
    rewrite bind_run, setStatus_run. unfold LA.capture.
    rewrite bind_run, (capture_trigger_unmasked sizeof_T host) by exact Hmask.
    rewrite bind_run, (capture_buffer_clears _ _ b) by assumption.
    unfold LA.capture_start. rewrite bind_run. unfold LA.get_la at 1. cbn [fst].
    match goal with
    | |- context [LA.is_continuous_capture ?x] =>
        change (LA.is_continuous_capture x) with (LA.is_continuous_capture la)
    end.
    rewrite Hcont.
    destruct (LA.max_frequecy_threshold la <=? LA.frequecy_value la).
    + apply continuous_loop_starves; [reflexivity|]. intros w0.
      apply (captureSampleFastContinuous_run _ w0 pins). exact Himpl.
    + apply continuous_loop_starves; [reflexivity|]. intros w0.
      apply Hslow. exact Himpl.
Qed.

(** X21. [capture] is public and, unlike [processCommand], does not test
    [buffer_ptr] and [impl_ptr]: called before [begin] it goes through a
    null pointer, in the trigger wait ([impl_ptr->readAll()]) when a mask
    is set and in the windowing step ([buffer_ptr->available()] or
    [buffer_ptr->clear()]) when none is. *)
Theorem capture_before_begin_faults
    (fuel : nat) (is_max_speed is_dump : bool) (la : LA.t) (w : World) :
  LA.buffer_ptr la = None -> LA.impl_ptr la = None ->
  (0 < fuel)%nat ->
  int_min < LA.readCount la - LA.delayCount la <= int_max ->
  LA.capture sizeof_T host fuel is_max_speed is_dump (la, w) = Fault NullPointer.
Proof.
  unfold LA.readCount, LA.delayCount.
  intros Hbuf Himpl Hfuel Hkeep. unfold LA.capture. rewrite bind_run.
  destruct (Z.eq_dec (LA.trigger_mask la) 0) as [Hmask|Hmask].
  - rewrite (capture_trigger_unmasked sizeof_T host) by exact Hmask.
    rewrite bind_run. unfold LA.capture_buffer. rewrite bind_run.
    unfold LA.get_la at 1. cbn [fst].
    change (LA.read_count (LA.with_status_value TRIGGERED la)) with (LA.read_count la).
    change (LA.delay_count (LA.with_status_value TRIGGERED la)) with (LA.delay_count la).
    set (keep := LA.read_count la - LA.delay_count la) in *.
    assert (Hrange : in_int_range keep = true).
    { unfold in_int_range, int_min, int_max in *. apply andb_true_intro.
      split; apply Z.leb_le; lia. }
    rewrite Hrange. cbn [negb].
    assert (Hnull : forall w0, LA.buffer (LA.with_status_value TRIGGERED la, w0)
                               = Fault NullPointer).
    { intros w0. unfold LA.buffer. rewrite bind_run. unfold LA.get_la. cbn [fst].
      change (LA.buffer_ptr (LA.with_status_value TRIGGERED la)) with (LA.buffer_ptr la).
      rewrite Hbuf. reflexivity. }
    rewrite bind_run.
    destruct (Z.ltb_spec 0 keep) as [Hpos|Hnpos].
    + rewrite bind_run. unfold LA.buffer_available. rewrite bind_run, Hnull. reflexivity.
    + unfold mret at 1, LA.M_ret at 1.
      destruct (Z.ltb_spec keep 0) as [Hneg|Hnneg].
      * destruct (Z.eqb_spec keep int_min) as [Hmin|_];
          [unfold int_min in *; lia|].
        rewrite bind_run. unfold LA.buffer_available. rewrite bind_run, Hnull. reflexivity.
      * destruct (Z.eqb_spec keep 0); [|lia].
        unfold LA.buffer_clear. rewrite bind_run, Hnull. reflexivity.
  - rewrite (capture_trigger_masked sizeof_T host) by exact Hmask.
    destruct fuel as [|fuel]; [lia|]. cbn [LA.while]. rewrite bind_run.
    unfold LA.trigger_mismatch, LA.captureSample. rewrite !bind_run.
    unfold LA.readAll. rewrite !bind_run. unfold LA.get_la at 1, LA.get_world at 1.
    cbn [fst snd]. rewrite Himpl. reflexivity.
Qed.

(** X22. [reset()] on an analyzer whose buffer has [max_capture_size]
    cells, as after [begin]: the status becomes STOPPED, every cell is
    zero, the buffer is empty with its cursors and its pending skip at 0,
    and the events STATUS and RESET are raised in this order.  With fewer
    cells than [max_capture_size], as after a failed allocation, the
    [memset] runs past the last cell. *)
Theorem reset_zeroes_and_empties_buffer (la : LA.t) (w : World) (b : RB.t) :
  LA.buffer_ptr la = Some b ->
  (Z.of_nat (length (RB.data b)) = LA.max_capture_size la ->
   LA.reset (la, w) =
     Ok (tt, (LA.with_buffer_ptr
                (Some (RB.mk 0 (RB.size b) 0 0 0
                         (replicate (length (RB.data b)) 0)))
                (LA.with_status_value STOPPED la),
              LA.notified RESET la (LA.notified STATUS la w))))
  /\ (Z.of_nat (length (RB.data b)) < LA.max_capture_size la ->
      LA.reset (la, w) = Fault (OutOfBounds (Z.of_nat (length (RB.data b))))).
Proof.
  intros Hbuf. unfold LA.reset, LA.setStatus, LA.raiseEvent, LA.buffer_clear, LA.buffer.
  run. cbn [LA.buffer_ptr LA.max_capture_size LA.with_status_value].
  rewrite Hbuf.
  split; intros Hcells.
  - destruct (Z.ltb_spec (Z.of_nat (length (RB.data b))) (LA.max_capture_size la)); [lia|].
    cbn. rewrite <- Hcells, Nat2Z.id.
    rewrite drop_all, app_nil_r. reflexivity.
  - destruct (Z.ltb_spec (Z.of_nat (length (RB.data b))) (LA.max_capture_size la)); [|lia].
    reflexivity.
Qed.

End Capture.

(** ** The further properties at concrete inputs *)

Lemma commands_before_begin_are_ignored_witness :
  (LA.buffer_ptr (LA.new blank) = None \/ LA.impl_ptr (LA.new blank) = None)
  /\ LA.processCommand 1 LittleEndian 5 SUMP_SET_DIVIDER
       (LA.new blank, world_with [0; 0; 0; 99])
     = Ok (tt, (LA.new blank, world_with [0; 0; 0; 99])).
Proof.
  assert (Hnull : LA.buffer_ptr (LA.new blank) = None \/ LA.impl_ptr (LA.new blank) = None)
    by (left; reflexivity).
  split; [exact Hnull|].
  exact (commands_before_begin_are_ignored 1 LittleEndian 5 SUMP_SET_DIVIDER
           (LA.new blank) (world_with [0; 0; 0; 99]) Hnull).
Defined.

Lemma unknown_command_is_ignored_witness :
  ~ In SUMP_XON [SUMP_RESET; SUMP_ID; SUMP_GET_METADATA; SUMP_ARM; SUMP_TRIGGER_MASK;
                 SUMP_TRIGGER_VALUES; SUMP_TRIGGER_CONFIG; SUMP_SET_DIVIDER;
                 SUMP_SET_READ_DELAY_COUNT; SUMP_SET_FLAGS]
  /\ 0 <= SUMP_XON < 256
  /\ LA.processCommand 1 LittleEndian 5 SUMP_XON (ready_example, world_with [])
     = Ok (tt, (ready_example, world_with []))
  /\ LA.stream_ptr ready_example = Some ProcessingStream
  /\ LA.processCommand_next 1 LittleEndian 5 (ready_example, world_with [SUMP_XON])
     = Ok (tt, (ready_example, world_with []))
  /\ LA.stream_ptr (LA.new blank) = None
  /\ LA.processCommand_next 1 LittleEndian 5 (LA.new blank, world_with [SUMP_XON])
     = Fault NullPointer.
Proof.
  assert (Hcmd : ~ In SUMP_XON
                     [SUMP_RESET; SUMP_ID; SUMP_GET_METADATA; SUMP_ARM; SUMP_TRIGGER_MASK;
                      SUMP_TRIGGER_VALUES; SUMP_TRIGGER_CONFIG; SUMP_SET_DIVIDER;
                      SUMP_SET_READ_DELAY_COUNT; SUMP_SET_FLAGS])
    by (vm_compute; lia).
  assert (Hbyte : 0 <= SUMP_XON < 256) by (unfold SUMP_XON; lia).
  split; [exact Hcmd|]. split; [exact Hbyte|].
  destruct (unknown_command_is_ignored 1 LittleEndian 5 SUMP_XON ready_example
              (world_with []) Hcmd Hbyte) as (Hint & Hnext & _).
  split; [exact Hint|]. split; [reflexivity|].
  split; [exact (Hnext ProcessingStream eq_refl)|]. split; [reflexivity|].
  exact (proj2 (proj2 (unknown_command_is_ignored 1 LittleEndian 5 SUMP_XON (LA.new blank)
                         (world_with []) Hcmd Hbyte)) eq_refl).
Defined.

Lemma id_command_sends_device_id_witness :
  LA.buffer_ptr ready_example = Some two_unread
  /\ LA.impl_ptr ready_example = Some counting_pins
  /\ LA.processCommand 1 LittleEndian 5 SUMP_ID (ready_example, world_with [])
     = Ok (tt, (ready_example,
                with_tx (tx (world_with []) ++ [SWriteBuffer [49; 65; 76; 83]; SFlush])
                  (world_with []))).
Proof.
  split; [reflexivity|]. split; [reflexivity|].
  exact (id_command_sends_device_id 1 LittleEndian 5 ready_example (world_with [])
           two_unread counting_pins eq_refl eq_refl).
Defined.

Lemma metadata_command_reply_witness :
  LA.buffer_ptr ready_example = Some two_unread
  /\ LA.impl_ptr ready_example = Some counting_pins
  /\ sent (LA.processCommand 1 LittleEndian 5 SUMP_GET_METADATA
             (ready_example, world_with []))
     = Some [SWrite 1; SPrint [65; 82; 68; 85; 73; 78; 79]; SWriteBuffer [0]; SFlush;
             SWrite 32; SWriteBuffer [0; 0; 0; 8]; SFlush;
             SWrite 33; SWriteBuffer [0; 0; 0; 4]; SFlush;
             SWrite 35; SWriteBuffer [0; 3; 208; 144]; SFlush;
             SWriteBuffer [65; 2; 0]; SFlush].
Proof.
  split; [reflexivity|]. split; [reflexivity|].
  rewrite (metadata_command_reply 1 LittleEndian 5 ready_example (world_with [])
             two_unread counting_pins eq_refl eq_refl).
  reflexivity.
Defined.

Lemma read_delay_count_command_witness :
  LA.buffer_ptr ready_example = Some two_unread
  /\ LA.impl_ptr ready_example = Some counting_pins
  /\ length (LA.cmd4 ready_example) = 4%nat
  /\ rx (world_with [0; 2; 1; 0]) = [0; 2; 1; 0]
  /\ 0 <= 0 < 256 /\ 0 <= 2 < 256 /\ 0 <= 1 < 256
  /\ 0 <= LA.max_capture_size ready_example < 2 ^ 32
  /\ exists la' w',
       LA.processCommand 1 LittleEndian 5 SUMP_SET_READ_DELAY_COUNT
         (ready_example, world_with [0; 2; 1; 0]) = Ok (tt, (la', w'))
       /\ LA.readCount la' = 2 /\ LA.delayCount la' = 4 /\ rx w' = [].
Proof.
  assert (H0 : 0 <= 0 < 256) by lia.
  assert (H2 : 0 <= 2 < 256) by lia.
  assert (H1 : 0 <= 1 < 256) by lia.
  assert (Hmax : 0 <= LA.max_capture_size ready_example < 2 ^ 32) by (simpl; lia).
  split; [reflexivity|]. split; [reflexivity|]. split; [reflexivity|].
  split; [reflexivity|]. split; [exact H0|]. split; [exact H2|]. split; [exact H1|].
  split; [exact Hmax|].
  destruct (read_delay_count_command 1 LittleEndian 5 ready_example
              (world_with [0; 2; 1; 0]) two_unread counting_pins 0 2 1 0 []
              eq_refl eq_refl eq_refl eq_refl H0 H2 H1 H0 Hmax)
    as (la' & w' & Hrun & Hla & _ & _ & Hrx & _).
  exists la', w'. split; [exact Hrun|]. rewrite Hla.
  split; [reflexivity|]. split; [reflexivity|exact Hrx].
Defined.

Lemma flags_command_sets_continuous_capture_witness :
  LA.buffer_ptr ready_example = Some two_unread
  /\ LA.impl_ptr ready_example = Some counting_pins
  /\ length (LA.cmd4 ready_example) = 4%nat
  /\ rx (world_with [0; 64; 0; 0]) = [0; 64; 0; 0]
  /\ exists la' w',
       LA.processCommand 1 LittleEndian 5 SUMP_SET_FLAGS
         (ready_example, world_with [0; 64; 0; 0]) = Ok (tt, (la', w'))
       /\ LA.isContinuousCapture la' = true /\ events w' = [FLAGS].
Proof.
  split; [reflexivity|]. split; [reflexivity|]. split; [reflexivity|].
  split; [reflexivity|].
  destruct (flags_command_sets_continuous_capture 1 LittleEndian 5 ready_example
              (world_with [0; 64; 0; 0]) two_unread counting_pins 0 64 0 0 []
              eq_refl eq_refl eq_refl eq_refl)
    as (w' & Hrun & _ & _ & Hev).
  eexists _, w'. split; [exact Hrun|]. split; [reflexivity|exact Hev].
Defined.

Lemma trigger_commands_decode_argument_witness :
  LA.buffer_ptr ready_example = Some two_unread
  /\ LA.impl_ptr ready_example = Some counting_pins
  /\ length (LA.cmd4 ready_example) = 4%nat
  /\ rx (world_with [1; 2; 0; 0]) = [1; 2; 0; 0]
  /\ 0 <= 1 < 256 /\ 0 <= 2 < 256 /\ 0 <= 0 < 256
  /\ (2 = 1 \/ 2 = 2 \/ 2 = 4)
  /\ exists la' w',
       LA.processCommand 2 LittleEndian 5 SUMP_TRIGGER_MASK
         (ready_example, world_with [1; 2; 0; 0]) = Ok (tt, (la', w'))
       /\ LA.triggerMask la' = 258.
Proof.
  assert (H1 : 0 <= 1 < 256) by lia.
  assert (H2 : 0 <= 2 < 256) by lia.
  assert (H0 : 0 <= 0 < 256) by lia.
  assert (HT : 2 = 1 \/ 2 = 2 \/ 2 = 4) by (right; left; reflexivity).
  split; [reflexivity|]. split; [reflexivity|]. split; [reflexivity|].
  split; [reflexivity|]. split; [exact H1|]. split; [exact H2|]. split; [exact H0|].
  split; [exact HT|].
  destruct (trigger_commands_decode_argument 2 LittleEndian 5 ready_example
              (world_with [1; 2; 0; 0]) two_unread counting_pins 1 2 0 0 []
              eq_refl eq_refl eq_refl eq_refl H1 H2 H0 H0 HT)
    as [(w' & Hrun & _) _].
  eexists _, w'. split; [exact Hrun|]. reflexivity.
Defined.

Lemma setCaptureFrequency_delay_witness :
  0 < 3 < 2 ^ 64
  /\ timing (LA.setCaptureFrequency 3 (ready_example, world_with []))
     = Some (3, 333332).
Proof.
  assert (Hf : 0 < 3 < 2 ^ 64) by lia.
  split; [exact Hf|].
  rewrite (proj1 (setCaptureFrequency_delay 3 ready_example (world_with []) Hf)).
  reflexivity.
Defined.

Lemma set_divider_out_of_range_faults_witness :
  LA.buffer_ptr ready_example = Some two_unread
  /\ LA.impl_ptr ready_example = Some counting_pins
  /\ length (LA.cmd4 ready_example) = 4%nat
  /\ rx (world_with [255; 255; 255; 255]) = be_bytes 4 (2 ^ 32 - 1) ++ []
  /\ 100000000 <= 2 ^ 32 - 1 < 2 ^ 32
  /\ LA.processCommand 1 LittleEndian 5 SUMP_SET_DIVIDER
       (ready_example, world_with [255; 255; 255; 255]) = Fault DivisionByZero.
Proof.
  assert (Hd : 100000000 <= 2 ^ 32 - 1 < 2 ^ 32) by lia.
  split; [reflexivity|]. split; [reflexivity|]. split; [reflexivity|].
  split; [reflexivity|]. split; [exact Hd|].
  exact (set_divider_out_of_range_faults 1 LittleEndian 5 ready_example
           (world_with [255; 255; 255; 255]) two_unread counting_pins (2 ^ 32 - 1) []
           eq_refl eq_refl eq_refl eq_refl Hd).
Defined.

Lemma capture_loops_take_read_count_samples_witness :
  LA.status sampling_example = TRIGGERED
  /\ LA.impl_ptr sampling_example = Some counting_pins
  /\ LA.buffer_ptr sampling_example = Some (RB.clear two_unread)
  /\ 0 < RB.size two_unread < 2 ^ 31
  /\ Z.of_nat (length (RB.data two_unread)) = RB.size two_unread
  /\ 0 <= LA.readCount sampling_example <= RB.size two_unread
  /\ (Z.to_nat (LA.readCount sampling_example) < 5)%nat
  /\ exists b' rest,
       LA.captureAll 1 5 (sampling_example, world_with []) =
         Ok (tt, (LA.with_buffer_ptr (Some b') sampling_example,
                  with_waited_us 9 (with_pin_reads 3 (world_with []))))
       /\ RB.available b' = 3
       /\ RB.drain b' = Ok ([1; 2; 3], rest).
Proof.
  assert (HC : 0 < RB.size two_unread < 2 ^ 31) by (simpl; lia).
  assert (Hcount : 0 <= LA.readCount sampling_example <= RB.size two_unread)
    by (simpl; lia).
  assert (Hfuel : (Z.to_nat (LA.readCount sampling_example) < 5)%nat)
    by (simpl; lia).
  split; [reflexivity|]. split; [reflexivity|]. split; [reflexivity|].
  split; [exact HC|]. split; [reflexivity|]. split; [exact Hcount|].
  split; [exact Hfuel|].
  destruct (capture_loops_take_read_count_samples 1 sampling_example (world_with [])
              counting_pins two_unread 5 eq_refl eq_refl eq_refl HC eq_refl Hcount Hfuel)
    as (b' & rest & Hslow & _ & Hav & Hdrain).
  exists b', rest. split; [exact Hslow|]. split; [exact Hav|exact Hdrain].
Defined.

Lemma capture_loops_overrun_when_read_count_exceeds_size_witness :
  LA.status sampling_example = TRIGGERED
  /\ LA.impl_ptr sampling_example = Some counting_pins
  /\ LA.buffer_ptr sampling_example = Some (RB.clear two_unread)
  /\ 0 < RB.size two_unread < 2 ^ 31
  /\ Z.of_nat (length (RB.data two_unread)) = RB.size two_unread
  /\ int_min <= 5 <= int_max
  /\ (5 < 0 \/ RB.size two_unread < 5)
  /\ (Z.to_nat (RB.size two_unread) < 6)%nat
  /\ (LA.setReadCount 5;; LA.captureAll 1 6) (sampling_example, world_with [])
     = Fault (OutOfBounds 4).
Proof.
  assert (HC : 0 < RB.size two_unread < 2 ^ 31) by (simpl; lia).
  assert (Hint : int_min <= 5 <= int_max) by (unfold int_min, int_max; lia).
  assert (Hcount : 5 < 0 \/ RB.size two_unread < 5) by (right; simpl; lia).
  assert (Hfuel : (Z.to_nat (RB.size two_unread) < 6)%nat) by (simpl; lia).
  split; [reflexivity|]. split; [reflexivity|]. split; [reflexivity|].
  split; [exact HC|]. split; [reflexivity|]. split; [exact Hint|].
  split; [exact Hcount|]. split; [exact Hfuel|].
  exact (proj1 (capture_loops_overrun_when_read_count_exceeds_size 1 sampling_example
                  (world_with []) counting_pins two_unread 5 6
                  eq_refl eq_refl eq_refl HC eq_refl Hint Hcount Hfuel)).
Defined.

Lemma arm_command_captures_and_dumps_witness :
  LA.buffer_ptr ready_example = Some two_unread
  /\ LA.impl_ptr ready_example = Some counting_pins
  /\ LA.isContinuousCapture ready_example = false
  /\ LA.triggerMask ready_example = 0
  /\ LA.readCount ready_example = LA.delayCount ready_example
  /\ 0 < RB.size two_unread < 2 ^ 31
  /\ Z.of_nat (length (RB.data two_unread)) = RB.size two_unread
  /\ 0 <= LA.readCount ready_example <= RB.size two_unread
  /\ (Z.to_nat (LA.readCount ready_example) < 5)%nat
  /\ exists (w' : World) (b' : RB.t),
       LA.processCommand 1 LittleEndian 5 SUMP_ARM (ready_example, world_with []) =
         Ok (tt, (LA.with_buffer_ptr (Some b')
                    (LA.with_status_value STOPPED ready_example), w'))
       /\ RB.available b' = 0
       /\ tx w' = [SWriteBuffer [1; 0; 0; 0]; SWriteBuffer [2; 0; 0; 0];
                   SWriteBuffer [3; 0; 0; 0]; SFlush]
       /\ events w' = [STATUS; STATUS; STATUS]
       /\ waited_us w' = 9.
Proof.
  assert (HC : 0 < RB.size two_unread < 2 ^ 31) by (simpl; lia).
  assert (Hcount : 0 <= LA.readCount ready_example <= RB.size two_unread)
    by (simpl; lia).
  assert (Hfuel : (Z.to_nat (LA.readCount ready_example) < 5)%nat)
    by (simpl; lia).
  split; [reflexivity|]. split; [reflexivity|]. split; [reflexivity|].
  split; [reflexivity|]. split; [reflexivity|]. split; [exact HC|].
  split; [reflexivity|]. split; [exact Hcount|]. split; [exact Hfuel|].
  destruct (arm_command_captures_and_dumps 1 LittleEndian 5 ready_example (world_with [])
              two_unread counting_pins eq_refl eq_refl eq_refl eq_refl eq_refl
              HC eq_refl Hcount Hfuel)
    as (w' & b' & Hrun & Hav & Htx & _ & Hev & Hwait & _).
  exists w', b'. split; [exact Hrun|]. split; [exact Hav|].
  split; [exact Htx|]. split; [exact Hev|exact Hwait].
Defined.

Lemma arm_command_records_after_the_trigger_sample_witness :
  LA.buffer_ptr trigger_example = Some two_unread
  /\ LA.impl_ptr trigger_example = Some counting_pins
  /\ LA.isContinuousCapture trigger_example = false
  /\ LA.triggerMask trigger_example <> 0
  /\ LA.trigger_hit trigger_example (LA.sample_at 1 counting_pins (0 + 1))
  /\ (forall j, (j < 1)%nat ->
        ~ LA.trigger_hit trigger_example (LA.sample_at 1 counting_pins (0 + j)))
  /\ LA.readCount trigger_example = LA.delayCount trigger_example
  /\ 0 < RB.size two_unread < 2 ^ 31
  /\ Z.of_nat (length (RB.data two_unread)) = RB.size two_unread
  /\ 0 <= LA.readCount trigger_example <= RB.size two_unread
  /\ (Z.to_nat (LA.readCount trigger_example) < 5)%nat /\ (1 < 5)%nat
  /\ exists (w' : World) (b' : RB.t),
       LA.processCommand 1 LittleEndian 5 SUMP_ARM (trigger_example, world_with []) =
         Ok (tt, (LA.with_buffer_ptr (Some b')
                    (LA.with_status_value STOPPED trigger_example), w'))
       /\ tx w' = [SWriteBuffer [3; 0; 0; 0]; SWriteBuffer [4; 0; 0; 0];
                   SWriteBuffer [5; 0; 0; 0]; SFlush]
       /\ pin_reads w' = 5%nat.
Proof.
  assert (Hmask : LA.triggerMask trigger_example <> 0) by (simpl; lia).
  assert (Hhit : LA.trigger_hit trigger_example (LA.sample_at 1 counting_pins (0 + 1)))
    by reflexivity.
  assert (Hbefore : forall j, (j < 1)%nat ->
            ~ LA.trigger_hit trigger_example (LA.sample_at 1 counting_pins (0 + j))).
  { intros j Hj. destruct j as [|j]; [vm_compute; discriminate|lia]. }
  assert (HC : 0 < RB.size two_unread < 2 ^ 31) by (simpl; lia).
  assert (Hcount : 0 <= LA.readCount trigger_example <= RB.size two_unread)
    by (simpl; lia).
  assert (Hfuel : (Z.to_nat (LA.readCount trigger_example) < 5)%nat)
    by (simpl; lia).
  assert (Hk : (1 < 5)%nat) by lia.
  split; [reflexivity|]. split; [reflexivity|]. split; [reflexivity|].
  split; [exact Hmask|]. split; [exact Hhit|]. split; [exact Hbefore|].
  split; [reflexivity|]. split; [exact HC|]. split; [reflexivity|].
  split; [exact Hcount|]. split; [exact Hfuel|]. split; [exact Hk|].
  destruct (arm_command_records_after_the_trigger_sample 1 LittleEndian 5 trigger_example
              (world_with []) two_unread counting_pins 1 eq_refl eq_refl eq_refl
              Hmask Hhit Hbefore eq_refl HC eq_refl Hcount Hfuel Hk)
    as (w' & b' & Hrun & _ & Htx & Hreads).
  exists w', b'. split; [exact Hrun|]. split; [exact Htx|exact Hreads].
Defined.

Lemma begin_then_arm_captures_max_capture_size_witness :
  0 < 2 < 2 ^ 31
  /\ (Z.to_nat 2 < 5)%nat
  /\ exists (la' : LA.t) (w' : World),
       (LA.begin counting_pins 1000000 500000 2 0 8 (Some (fun _ => 0));;
        LA.processCommand 1 LittleEndian 5 SUMP_ARM) (LA.new blank, world_with []) =
         Ok (tt, (la', w'))
       /\ LA.status la' = STOPPED
       /\ tx w' = [SWriteBuffer [1; 0; 0; 0]; SWriteBuffer [2; 0; 0; 0]; SFlush].
Proof.
  assert (Hsize : 0 < 2 < 2 ^ 31) by lia.
  assert (Hfuel : (Z.to_nat 2 < 5)%nat) by (simpl; lia).
  split; [exact Hsize|]. split; [exact Hfuel|].
  destruct (begin_then_arm_captures_max_capture_size 1 LittleEndian 5 blank (world_with [])
              counting_pins 1000000 500000 2 0 8 (fun _ => 0) Hsize Hfuel)
    as (la' & w' & b' & Hrun & Hst & _ & _ & Htx & _).
  exists la', w'. split; [exact Hrun|]. split; [exact Hst|exact Htx].
Defined.

Lemma continuous_capture_never_returns_witness :
  LA.buffer_ptr sampling_example = Some (RB.clear two_unread)
  /\ LA.impl_ptr sampling_example = Some counting_pins
  /\ LA.status sampling_example = TRIGGERED
  /\ LA.captureAllContinous 1 LittleEndian 7 (sampling_example, world_with [])
     = Fault OutOfFuel.
Proof.
  split; [reflexivity|]. split; [reflexivity|]. split; [reflexivity|].
  exact (proj1 (proj1 (continuous_capture_never_returns 1 LittleEndian 7
                         sampling_example (world_with []) (RB.clear two_unread)
                         counting_pins eq_refl eq_refl) eq_refl)).
Defined.

Lemma capture_before_begin_faults_witness :
  LA.buffer_ptr (LA.new blank) = None
  /\ LA.impl_ptr (LA.new blank) = None
  /\ (0 < 5)%nat
  /\ int_min < LA.readCount (LA.new blank) - LA.delayCount (LA.new blank) <= int_max
  /\ LA.capture 1 LittleEndian 5 false true (LA.new blank, world_with [])
     = Fault NullPointer.
Proof.
  assert (Hfuel : (0 < 5)%nat) by lia.
  assert (Hkeep : int_min < LA.readCount (LA.new blank) - LA.delayCount (LA.new blank)
                  <= int_max)
    by (unfold int_min, int_max; simpl; lia).
  split; [reflexivity|]. split; [reflexivity|]. split; [exact Hfuel|].
  split; [exact Hkeep|].
  exact (capture_before_begin_faults 1 LittleEndian 5 false true (LA.new blank)
           (world_with []) eq_refl eq_refl Hfuel Hkeep).
Defined.

Lemma reset_zeroes_and_empties_buffer_witness :
  LA.buffer_ptr ready_example = Some two_unread
  /\ Z.of_nat (length (RB.data two_unread)) = LA.max_capture_size ready_example
  /\ LA.reset (ready_example, world_with []) =
       Ok (tt, (LA.with_buffer_ptr (Some (RB.mk 0 4 0 0 0 [0; 0; 0; 0]))
                  (LA.with_status_value STOPPED ready_example),
                with_events [STATUS; RESET] (world_with []))).
Proof.
  split; [reflexivity|]. split; [reflexivity|].
  exact (proj1 (reset_zeroes_and_empties_buffer ready_example (world_with [])
                  two_unread eq_refl) eq_refl).
Defined.
